(** * BookVerse: rating aggregation and review consistency

    A shallow embedding of the back end of the book-review platform:
    the Review and Book models (models/Review.js, models/Book.js) and
    the review and book routes (routes/reviews.js, routes/books.js),
    over an explicit model of the document store.

    The reading routes, the virtual fields and the statistics of the
    two models and, of the front end, the page buttons
    (components/Pagination.js) and the stars of
    components/RatingAnalytics.js are embedded as well.

    Conventions.
    - A JavaScript number is an exact rational ([Q]); [NaN] is added
      where the source can produce it.  Rounding error of IEEE doubles
      is not modelled.
    - A collection is the list of its documents in insertion order.
    - An ObjectId is the number its 24 hexadecimal digits denote.
    - Query filters are handed to the store as written (the default of
      the Mongoose generation the server is written for: it connects
      with [useNewUrlParser]/[useUnifiedTopology] and closes the
      connection with a callback), so a filter on a path that no
      document carries matches no document.
    - A field of a request body holds a JSON value of the documented
      type (a string, a number) or is absent.
    - Handlers run one at a time; [clock] is the instant at which the
      current handler runs and [year] the calendar year. *)

From Stdlib Require Import List String Ascii Bool ZArith NArith QArith Qround Lia Lqa.
From Stdlib Require Import Permutation Sorted.
Import ListNotations.
Local Open Scope string_scope.

Set Implicit Arguments.

(** ** JavaScript built-ins used by the source *)

Module Js.

(** [Number] with [NaN], for arithmetic on possibly undefined operands. *)
Inductive number : Type :=
| Num (q : Q)
| NaN.

(** [Math.round]: the nearest integer, halves towards plus infinity. *)
Definition Math_round (x : Q) : Z := Qfloor (x + (1 # 2)).

(** [Math.round(x * 10) / 10] *)
Definition round1 (x : Q) : Q := inject_Z (Math_round (x * 10)) / 10.

(** [Number.isInteger] *)
Definition Number_isInteger (x : Q) : bool := Qeq_bool (inject_Z (Qfloor x)) x.

Definition Qleb (x y : Q) : bool := Qle_bool x y.

(** [sum + operand] where the operand is a number or [undefined]. *)
Definition add (sum : number) (operand : option Q) : number :=
  match sum, operand with
  | Num a, Some b => Num (a + b)
  | _, _ => NaN
  end.

(** [total / n] *)
Definition div (total : number) (n : nat) : number :=
  match total with
  | Num a => Num (a / inject_Z (Z.of_nat n))
  | NaN => NaN
  end.

(** Truthiness of an optional number and of an optional string. *)
Definition truthy_num (v : option Q) : bool :=
  match v with
  | Some q => negb (Qeq_bool q 0)
  | None => false
  end.

Definition truthy_str (v : option string) : bool :=
  match v with
  | Some s => negb (String.eqb s "")
  | None => false
  end.

Definition code (c : ascii) : N := N_of_ascii c.

Definition between (lo hi : N) (c : ascii) : bool :=
  (lo <=? code c)%N && (code c <=? hi)%N.

(** [\s] on ASCII: tab, line feed, vertical tab, form feed, carriage
    return and space. *)
Definition is_space (c : ascii) : bool :=
  between 9 13 c || (code c =? 32)%N.

Definition is_digit (c : ascii) : bool := between 48 57 c.
Definition is_letter (c : ascii) : bool := between 65 90 c || between 97 122 c.

(** [\w] *)
Definition is_word (c : ascii) : bool :=
  is_letter c || is_digit c || (code c =? 95)%N.

Fixpoint drop_while (p : ascii -> bool) (l : list ascii) : list ascii :=
  match l with
  | [] => []
  | c :: l' => if p c then drop_while p l' else l
  end.

(** [String.prototype.trim] *)
Definition trim (s : string) : string :=
  string_of_list_ascii
    (rev (drop_while is_space (rev (drop_while is_space (list_ascii_of_string s))))).

(** [s.replace(/\s+/g, ' ')]: every maximal run of white space
    becomes one space. *)
Fixpoint collapse_spaces (in_run : bool) (l : list ascii) : list ascii :=
  match l with
  | [] => []
  | c :: l' =>
      if is_space c
      then (if in_run then collapse_spaces true l'
            else " "%char :: collapse_spaces true l')
      else c :: collapse_spaces false l'
  end.

Definition squeeze (s : string) : string :=
  string_of_list_ascii (collapse_spaces false (list_ascii_of_string s)).

(** [s.replace(/[^\w]/g, '').length] *)
Definition count_word (s : string) : nat :=
  List.length (filter is_word (list_ascii_of_string s)).

(** [/[a-zA-Z0-9]/.test(s)] and [/[a-zA-Z]/.test(s)] *)
Definition has_alnum (s : string) : bool :=
  existsb (fun c => is_letter c || is_digit c) (list_ascii_of_string s).

Definition has_letter (s : string) : bool :=
  existsb is_letter (list_ascii_of_string s).

Definition len_between (lo hi : nat) (s : string) : bool :=
  (lo <=? String.length s)%nat && (String.length s <=? hi)%nat.

End Js.

(** ** The store's identifiers and query filters *)

Definition ObjectId : Type := N.

Module Mongo.

Definition hex_digit (c : ascii) : option N :=
  if Js.between 48 57 c then Some (Js.code c - 48)%N
  else if Js.between 97 102 c then Some (Js.code c - 87)%N
  else if Js.between 65 70 c then Some (Js.code c - 55)%N
  else None.

Fixpoint parse_hex (acc : N) (l : list ascii) : option N :=
  match l with
  | [] => Some acc
  | c :: l' =>
      match hex_digit c with
      | Some d => parse_hex (16 * acc + d)%N l'
      | None => None
      end
  end.

(** Casting a request string to an ObjectId: 24 hexadecimal digits.
    A string of any other shape raises a [CastError] of kind
    ["ObjectId"], rendered as [None]. *)
Definition castObjectId (s : string) : option ObjectId :=
  if (String.length s =? 24)%nat
  then parse_hex 0%N (list_ascii_of_string s)
  else None.

(** Values a filter can compare a path with. *)
Inductive value : Type :=
| VId (o : ObjectId)
| VNum (q : Q)
| VStr (s : string).

Definition value_eqb (a b : value) : bool :=
  match a, b with
  | VId x, VId y => (x =? y)%N
  | VNum x, VNum y => Qeq_bool x y
  | VStr x, VStr y => String.eqb x y
  | _, _ => false
  end.

(** A filter is a conjunction of [path: value] conditions. *)
Definition filter_t : Type := list (string * value).

Section Query.
Variable doc : Type.
(** The value a document carries at a path, if it carries the path. *)
Variable get : doc -> string -> option value.

Definition holds (d : doc) (cond : string * value) : bool :=
  match get d (fst cond) with
  | Some v => value_eqb v (snd cond)
  | None => false
  end.

Definition matches (f : filter_t) (d : doc) : bool := forallb (holds d) f.

(** [Model.find(filter)] *)
Definition find (f : filter_t) (coll : list doc) : list doc :=
  filter (matches f) coll.

(** [Model.findOne(filter)] *)
Definition findOne (f : filter_t) (coll : list doc) : option doc :=
  List.find (matches f) coll.

(** [Model.deleteMany(filter)] *)
Definition deleteMany (f : filter_t) (coll : list doc) : list doc :=
  filter (fun d => negb (matches f d)) coll.

(** Update of the first document that satisfies [p], as
    [findOneAndUpdate] does. *)
Fixpoint update_first (p : doc -> bool) (upd : doc -> doc) (coll : list doc)
  : list doc :=
  match coll with
  | [] => []
  | d :: rest =>
      if p d then upd d :: rest else d :: update_first p upd rest
  end.

(** Removal of the first document that satisfies [p], as
    [findOneAndDelete] does. *)
Fixpoint remove_first (p : doc -> bool) (coll : list doc) : list doc :=
  match coll with
  | [] => []
  | d :: rest => if p d then rest else d :: remove_first p rest
  end.
End Query.

End Mongo.

(** ** express-validator chains used by the routes *)

Module Validator.

(** [isMongoId()] *)
Definition isMongoId (v : option string) : bool :=
  match v with
  | Some s =>
      match Mongo.castObjectId s with
      | Some _ => true
      | None => false
      end
  | None => false
  end.

(** [isInt({ min, max })] on a JSON number. *)
Definition isInt (lo hi : Z) (v : option Q) : bool :=
  match v with
  | Some q =>
      Js.Number_isInteger q && Js.Qleb (inject_Z lo) q && Js.Qleb q (inject_Z hi)
  | None => false
  end.

(** [trim()], a sanitizer: it rewrites the field in the request. *)
Definition trim (v : option string) : option string := option_map Js.trim v.

(** [isLength({ min, max })] and [isLength({ min })] *)
Definition isLength (lo hi : nat) (v : option string) : bool :=
  match v with
  | Some s => Js.len_between lo hi s
  | None => false
  end.

Definition isLengthMin (lo : nat) (v : option string) : bool :=
  match v with
  | Some s => (lo <=? String.length s)%nat
  | None => false
  end.

(** [isIn(values)] *)
Definition isIn (values : list string) (v : option string) : bool :=
  match v with
  | Some s => existsb (String.eqb s) values
  | None => false
  end.

(** [optional()]: the chain is skipped when the field is absent. *)
Definition optional (A : Type) (check : option A -> bool) (v : option A) : bool :=
  match v with
  | Some _ => check v
  | None => true
  end.

(** One entry of [errors.array()]: the message of a failed chain. *)
Definition report (ok : bool) (msg : string) : list string :=
  if ok then [] else [msg].

End Validator.

(** ** models/Review.js *)

Module Review.

(** A review document.  The paths [readingContext], [wouldRecommend],
    [readingStatus], [helpfulVotes], [isFlagged], [flagReason] and
    [isPublic] are never written by a route and keep their schema
    defaults; they are left out. *)
Record t : Type := mk {
  _id : ObjectId;
  reviewedBook : ObjectId;
  reviewAuthor : ObjectId;
  starRating : Q;
  reviewContent : string;
  sharedOn : Z;
  lastModified : Z;
  createdAt : Z;
  updatedAt : Z
}.

(** The value stored at a path; [None] for a name that is not a path
    of the schema ([bookId], [rating], ...). *)
Definition get (r : t) (path : string) : option Mongo.value :=
  if String.eqb path "_id" then Some (Mongo.VId (_id r))
  else if String.eqb path "reviewedBook" then Some (Mongo.VId (reviewedBook r))
  else if String.eqb path "reviewAuthor" then Some (Mongo.VId (reviewAuthor r))
  else if String.eqb path "starRating" then Some (Mongo.VNum (starRating r))
  else if String.eqb path "reviewContent" then Some (Mongo.VStr (reviewContent r))
  else if String.eqb path "sharedOn" then Some (Mongo.VNum (inject_Z (sharedOn r)))
  else if String.eqb path "lastModified" then Some (Mongo.VNum (inject_Z (lastModified r)))
  else if String.eqb path "createdAt" then Some (Mongo.VNum (inject_Z (createdAt r)))
  else if String.eqb path "updatedAt" then Some (Mongo.VNum (inject_Z (updatedAt r)))
  else None.

(** Reading a property as a number, as [review.rating] does. *)
Definition get_number (r : t) (path : string) : option Q :=
  match get r path with
  | Some (Mongo.VNum q) => Some q
  | _ => None
  end.

Definition set_starRating (v : Q) (r : t) : t :=
  mk (_id r) (reviewedBook r) (reviewAuthor r) v (reviewContent r)
     (sharedOn r) (lastModified r) (createdAt r) (updatedAt r).

(** The schema declares [trim: true] on [reviewContent]. *)
Definition set_reviewContent (v : string) (r : t) : t :=
  mk (_id r) (reviewedBook r) (reviewAuthor r) (starRating r) (Js.trim v)
     (sharedOn r) (lastModified r) (createdAt r) (updatedAt r).

Definition set_lastModified (v : Z) (r : t) : t :=
  mk (_id r) (reviewedBook r) (reviewAuthor r) (starRating r) (reviewContent r)
     (sharedOn r) v (createdAt r) (updatedAt r).

Definition set_updatedAt (v : Z) (r : t) : t :=
  mk (_id r) (reviewedBook r) (reviewAuthor r) (starRating r) (reviewContent r)
     (sharedOn r) (lastModified r) (createdAt r) v.

Definition set_createdAt (v : Z) (r : t) : t :=
  mk (_id r) (reviewedBook r) (reviewAuthor r) (starRating r) (reviewContent r)
     (sharedOn r) (lastModified r) v (updatedAt r).

(** Validators of [starRating]: [min: 1], [max: 5], whole number. *)
Definition valid_starRating (v : Q) : bool :=
  Js.Qleb 1 v && Js.Qleb v 5 && Js.Number_isInteger v.

(** Validators of [reviewContent]: required, [minlength: 10],
    [maxlength: 1000], at least five word characters. *)
Definition valid_reviewContent (v : string) : bool :=
  Js.len_between 10 1000 v && (5 <=? Js.count_word v)%nat.

(** [this.reviewAuthor.toString() === userId.toString()] *)
Definition canBeEditedBy (r : t) (userId : ObjectId) : bool :=
  (reviewAuthor r =? userId)%N.

(** The unique index [one_review_per_user_per_book]: the key of a
    document. *)
Definition index_key (r : t) : ObjectId * ObjectId :=
  (reviewedBook r, reviewAuthor r).

Definition same_key (a b : t) : bool :=
  (reviewedBook a =? reviewedBook b)%N && (reviewAuthor a =? reviewAuthor b)%N.

(** The pre-save hook: refresh [lastModified] when the content or the
    rating was modified, and squeeze white space in the content. *)
Definition pre_save (now : Z) (modified : bool) (r : t) : t :=
  let r1 := if modified then set_lastModified now r else r in
  if negb (String.eqb (reviewContent r1) "")
  then set_reviewContent (Js.trim (Js.squeeze (reviewContent r1))) r1
  else r1.

End Review.

(** ** models/Book.js *)

Module Book.

(** A book document.  The paths [readingLevel], [estimatedReadingTime],
    [isAvailable], [bookTags] and [addedToLibrary] are never written by
    a route and keep their schema defaults; they are left out, and
    with them the tag clean-up of the pre-save hook. *)
Record t : Type := mk {
  _id : ObjectId;
  bookTitle : string;
  authorName : string;
  bookSummary : string;
  literaryGenre : string;
  publicationYear : Q;
  sharedBy : ObjectId;
  communityRating : Q;
  reviewCount : nat;
  createdAt : Z;
  updatedAt : Z
}.

Definition set_bookTitle (v : string) (b : t) : t :=
  mk (_id b) (Js.trim v) (authorName b) (bookSummary b) (literaryGenre b)
     (publicationYear b) (sharedBy b) (communityRating b) (reviewCount b)
     (createdAt b) (updatedAt b).

Definition set_authorName (v : string) (b : t) : t :=
  mk (_id b) (bookTitle b) (Js.trim v) (bookSummary b) (literaryGenre b)
     (publicationYear b) (sharedBy b) (communityRating b) (reviewCount b)
     (createdAt b) (updatedAt b).

Definition set_bookSummary (v : string) (b : t) : t :=
  mk (_id b) (bookTitle b) (authorName b) (Js.trim v) (literaryGenre b)
     (publicationYear b) (sharedBy b) (communityRating b) (reviewCount b)
     (createdAt b) (updatedAt b).

Definition set_literaryGenre (v : string) (b : t) : t :=
  mk (_id b) (bookTitle b) (authorName b) (bookSummary b) v
     (publicationYear b) (sharedBy b) (communityRating b) (reviewCount b)
     (createdAt b) (updatedAt b).

Definition set_publicationYear (v : Q) (b : t) : t :=
  mk (_id b) (bookTitle b) (authorName b) (bookSummary b) (literaryGenre b)
     v (sharedBy b) (communityRating b) (reviewCount b)
     (createdAt b) (updatedAt b).

(** The schema's setter on [communityRating] rounds to one decimal. *)
Definition set_communityRating (v : Q) (b : t) : t :=
  mk (_id b) (bookTitle b) (authorName b) (bookSummary b) (literaryGenre b)
     (publicationYear b) (sharedBy b) (Js.round1 v) (reviewCount b)
     (createdAt b) (updatedAt b).

Definition set_reviewCount (v : nat) (b : t) : t :=
  mk (_id b) (bookTitle b) (authorName b) (bookSummary b) (literaryGenre b)
     (publicationYear b) (sharedBy b) (communityRating b) v
     (createdAt b) (updatedAt b).

Definition set_updatedAt (v : Z) (b : t) : t :=
  mk (_id b) (bookTitle b) (authorName b) (bookSummary b) (literaryGenre b)
     (publicationYear b) (sharedBy b) (communityRating b) (reviewCount b)
     (createdAt b) v.

Definition genres : list string :=
  ["Fiction"; "Non-Fiction"; "Mystery"; "Romance"; "Sci-Fi"; "Fantasy";
   "Biography"; "History"; "Self-Help"; "Technology"; "Poetry"; "Drama";
   "Other"].

Definition valid_bookTitle (v : string) : bool :=
  Js.len_between 1 200 v && Js.has_alnum v.

Definition valid_authorName (v : string) : bool :=
  Js.len_between 2 100 v && Js.has_letter v.

Definition valid_bookSummary (v : string) : bool := Js.len_between 10 1000 v.

Definition valid_literaryGenre (v : string) : bool :=
  existsb (String.eqb v) genres.

(** [min: 1000], [max: year + 1] and the validator's range
    [1400 .. year + 1]. *)
Definition valid_publicationYear (year : Z) (v : Q) : bool :=
  Js.Qleb 1000 v && Js.Qleb v (inject_Z (year + 1)) && Js.Qleb 1400 v.

Definition valid_communityRating (v : Q) : bool := Js.Qleb 0 v && Js.Qleb v 5.

(** Validation of a whole document, as [save()] runs it. *)
Definition validate (year : Z) (b : t) : bool :=
  valid_bookTitle (bookTitle b) && valid_authorName (authorName b)
  && valid_bookSummary (bookSummary b) && valid_literaryGenre (literaryGenre b)
  && valid_publicationYear year (publicationYear b)
  && valid_communityRating (communityRating b).

(** The pre-save hook: keep the rating within bounds. *)
Definition pre_save (b : t) : t :=
  let b1 :=
    if negb (Js.Qleb 0 (communityRating b)) then set_communityRating 0 b else b in
  if negb (Js.Qleb (communityRating b1) 5) then set_communityRating 5 b1 else b1.

(** [this.sharedBy.toString() === userId.toString()] *)
Definition canBeEditedBy (b : t) (userId : ObjectId) : bool :=
  (sharedBy b =? userId)%N.

End Book.

(** ** The store *)

Record State : Type := mkState {
  books : list Book.t;
  reviews : list Review.t;
  users : list ObjectId;
  nextId : N;
  clock : Z;
  year : Z
}.

Definition with_books (bs : list Book.t) (s : State) : State :=
  mkState bs (reviews s) (users s) (nextId s) (clock s) (year s).

Definition with_reviews (rs : list Review.t) (s : State) : State :=
  mkState (books s) rs (users s) (nextId s) (clock s) (year s).

(** A fresh ObjectId is drawn when a document is constructed. *)
Definition with_nextId (n : N) (s : State) : State :=
  mkState (books s) (reviews s) (users s) n (clock s) (year s).

Definition is_id (A : Type) (id_of : A -> ObjectId) (id : ObjectId) (d : A) : bool :=
  (id_of d =? id)%N.

(** [Book.findById], [Review.findById], [User.findById] *)
Definition Book_findById (id : ObjectId) (s : State) : option Book.t :=
  List.find (is_id Book._id id) (books s).

Definition Review_findById (id : ObjectId) (s : State) : option Review.t :=
  List.find (is_id Review._id id) (reviews s).

Definition User_exists (id : ObjectId) (s : State) : bool :=
  existsb (N.eqb id) (users s).

(** Errors a model operation can throw. *)
Inductive Error : Type :=
| ValidationFailed
| DuplicateKey.

Inductive outcome (A : Type) : Type :=
| Ok (a : A)
| Throw (e : Error).
Arguments Ok {A} a.
Arguments Throw {A} e.

(** ** Book.methods.recalculateRating and the saving of a book *)

Definition Book_store_metrics (rating : Q) (count : nat) (stamp : Z) (d : Book.t)
  : Book.t :=
  Book.mk (Book._id d) (Book.bookTitle d) (Book.authorName d) (Book.bookSummary d)
          (Book.literaryGenre d) (Book.publicationYear d) (Book.sharedBy d)
          rating count (Book.createdAt d) stamp.

(** [book.save()] on a document loaded as [loaded] and since assigned to
    become [b]: validation, the pre-save hook, then the write of the
    modified paths.  [updatedAt] is refreshed when a path was modified
    (schema option [timestamps: true]). *)
Definition Book_save (loaded b : Book.t) (s : State) : outcome State :=
  if negb (Book.validate (year s) b) then Throw ValidationFailed
  else
    let b1 := Book.pre_save b in
    let modified :=
      negb (Qeq_bool (Book.communityRating loaded) (Book.communityRating b1))
      || negb (Book.reviewCount loaded =? Book.reviewCount b1)%nat in
    if modified
    then Ok (with_books
               (Mongo.update_first (is_id Book._id (Book._id b1))
                  (Book_store_metrics (Book.communityRating b1)
                                      (Book.reviewCount b1) (clock s))
                  (books s)) s)
    else Ok s.

(** [recalculateRating]: the reviews are looked up under [bookId] and
    summed over [rating].  Assigning [NaN] to [communityRating] fails
    the cast and leaves the document invalid, so that [save()] rejects. *)
Definition recalculateRating (this : Book.t) (s : State) : outcome State :=
  let found :=
    Mongo.find Review.get [("bookId", Mongo.VId (Book._id this))] (reviews s) in
  if (List.length found =? 0)%nat
  then Book_save this (Book.set_reviewCount 0 (Book.set_communityRating 0 this)) s
  else
    let totalRating :=
      fold_left (fun sum review => Js.add sum (Review.get_number review "rating"))
                found (Js.Num 0) in
    match Js.div totalRating (List.length found) with
    | Js.Num q =>
        Book_save this
          (Book.set_reviewCount (List.length found) (Book.set_communityRating q this)) s
    | Js.NaN => Throw ValidationFailed
    end.

(** ** Hooks of the Review schema *)

(** Shared body of [post('save')] and [post('findOneAndDelete')]: the
    book is looked up and, if it is there, recalculated; an error is
    logged and dropped. *)
Definition recalculate_after (doc : Review.t) (s : State) : State :=
  match Book_findById (Review.reviewedBook doc) s with
  | Some book =>
      match recalculateRating book s with
      | Ok s' => s'
      | Throw _ => s
      end
  | None => s
  end.

Definition Review_post_save (this : Review.t) (s : State) : State :=
  recalculate_after this s.

Definition Review_post_findOneAndDelete (doc : option Review.t) (s : State) : State :=
  match doc with
  | Some d => recalculate_after d s
  | None => s
  end.

(** Validation of a review document, as [save()] runs it: both
    references must resolve, and rating and content must pass. *)
Definition Review_validate (r : Review.t) (s : State) : bool :=
  match Book_findById (Review.reviewedBook r) s with
  | Some _ => true
  | None => false
  end
  && User_exists (Review.reviewAuthor r) s
  && Review.valid_starRating (Review.starRating r)
  && Review.valid_reviewContent (Review.reviewContent r).

(** Insertion under the unique index on (reviewedBook, reviewAuthor). *)
Definition Review_insert (r : Review.t) (s : State) : outcome State :=
  if existsb (Review.same_key r) (reviews s) then Throw DuplicateKey
  else Ok (with_reviews (reviews s ++ [r]) s).

(** [review.save()] on a new document; the result carries the document
    as stored. *)
Definition Review_save (r : Review.t) (s : State) : outcome (Review.t * State) :=
  if negb (Review_validate r s) then Throw ValidationFailed
  else
    let r1 := Review.pre_save (clock s) true r in
    let r2 := Review.set_updatedAt (clock s) (Review.set_createdAt (clock s) r1) in
    match Review_insert r2 s with
    | Ok s1 => Ok (r2, Review_post_save r2 s1)
    | Throw e => Throw e
    end.

(** [new Review({ reviewedBook, reviewAuthor, starRating, reviewContent })] *)
Definition new_Review (bookId user : ObjectId) (rating : Q) (text : string)
           (s : State) : Review.t * State :=
  (Review.set_reviewContent text
     (Review.mk (nextId s) bookId user rating "" (clock s) (clock s) 0 0),
   with_nextId (nextId s + 1)%N s).

(** The [$set] object of the review update. *)
Record ReviewUpdate : Type := mkReviewUpdate {
  upd_starRating : option Q;
  upd_reviewContent : option string
}.

Definition apply_ReviewUpdate (u : ReviewUpdate) (stamp : Z) (r : Review.t) : Review.t :=
  let r1 := match upd_starRating u with
            | Some v => Review.set_starRating v r
            | None => r
            end in
  let r2 := match upd_reviewContent u with
            | Some v => Review.set_reviewContent v r1
            | None => r1
            end in
  Review.set_updatedAt stamp r2.

(** Update validators ([runValidators: true]) run on the paths present
    in the update, after casting and setters. *)
Definition ReviewUpdate_valid (u : ReviewUpdate) : bool :=
  match upd_starRating u with
  | Some v => Review.valid_starRating v
  | None => true
  end
  && match upd_reviewContent u with
     | Some v => Review.valid_reviewContent (Js.trim v)
     | None => true
     end.

(** [Review.findByIdAndUpdate(id, { $set }, { new: true, runValidators: true })] *)
Definition Review_findByIdAndUpdate (id : ObjectId) (u : ReviewUpdate) (s : State)
  : outcome (option Review.t * State) :=
  if negb (ReviewUpdate_valid u) then Throw ValidationFailed
  else
    let s1 := with_reviews
                (Mongo.update_first (is_id Review._id id)
                   (apply_ReviewUpdate u (clock s)) (reviews s)) s in
    Ok (Review_findById id s1, s1).

(** [Review.findByIdAndDelete(id)], with its post hook. *)
Definition Review_findByIdAndDelete (id : ObjectId) (s : State) : State :=
  let doc := Review_findById id s in
  let s1 := with_reviews (Mongo.remove_first (is_id Review._id id) (reviews s)) s in
  Review_post_findOneAndDelete doc s1.

(** [Book.findByIdAndUpdate(id, { communityRating, reviewCount })]:
    the setter of [communityRating] applies, and [updatedAt] is
    refreshed (schema option [timestamps: true]). *)
Definition Book_update_metrics (rating : Q) (count : nat) (stamp : Z) (d : Book.t)
  : Book.t :=
  Book.set_updatedAt stamp (Book.set_reviewCount count (Book.set_communityRating rating d)).

Definition Book_findByIdAndUpdate_metrics (id : ObjectId) (rating : Q) (count : nat)
           (s : State) : State :=
  with_books
    (Mongo.update_first (is_id Book._id id)
       (Book_update_metrics rating count (clock s)) (books s)) s.

(** ** routes/reviews.js *)

(** Helper function to update book's average rating. *)
Definition updateBookRating (bookId : ObjectId) (s : State) : State :=
  let found :=
    Mongo.find Review.get [("reviewedBook", Mongo.VId bookId)] (reviews s) in
  let totalReviews := List.length found in
  let averageRating :=
    if (0 <? totalReviews)%nat
    then fold_left (fun sum review => sum + Review.starRating review) found 0
         / inject_Z (Z.of_nat totalReviews)
    else 0 in
  Book_findByIdAndUpdate_metrics bookId
    (inject_Z (Js.Math_round (averageRating * 10)) / 10) totalReviews s.

(** What a handler sends back. *)
Inductive Response : Type :=
| Errors (status : Z) (errors : list string)
| Message (status : Z) (message : string)
| ReviewReply (status : Z) (message : string) (review : Review.t)
| BookReply (status : Z) (message : string) (book : Book.t)
                (averageRating : Q) (totalReviews : nat).

Definition status_of (r : Response) : Z :=
  match r with
  | Errors st _ => st
  | Message st _ => st
  | ReviewReply st _ _ => st
  | BookReply st _ _ _ _ => st
  end.

Definition succeeded (r : Response) : bool :=
  (200 <=? status_of r)%Z && (status_of r <? 300)%Z.

(** The JSON body of POST /api/reviews. *)
Record ReviewBody : Type := mkReviewBody {
  bookId : option string;
  rating : option Q;
  reviewText : option string
}.

Definition post_review_errors (body : ReviewBody) : list string :=
  Validator.report (Validator.isMongoId (bookId body)) "Invalid book ID"
  ++ Validator.report (Validator.isInt 1 5 (rating body))
       "Rating must be between 1 and 5"
  ++ Validator.report (Validator.isLength 1 500 (Validator.trim (reviewText body)))
       "Review text is required and must be less than 500 characters".

(** POST /api/reviews, for the authenticated [user]. *)
Definition post_review (user : ObjectId) (body : ReviewBody) (s : State)
  : State * Response :=
  let errors := post_review_errors body in
  if negb (Nat.eqb (List.length errors) 0) then (s, Errors 400 errors)
  else
    match bookId body, rating body, Validator.trim (reviewText body) with
    | Some rawId, Some rating, Some reviewText =>
        match Mongo.castObjectId rawId with
        | None => (s, Message 500 "Server error")
        | Some bookId =>
            match Book_findById bookId s with
            | None => (s, Message 404 "Book not found")
            | Some _ =>
                match Mongo.findOne Review.get
                        [("reviewedBook", Mongo.VId bookId);
                         ("reviewAuthor", Mongo.VId user)] (reviews s) with
                | Some _ => (s, Message 400 "You have already reviewed this book")
                | None =>
                    let (review, s1) := new_Review bookId user rating reviewText s in
                    match Review_save review s1 with
                    | Throw _ => (s1, Message 500 "Server error")
                    | Ok (saved, s2) =>
                        let s3 := updateBookRating bookId s2 in
                        (s3, ReviewReply 201 "Review added successfully" saved)
                    end
                end
            end
        end
    | _, _, _ => (s, Message 500 "Server error")
    end.

(** The JSON body of PUT /api/reviews/:id. *)
Record ReviewPatch : Type := mkReviewPatch {
  patch_rating : option Q;
  patch_reviewText : option string
}.

Definition put_review_errors (body : ReviewPatch) : list string :=
  Validator.report (Validator.optional (Validator.isInt 1 5) (patch_rating body))
    "Rating must be between 1 and 5"
  ++ Validator.report
       (Validator.optional (Validator.isLength 1 500)
          (Validator.trim (patch_reviewText body)))
       "Review text must be less than 500 characters".

(** [updateData]: a field of the (sanitized) body is copied when it is
    truthy. *)
Definition review_updateData (body : ReviewPatch) : ReviewUpdate :=
  let reviewText := Validator.trim (patch_reviewText body) in
  mkReviewUpdate
    (if Js.truthy_num (patch_rating body) then patch_rating body else None)
    (if Js.truthy_str reviewText then reviewText else None).

(** PUT /api/reviews/:id *)
Definition put_review (id : string) (user : ObjectId) (body : ReviewPatch) (s : State)
  : State * Response :=
  let errors := put_review_errors body in
  if negb (Nat.eqb (List.length errors) 0) then (s, Errors 400 errors)
  else
    match Mongo.castObjectId id with
    | None => (s, Message 404 "Review not found")
    | Some rid =>
        match Review_findById rid s with
        | None => (s, Message 404 "Review not found")
        | Some review =>
            if negb (Review.canBeEditedBy review user)
            then (s, Message 403 "Not authorized to update this review")
            else
              let updateData := review_updateData body in
              match Review_findByIdAndUpdate rid updateData s with
              | Throw _ => (s, Message 500 "Server error")
              | Ok (updatedReview, s1) =>
                  let s2 := updateBookRating (Review.reviewedBook review) s1 in
                  match updatedReview with
                  | Some updated =>
                      (s2, ReviewReply 200 "Review updated successfully" updated)
                  | None => (s2, Message 500 "Server error")
                  end
              end
        end
    end.

(** DELETE /api/reviews/:id *)
Definition delete_review (id : string) (user : ObjectId) (s : State)
  : State * Response :=
  match Mongo.castObjectId id with
  | None => (s, Message 404 "Review not found")
  | Some rid =>
      match Review_findById rid s with
      | None => (s, Message 404 "Review not found")
      | Some review =>
          if negb (Review.canBeEditedBy review user)
          then (s, Message 403 "Not authorized to delete this review")
          else
            let bookId := Review.reviewedBook review in
            let s1 := Review_findByIdAndDelete rid s in
            let s2 := updateBookRating bookId s1 in
            (s2, Message 200 "Review deleted successfully")
      end
  end.

(** ** routes/books.js *)

(** The JSON body of POST and PUT /api/books.  Besides the five fields
    the handlers read, a client is free to send values under the names
    of the derived fields. *)
Record BookBody : Type := mkBookBody {
  title : option string;
  author : option string;
  description : option string;
  genre : option string;
  publishedYear : option Q;
  body_communityRating : option Q;
  body_reviewCount : option Q;
  body_averageRating : option Q;
  body_totalReviews : option Q
}.

Definition route_genres : list string :=
  ["Fiction"; "Non-Fiction"; "Mystery"; "Romance"; "Sci-Fi"; "Fantasy";
   "Biography"; "History"; "Self-Help"; "Other"].

(** [book.communityRating || 0] and [book.reviewCount || 0] *)
Definition exposed_averageRating (b : Book.t) : Q :=
  if Qeq_bool (Book.communityRating b) 0 then 0 else Book.communityRating b.

Definition exposed_totalReviews (b : Book.t) : nat :=
  if (Book.reviewCount b =? 0)%nat then 0%nat else Book.reviewCount b.

Definition reply_book (status : Z) (message : string) (b : Book.t) : Response :=
  BookReply status message b (exposed_averageRating b) (exposed_totalReviews b).

Definition post_book_errors (year : Z) (body : BookBody) : list string :=
  Validator.report (Validator.isLengthMin 1 (Validator.trim (title body)))
    "Title is required"
  ++ Validator.report (Validator.isLengthMin 1 (Validator.trim (author body)))
       "Author is required"
  ++ Validator.report (Validator.isLengthMin 1 (Validator.trim (description body)))
       "Description is required"
  ++ Validator.report (Validator.isIn route_genres (genre body)) "Invalid genre"
  ++ Validator.report (Validator.isInt 1000 year (publishedYear body))
       "Invalid published year".

(** [new Book({ bookTitle, authorName, bookSummary, literaryGenre,
    publicationYear, sharedBy })]: the derived fields take their schema
    default 0. *)
Definition new_Book (title author description genre : string) (publishedYear : Q)
           (user : ObjectId) (s : State) : Book.t * State :=
  (Book.set_publicationYear publishedYear
     (Book.set_literaryGenre genre
        (Book.set_bookSummary description
           (Book.set_authorName author
              (Book.set_bookTitle title
                 (Book.mk (nextId s) "" "" "" "" 0 user 0 0 0 0))))),
   with_nextId (nextId s + 1)%N s).

(** [book.save()] on a new document. *)
Definition Book_save_new (b : Book.t) (s : State) : outcome (Book.t * State) :=
  if negb (Book.validate (year s) b) then Throw ValidationFailed
  else
    let b1 := Book.pre_save b in
    let b2 := Book.mk (Book._id b1) (Book.bookTitle b1) (Book.authorName b1)
                (Book.bookSummary b1) (Book.literaryGenre b1)
                (Book.publicationYear b1) (Book.sharedBy b1)
                (Book.communityRating b1) (Book.reviewCount b1)
                (clock s) (clock s) in
    Ok (b2, with_books (books s ++ [b2]) s).

(** POST /api/books *)
Definition post_book (user : ObjectId) (body : BookBody) (s : State)
  : State * Response :=
  let errors := post_book_errors (year s) body in
  if negb (Nat.eqb (List.length errors) 0) then (s, Errors 400 errors)
  else
    match Validator.trim (title body), Validator.trim (author body),
          Validator.trim (description body), genre body, publishedYear body with
    | Some title, Some author, Some description, Some genre, Some publishedYear =>
        let (book, s1) := new_Book title author description genre publishedYear user s in
        match Book_save_new book s1 with
        | Throw _ => (s1, Message 500 "Server error")
        | Ok (saved, s2) => (s2, reply_book 201 "Book added successfully" saved)
        end
    | _, _, _, _, _ => (s, Message 500 "Server error")
    end.

Definition put_book_errors (year : Z) (body : BookBody) : list string :=
  Validator.report
    (Validator.optional (Validator.isLengthMin 1) (Validator.trim (title body)))
    "Title cannot be empty"
  ++ Validator.report
       (Validator.optional (Validator.isLengthMin 1) (Validator.trim (author body)))
       "Author cannot be empty"
  ++ Validator.report
       (Validator.optional (Validator.isLengthMin 1) (Validator.trim (description body)))
       "Description cannot be empty"
  ++ Validator.report (Validator.optional (Validator.isIn route_genres) (genre body))
       "Invalid genre"
  ++ Validator.report
       (Validator.optional (Validator.isInt 1000 year) (publishedYear body))
       "Invalid published year".

(** The [$set] object of the book update. *)
Record BookUpdate : Type := mkBookUpdate {
  upd_bookTitle : option string;
  upd_authorName : option string;
  upd_bookSummary : option string;
  upd_literaryGenre : option string;
  upd_publicationYear : option Q
}.

Definition set_if (A : Type) (setter : A -> Book.t -> Book.t) (v : option A)
           (b : Book.t) : Book.t :=
  match v with
  | Some x => setter x b
  | None => b
  end.

Definition apply_BookUpdate (u : BookUpdate) (stamp : Z) (b : Book.t) : Book.t :=
  Book.set_updatedAt stamp
    (set_if Book.set_publicationYear (upd_publicationYear u)
       (set_if Book.set_literaryGenre (upd_literaryGenre u)
          (set_if Book.set_bookSummary (upd_bookSummary u)
             (set_if Book.set_authorName (upd_authorName u)
                (set_if Book.set_bookTitle (upd_bookTitle u) b))))).

Definition valid_if (A : Type) (check : A -> bool) (v : option A) : bool :=
  match v with
  | Some x => check x
  | None => true
  end.

Definition BookUpdate_valid (year : Z) (u : BookUpdate) : bool :=
  valid_if (fun v => Book.valid_bookTitle (Js.trim v)) (upd_bookTitle u)
  && valid_if (fun v => Book.valid_authorName (Js.trim v)) (upd_authorName u)
  && valid_if (fun v => Book.valid_bookSummary (Js.trim v)) (upd_bookSummary u)
  && valid_if Book.valid_literaryGenre (upd_literaryGenre u)
  && valid_if (Book.valid_publicationYear year) (upd_publicationYear u).

(** [Book.findByIdAndUpdate(id, { $set }, { new: true, runValidators: true })] *)
Definition Book_findByIdAndUpdate (id : ObjectId) (u : BookUpdate) (s : State)
  : outcome (option Book.t * State) :=
  if negb (BookUpdate_valid (year s) u) then Throw ValidationFailed
  else
    let s1 := with_books
                (Mongo.update_first (is_id Book._id id)
                   (apply_BookUpdate u (clock s)) (books s)) s in
    Ok (Book_findById id s1, s1).

(** [updateData]: a field of the (sanitized) body is copied when it is
    truthy. *)
Definition book_updateData (body : BookBody) : BookUpdate :=
  let pick (v : option string) := if Js.truthy_str v then v else None in
  mkBookUpdate
    (pick (Validator.trim (title body)))
    (pick (Validator.trim (author body)))
    (pick (Validator.trim (description body)))
    (pick (genre body))
    (if Js.truthy_num (publishedYear body) then publishedYear body else None).

(** PUT /api/books/:id *)
Definition put_book (id : string) (user : ObjectId) (body : BookBody) (s : State)
  : State * Response :=
  let errors := put_book_errors (year s) body in
  if negb (Nat.eqb (List.length errors) 0) then (s, Errors 400 errors)
  else
    match Mongo.castObjectId id with
    | None => (s, Message 404 "Book not found")
    | Some bid =>
        match Book_findById bid s with
        | None => (s, Message 404 "Book not found")
        | Some book =>
            if negb (Book.canBeEditedBy book user)
            then (s, Message 403 "Not authorized to update this book")
            else
              let updateData := book_updateData body in
              match Book_findByIdAndUpdate bid updateData s with
              | Throw _ => (s, Message 500 "Server error")
              | Ok (Some updatedBook, s1) =>
                  (s1, reply_book 200 "Book updated successfully" updatedBook)
              | Ok (None, s1) => (s1, Message 500 "Server error")
              end
        end
    end.

(** DELETE /api/books/:id.  The reviews are deleted under the filter
    [{ bookId: req.params.id }]; [bookId] is no path of the Review
    schema, so the request string is compared as it is. *)
Definition delete_book (id : string) (user : ObjectId) (s : State)
  : State * Response :=
  match Mongo.castObjectId id with
  | None => (s, Message 404 "Book not found")
  | Some bid =>
      match Book_findById bid s with
      | None => (s, Message 404 "Book not found")
      | Some book =>
          if negb (Book.canBeEditedBy book user)
          then (s, Message 403 "Not authorized to delete this book")
          else
            let s1 := with_reviews
                        (Mongo.deleteMany Review.get [("bookId", Mongo.VStr id)]
                           (reviews s)) s in
            let s2 := with_books
                        (Mongo.remove_first (is_id Book._id bid) (books s1)) s1 in
            (s2, Message 200 "Book and associated reviews deleted successfully")
      end
  end.

(** ** The server as a transition system *)

Inductive Request : Type :=
| PostReview (user : ObjectId) (body : ReviewBody)
| PutReview (id : string) (user : ObjectId) (body : ReviewPatch)
| DeleteReview (id : string) (user : ObjectId)
| PostBook (user : ObjectId) (body : BookBody)
| PutBook (id : string) (user : ObjectId) (body : BookBody)
| DeleteBook (id : string) (user : ObjectId).

Definition handle (req : Request) (s : State) : State * Response :=
  match req with
  | PostReview user body => post_review user body s
  | PutReview id user body => put_review id user body s
  | DeleteReview id user => delete_review id user s
  | PostBook user body => post_book user body s
  | PutBook id user body => put_book id user body s
  | DeleteBook id user => delete_book id user s
  end.

(** The empty store. *)
Definition initial (clock year : Z) : State := mkState [] [] [] 0 clock year.

(** Account creation lives in the authentication routes; of it, only
    the new entry of the users collection is kept. *)
Definition sign_up (s : State) : State :=
  mkState (books s) (reviews s) (users s ++ [nextId s]) (nextId s + 1)%N
          (clock s) (year s).

(** Time passes between two handlers. *)
Definition tick (clock' year' : Z) (s : State) : State :=
  mkState (books s) (reviews s) (users s) (nextId s) clock' year'.

(** The states the server can be in: the years do not go back. *)
Inductive reachable : State -> Prop :=
| reach_initial : forall c y, reachable (initial c y)
| reach_request : forall req s, reachable s -> reachable (fst (handle req s))
| reach_sign_up : forall s, reachable s -> reachable (sign_up s)
| reach_tick : forall c y s,
    reachable s -> (year s <= y)%Z -> reachable (tick c y s).

(** ** What the specification speaks about *)

(** The reviews that reference a book, and their star ratings. *)
Definition references (b : ObjectId) (r : Review.t) : bool :=
  (Review.reviewedBook r =? b)%N.

Definition reviews_of (b : ObjectId) (s : State) : list Review.t :=
  filter (references b) (reviews s).

Definition ratings_of (b : ObjectId) (s : State) : list Q :=
  map Review.starRating (reviews_of b s).

Fixpoint total (l : list Q) : Q :=
  match l with
  | [] => 0
  | x :: l' => x + total l'
  end.

Definition mean (l : list Q) : Q := total l / inject_Z (Z.of_nat (List.length l)).

(** [v] is [x] rounded to one decimal place: a whole number of tenths
    nearest to [x], the upper one at a tie. *)
Definition rounded_to_one_decimal (x v : Q) : Prop :=
  (exists z : Z, v == inject_Z z / 10) /\ x - (1 # 20) < v /\ v <= x + (1 # 20).

(** The average the updater computes, before rounding. *)
Definition averageRating_of (b : ObjectId) (s : State) : Q :=
  let found := reviews_of b s in
  if (0 <? List.length found)%nat
  then fold_left (fun sum review => sum + Review.starRating review) found 0
       / inject_Z (Z.of_nat (List.length found))
  else 0.

(** The stored average of book [b] is what the specification asks for. *)
Definition average_settled (b : ObjectId) (s : State) : Prop :=
  forall bk, Book_findById b s = Some bk ->
    (ratings_of b s = [] ->
       Book.communityRating bk == 0 /\ exposed_averageRating bk == 0)
    /\ (ratings_of b s <> [] ->
          rounded_to_one_decimal (mean (ratings_of b s)) (Book.communityRating bk)
          /\ exposed_averageRating bk == Book.communityRating bk).

(** The stored count of book [b] is the number of its reviews. *)
Definition count_settled (b : ObjectId) (s : State) : Prop :=
  forall bk, Book_findById b s = Some bk ->
    Book.reviewCount bk = List.length (reviews_of b s)
    /\ exposed_totalReviews bk = List.length (reviews_of b s).

(** The fields of a book other than the two derived ones and the
    store-kept [updatedAt] agree. *)
Definition same_descriptive_fields (d d' : Book.t) : Prop :=
  Book._id d' = Book._id d
  /\ Book.bookTitle d' = Book.bookTitle d
  /\ Book.authorName d' = Book.authorName d
  /\ Book.bookSummary d' = Book.bookSummary d
  /\ Book.literaryGenre d' = Book.literaryGenre d
  /\ Book.publicationYear d' = Book.publicationYear d
  /\ Book.sharedBy d' = Book.sharedBy d
  /\ Book.createdAt d' = Book.createdAt d.

(** Two documents differ in the two derived fields at most. *)
Definition differ_in_derived_only (d d' : Book.t) : Prop :=
  same_descriptive_fields d d' /\ Book.updatedAt d' = Book.updatedAt d.

(** The two derived fields agree. *)
Definition same_derived_fields (d d' : Book.t) : Prop :=
  Book.communityRating d' = Book.communityRating d
  /\ Book.reviewCount d' = Book.reviewCount d.

(** A request body with other values under the names of the derived
    fields. *)
Definition with_derived_input (a b c d : option Q) (body : BookBody) : BookBody :=
  mkBookBody (title body) (author body) (description body) (genre body)
             (publishedYear body) a b c d.

(** The book a review request affects: the one named in the body of a
    creation, the one the addressed review references otherwise. *)
Definition affected_book (req : Request) (s : State) : option ObjectId :=
  match req with
  | PostReview _ body =>
      match bookId body with
      | Some raw => Mongo.castObjectId raw
      | None => None
      end
  | PutReview id _ _ | DeleteReview id _ =>
      match Mongo.castObjectId id with
      | Some rid => option_map Review.reviewedBook (Review_findById rid s)
      | None => None
      end
  | _ => None
  end.

(** The pair (book, user) already has a review. *)
Definition has_review (b u : ObjectId) (s : State) : bool :=
  existsb (fun r => (Review.reviewedBook r =? b)%N && (Review.reviewAuthor r =? u)%N)
          (reviews s).

(** At most one review per (book, user) pair. *)
Definition one_review_per_pair (rs : list Review.t) : Prop :=
  NoDup (map Review.index_key rs).

(** Request-level conditions, in plain terms. *)
Definition integer_within (lo hi : Z) (v : option Q) : Prop :=
  exists q z, v = Some q /\ q == inject_Z z /\ (lo <= z <= hi)%Z.

Definition text_within (lo hi : nat) (v : option string) : Prop :=
  exists t, v = Some t
            /\ (lo <= String.length (Js.trim t) <= hi)%nat.

Definition well_formed_id (v : option string) : Prop :=
  exists raw, v = Some raw /\ String.length raw = 24%nat
              /\ Forall (fun c => Mongo.hex_digit c <> None) (list_ascii_of_string raw).

(** A patch passes the request validation of the update: a field that
    is present is within bounds. *)
Definition patch_well_formed (patch : ReviewPatch) : Prop :=
  (patch_rating patch = None \/ integer_within 1 5 (patch_rating patch))
  /\ (patch_reviewText patch = None \/ text_within 1 500 (patch_reviewText patch)).

(** ** Consistency of the store *)

(** Identifiers are drawn from the counter, and book identifiers are
    not shared. *)
Definition well_formed (s : State) : Prop :=
  NoDup (map Book._id (books s))
  /\ Forall (fun bk => (Book._id bk < nextId s)%N) (books s)
  /\ Forall (fun r => (Review.reviewedBook r < nextId s)%N) (reviews s).

(** Every stored document passes the validators of its schema that
    bear on the aggregates. *)
Definition all_valid (s : State) : Prop :=
  Forall (fun bk => Book.validate (year s) bk = true) (books s)
  /\ Forall (fun r => Review.valid_starRating (Review.starRating r) = true) (reviews s).

(** Both aggregates are settled for every book but, possibly, [b0]. *)
Definition settled_except (b0 : option ObjectId) (s : State) : Prop :=
  forall b, Some b <> b0 -> average_settled b s /\ count_settled b s.

Definition consistent_except (b0 : option ObjectId) (s : State) : Prop :=
  well_formed s /\ all_valid s /\ settled_except b0 s.

Definition consistent (s : State) : Prop := consistent_except None s.

(** The documents of [s'] are those of [s]. *)
Definition same_documents (s s' : State) : Prop :=
  books s' = books s /\ reviews s' = reviews s /\ year s' = year s
  /\ (nextId s <= nextId s')%N.

(** What a handler does to the store: nothing, or the listed writes. *)
Inductive post_review_effect (s s' : State) : Prop :=
| post_review_nothing : same_documents s s' -> post_review_effect s s'
| post_review_stored (r : Review.t) :
    Book_findById (Review.reviewedBook r) s <> None ->
    Review.valid_starRating (Review.starRating r) = true ->
    s' = updateBookRating (Review.reviewedBook r)
           (recalculate_after r
              (with_reviews (reviews s ++ [r]) (with_nextId (nextId s + 1)%N s))) ->
    post_review_effect s s'.

Inductive put_review_effect (s s' : State) : Prop :=
| put_review_nothing : same_documents s s' -> put_review_effect s s'
| put_review_stored (rid : ObjectId) (r0 : Review.t) (u : ReviewUpdate) :
    Review_findById rid s = Some r0 ->
    ReviewUpdate_valid u = true ->
    s' = updateBookRating (Review.reviewedBook r0)
           (with_reviews
              (Mongo.update_first (is_id Review._id rid)
                 (apply_ReviewUpdate u (clock s)) (reviews s)) s) ->
    put_review_effect s s'.

Inductive delete_review_effect (s s' : State) : Prop :=
| delete_review_nothing : same_documents s s' -> delete_review_effect s s'
| delete_review_removed (rid : ObjectId) (r0 : Review.t) :
    Review_findById rid s = Some r0 ->
    s' = updateBookRating (Review.reviewedBook r0)
           (recalculate_after r0
              (with_reviews
                 (Mongo.remove_first (is_id Review._id rid) (reviews s)) s)) ->
    delete_review_effect s s'.

Inductive post_book_effect (s s' : State) : Prop :=
| post_book_nothing : same_documents s s' -> post_book_effect s s'
| post_book_stored (bk : Book.t) :
    Book._id bk = nextId s ->
    Book.validate (year s) bk = true ->
    Book.communityRating bk = 0 -> Book.reviewCount bk = 0%nat ->
    s' = with_books (books s ++ [bk]) (with_nextId (nextId s + 1)%N s) ->
    post_book_effect s s'.

Inductive put_book_effect (s s' : State) : Prop :=
| put_book_nothing : same_documents s s' -> put_book_effect s s'
| put_book_stored (bid : ObjectId) (u : BookUpdate) :
    BookUpdate_valid (year s) u = true ->
    s' = with_books
           (Mongo.update_first (is_id Book._id bid) (apply_BookUpdate u (clock s))
              (books s)) s ->
    put_book_effect s s'.

Inductive delete_book_effect (s s' : State) : Prop :=
| delete_book_nothing : same_documents s s' -> delete_book_effect s s'
| delete_book_removed (bid : ObjectId) :
    s' = with_books (Mongo.remove_first (is_id Book._id bid) (books s)) s ->
    delete_book_effect s s'.

(** The effect of [recalculateRating] through a hook. *)
Inductive recalculate_effect (b0 : ObjectId) (s s' : State) : Prop :=
| recalculate_nothing : s' = s -> recalculate_effect b0 s s'
| recalculate_stored (rating : Q) (count : nat) :
    Book.valid_communityRating rating = true ->
    s' = with_books
           (Mongo.update_first (is_id Book._id b0)
              (Book_store_metrics rating count (clock s)) (books s)) s ->
    recalculate_effect b0 s s'.

(** ** A session used in the examples below *)

Module Demo.

Definition oid (n : N) : string :=
  match n with
  | 0%N => "000000000000000000000000"
  | 1%N => "000000000000000000000001"
  | 2%N => "000000000000000000000002"
  | 3%N => "000000000000000000000003"
  | 4%N => "000000000000000000000004"
  | 5%N => "000000000000000000000005"
  | 6%N => "000000000000000000000006"
  | _ => "000000000000000000000007"
  end.

Definition a_book : BookBody :=
  mkBookBody (Some "Clean Code") (Some "Robert C. Martin")
    (Some "A handbook of agile software craftsmanship.")
    (Some "Non-Fiction") (Some 2008) None None None None.

Definition a_review (stars : Q) : ReviewBody :=
  mkReviewBody (Some (oid 3)) (Some stars)
    (Some "An exceptional book that changed how I think.").

(** Three readers (ids 0, 1, 2) sign up; reader 0 shares a book
    (id 3); some time passes. *)
Definition library : State :=
  tick 200 2024
    (fst (handle (PostBook 0%N a_book) (sign_up (sign_up (sign_up (initial 100 2024)))))).

(** The readers rate it 5, 4 and 3 (reviews 4, 5 and 6). *)
Definition rated_5 : State := fst (handle (PostReview 0%N (a_review 5)) library).
Definition rated_5_4 : State := fst (handle (PostReview 1%N (a_review 4)) rated_5).
Definition rated_5_4_3 : State := fst (handle (PostReview 2%N (a_review 3)) rated_5_4).

(** The review with three stars is deleted. *)
Definition without_3 : State := fst (handle (DeleteReview (oid 6) 2%N) rated_5_4_3).

(** The review with four stars is updated to two stars. *)
Definition rated_5_2 : State :=
  fst (handle (PutReview (oid 5) 1%N (mkReviewPatch (Some 2) None))
         (tick 300 2024 without_3)).

(** The remaining reviews are deleted. *)
Definition without_2 : State := fst (handle (DeleteReview (oid 5) 1%N) rated_5_2).
Definition rated_none : State := fst (handle (DeleteReview (oid 4) 0%N) without_2).

(** The owner deletes the book while it has its three reviews. *)
Definition orphaned : State := fst (handle (DeleteBook (oid 3) 0%N) rated_5_4_3).

(** The document of the book in a state of the session. *)
Definition book_in (s : State) : Book.t :=
  match Book_findById 3%N s with
  | Some b => b
  | None => Book.mk 3%N "" "" "" "" 0 0%N 0 0%nat 0%Z 0%Z
  end.

Definition metrics (s : State) : option (Q * nat) :=
  option_map (fun b => (Qred (exposed_averageRating b), exposed_totalReviews b))
             (Book_findById 3%N s).

End Demo.

(** ** Beyond the aggregates: the other routes, virtuals and statics,
    and what the further properties speak about *)

(** [trim] on lists of characters. *)
Definition trim_list (l : list ascii) : list ascii :=
  rev (Js.drop_while Js.is_space (rev (Js.drop_while Js.is_space l))).

(** *** What a write leaves alone *)

(** A write of the metrics of book [b] leaves every other book as it
    was, and of [b] it keeps the descriptive fields. *)
Definition only_metrics_of (b : ObjectId) (d d' : Book.t) : Prop :=
  (Book._id d <> b -> d' = d) /\ same_descriptive_fields d d'.

(** The identifiers in use. *)
Definition identifiers (s : State) : list ObjectId :=
  (map Book._id (books s) ++ map Review._id (reviews s) ++ users s)%list.

(** The fields of a review no request rewrites. *)
Definition same_review_identity (r r' : Review.t) : Prop :=
  Review._id r' = Review._id r
  /\ Review.reviewedBook r' = Review.reviewedBook r
  /\ Review.reviewAuthor r' = Review.reviewAuthor r
  /\ Review.sharedOn r' = Review.sharedOn r
  /\ Review.lastModified r' = Review.lastModified r
  /\ Review.createdAt r' = Review.createdAt r.

(** *** What the handlers accept *)

(** A review text a client may send: between 10 and 500 characters once
    trimmed, at least five of them word characters. *)
Definition acceptable_text (t : string) : Prop :=
  (10 <= String.length (Js.trim t) <= 500)%nat /\ (5 <= Js.count_word (Js.trim t))%nat.

(** A title, an author name and a summary as the schema wants them
    stored, and the fields a client may send: the checks of the route
    and of the schema taken together bear on the trimmed text. *)
Definition good_title (t : string) : Prop :=
  (1 <= String.length t <= 200)%nat /\ Js.has_alnum t = true.

Definition good_author (a : string) : Prop :=
  (2 <= String.length a <= 100)%nat /\ Js.has_letter a = true.

Definition good_description (d : string) : Prop :=
  (10 <= String.length d <= 1000)%nat.

Definition acceptable_title (t : string) : Prop := good_title (Js.trim t).
Definition acceptable_author (a : string) : Prop := good_author (Js.trim a).
Definition acceptable_description (d : string) : Prop := good_description (Js.trim d).

Definition acceptable_genre (g : string) : Prop := In g route_genres.

Definition acceptable_year (now : Z) (y : Q) : Prop :=
  exists z, y == inject_Z z /\ (1400 <= z <= now)%Z.

(** Every field that is present is acceptable. *)
Definition when_present (A : Type) (P : A -> Prop) (v : option A) : Prop :=
  forall x, v = Some x -> P x.

(** A field after an update: the value sent, or the one it had. *)
Definition patched (A : Type) (sent : option A) (old : A) : A :=
  match sent with
  | Some v => v
  | None => old
  end.

(** *** Invariants of the store *)

(** What a request does to the identifiers in use: nothing, or the
    next identifier of the counter comes into use, or one identifier
    goes out of use. *)
Inductive identifiers_step (s s' : State) : Prop :=
| identifiers_kept :
    identifiers s' = identifiers s -> (nextId s <= nextId s')%N ->
    identifiers_step s s'
| identifiers_drawn :
    Permutation (identifiers s') (nextId s :: identifiers s) ->
    nextId s' = (nextId s + 1)%N ->
    identifiers_step s s'
| identifiers_dropped (x : ObjectId) :
    Permutation (x :: identifiers s') (identifiers s) -> nextId s' = nextId s ->
    identifiers_step s s'.

(** A text whose white space is single spaces: every white-space
    character is a space and no two of them are adjacent.
    [after_space] tells that the character before was one. *)
Fixpoint single_spaced (after_space : bool) (l : list ascii) : bool :=
  match l with
  | [] => true
  | c :: l' =>
      if Js.is_space c
      then Ascii.eqb c " " && negb after_space && single_spaced true l'
      else single_spaced false l'
  end.

(** What holds of every stored review and of every stored book. *)
Definition review_well_stored (s : State) (r : Review.t) : Prop :=
  User_exists (Review.reviewAuthor r) s = true
  /\ integer_within 1 5 (Some (Review.starRating r))
  /\ (String.length (Review.reviewContent r) <= 500)%nat
  /\ (5 <= Js.count_word (Review.reviewContent r))%nat
  /\ Js.trim (Review.reviewContent r) = Review.reviewContent r.

Definition book_well_stored (now : Z) (bk : Book.t) : Prop :=
  good_title (Book.bookTitle bk)
  /\ good_author (Book.authorName bk)
  /\ good_description (Book.bookSummary bk)
  /\ acceptable_genre (Book.literaryGenre bk)
  /\ acceptable_year now (Book.publicationYear bk)
  /\ Js.trim (Book.bookTitle bk) = Book.bookTitle bk
  /\ Js.trim (Book.authorName bk) = Book.authorName bk
  /\ Js.trim (Book.bookSummary bk) = Book.bookSummary bk.

(** *** Virtual fields of the Book schema *)

(** The virtual fields of a book; they go out with every reply
    ([toJSON] and [toObject] include virtuals). *)
Module Book_virtuals.

Definition popularityLevel (this : Book.t) : string :=
  if (100 <=? Book.reviewCount this)%nat then "Community Favorite"
  else if (50 <=? Book.reviewCount this)%nat then "Highly Discussed"
  else if (20 <=? Book.reviewCount this)%nat then "Well-Reviewed"
  else if (5 <=? Book.reviewCount this)%nat then "Getting Attention"
  else "Newly Discovered".

Definition qualityIndicator (this : Book.t) : string :=
  if Js.Qleb (45 # 10) (Book.communityRating this) then "Exceptional"
  else if Js.Qleb 4 (Book.communityRating this) then "Excellent"
  else if Js.Qleb (35 # 10) (Book.communityRating this) then "Very Good"
  else if Js.Qleb 3 (Book.communityRating this) then "Good"
  else if Js.Qleb 2 (Book.communityRating this) then "Fair"
  else if negb (Js.Qleb (Book.communityRating this) 0) then "Needs More Reviews"
  else "Awaiting First Review".

End Book_virtuals.

(** The label that goes with a mean rating: the thresholds of
    [qualityIndicator], each lowered by half a tenth. *)
Definition quality_of_mean (m : Q) : string :=
  if Js.Qleb (445 # 100) m then "Exceptional"
  else if Js.Qleb (395 # 100) m then "Excellent"
  else if Js.Qleb (345 # 100) m then "Very Good"
  else if Js.Qleb (295 # 100) m then "Good"
  else if Js.Qleb (195 # 100) m then "Fair"
  else "Needs More Reviews".

(** ** Review.statics.getBookReviewStats *)

Module Review_statics.







End Review_statics.


(** ** GET /api/reviews/:bookId *)

(** An entry of the reply: the document with the fields the front end
    reads.  Of the populated author only the identifier is kept. *)
Record ReviewView : Type := mkReviewView {
  view_review : Review.t;
  view_bookId : ObjectId;
  view_userId : ObjectId;
  view_rating : Q;
  view_reviewText : string
}.

Definition transform_review (review : Review.t) : ReviewView :=
  mkReviewView review (Review.reviewedBook review) (Review.reviewAuthor review)
               (Review.starRating review) (Review.reviewContent review).

Inductive ReviewsReply : Type :=
| ReviewList (status : Z) (reviews : list ReviewView)
| ReviewsError (status : Z) (message : string).

(** [.sort({ createdAt: -1 })]: the newest first.  Among documents of
    the same instant the order is the store's; here the one found
    first stays first. *)
Fixpoint insert_newest_first (r : Review.t) (l : list Review.t) : list Review.t :=
  match l with
  | [] => [r]
  | x :: l' =>
      if (Review.createdAt x <? Review.createdAt r)%Z then r :: l
      else x :: insert_newest_first r l'
  end.

Definition sort_newest_first (l : list Review.t) : list Review.t :=
  fold_right insert_newest_first [] l.

(** The handler: the filter is cast (a [CastError] ends in the
    [catch], which answers 500 whatever the error), the authors are
    populated (a missing one is [null], and reading its [_id]
    throws). *)
Definition get_reviews (bookId : string) (s : State) : ReviewsReply :=
  match Mongo.castObjectId bookId with
  | None => ReviewsError 500 "Server error"
  | Some b =>
      let found :=
        sort_newest_first
          (Mongo.find Review.get [("reviewedBook", Mongo.VId b)] (reviews s)) in
      if forallb (fun r => User_exists (Review.reviewAuthor r) s) found
      then ReviewList 200 (map transform_review found)
      else ReviewsError 500 "Server error"
  end.

Definition newer_or_same (v w : ReviewView) : Prop :=
  (Review.createdAt (view_review w) <= Review.createdAt (view_review v))%Z.

(** ** GET /api/books/:id and GET /api/books *)

(** The value a book document carries at a path; [None] for a name
    that is no path of the schema ([title], [author], [genre], ...). *)
Definition Book_get (b : Book.t) (path : string) : option Mongo.value :=
  if String.eqb path "_id" then Some (Mongo.VId (Book._id b))
  else if String.eqb path "bookTitle" then Some (Mongo.VStr (Book.bookTitle b))
  else if String.eqb path "authorName" then Some (Mongo.VStr (Book.authorName b))
  else if String.eqb path "bookSummary" then Some (Mongo.VStr (Book.bookSummary b))
  else if String.eqb path "literaryGenre" then Some (Mongo.VStr (Book.literaryGenre b))
  else if String.eqb path "publicationYear" then Some (Mongo.VNum (Book.publicationYear b))
  else if String.eqb path "sharedBy" then Some (Mongo.VId (Book.sharedBy b))
  else if String.eqb path "communityRating" then Some (Mongo.VNum (Book.communityRating b))
  else if String.eqb path "reviewCount"
       then Some (Mongo.VNum (inject_Z (Z.of_nat (Book.reviewCount b))))
  else if String.eqb path "createdAt" then Some (Mongo.VNum (inject_Z (Book.createdAt b)))
  else if String.eqb path "updatedAt" then Some (Mongo.VNum (inject_Z (Book.updatedAt b)))
  else None.

(** A book as the two reading routes send it: the document and the
    fields computed for the front end.  Of the populated owner only
    the identifier is kept; it is [None] when the owner is missing. *)
Record BookView : Type := mkBookView {
  view_book : Book.t;
  view_title : string;
  view_author : string;
  view_description : string;
  view_genre : string;
  view_publishedYear : Q;
  view_addedBy : option ObjectId;
  view_averageRating : Q;
  view_totalReviews : nat
}.

(** [a || undefined || fallback] on a string. *)
Definition or_else (a fallback : string) : string :=
  if String.eqb a "" then fallback else a.

Definition transform_book (book : Book.t) (s : State) : BookView :=
  mkBookView book
    (or_else (Book.bookTitle book) "Untitled")
    (or_else (Book.authorName book) "Unknown Author")
    (or_else (Book.bookSummary book) "No description available")
    (or_else (Book.literaryGenre book) "Other")
    (if Qeq_bool (Book.publicationYear book) 0 then inject_Z (year s)
     else Book.publicationYear book)
    (if User_exists (Book.sharedBy book) s then Some (Book.sharedBy book) else None)
    (exposed_averageRating book)
    (exposed_totalReviews book).

Inductive BookReadReply : Type :=
| BookFound (status : Z) (book : BookView)
| BookMissing (status : Z) (message : string).

Definition get_book (id : string) (s : State) : BookReadReply :=
  match Mongo.castObjectId id with
  | None => BookMissing 404 "Book not found"
  | Some bid =>
      match Book_findById bid s with
      | None => BookMissing 404 "Book not found"
      | Some book => BookFound 200 (transform_book book s)
      end
  end.

(** The query string of the listing, [page] and [limit] as [parseInt]
    reads them ([None] for [NaN]). *)
Record ListParams : Type := mkListParams {
  param_page : option Z;
  param_limit : option Z;
  param_search : option string;
  param_genre : option string;
  param_sortBy : option string;
  param_sortOrder : option string
}.

(** [parseInt(x) || fallback] *)
Definition int_or (v : option Z) (fallback : Z) : Z :=
  match v with
  | Some n => if (n =? 0)%Z then fallback else n
  | None => fallback
  end.

Definition str_or (v : option string) (fallback : string) : string :=
  if Js.truthy_str v then match v with Some x => x | None => fallback end
  else fallback.

(** The filter of the listing: the alternatives of [$or], each a path
    with a case-insensitive pattern, and the value asked of [genre]. *)
Record BooksQuery : Type := mkBooksQuery {
  query_or : option (list (string * string));
  query_genre : option string
}.

Definition build_query (search genre : string) : BooksQuery :=
  mkBooksQuery
    (if negb (String.eqb search "")
     then Some [("title", search); ("author", search)] else None)
    (if negb (String.eqb genre "") && negb (String.eqb genre "All")
     then Some genre else None).

(** The [pagination] object of the reply. *)
Record PageInfo : Type := mkPagination {
  currentPage : Z;
  totalPages : Z;
  totalBooks : nat;
  hasNext : bool;
  hasPrev : bool
}.

Record BooksPage : Type := mkBooksPage {
  page_books : list BookView;
  pagination : PageInfo
}.

Section Listing.

(** [$regex] with [$options] on a string, and the sort of the store
    by a path and a direction: both are the store's. *)
Variable regex_test : string -> string -> string -> bool.
Variable sort_documents : string -> Z -> list Book.t -> list Book.t.

Definition regex_holds (d : Book.t) (alt : string * string) : bool :=
  match Book_get d (fst alt) with
  | Some (Mongo.VStr x) => regex_test (snd alt) "i" x
  | _ => false
  end.

Definition query_matches (q : BooksQuery) (d : Book.t) : bool :=
  match query_or q with
  | Some alts => existsb (regex_holds d) alts
  | None => true
  end
  && match query_genre q with
     | Some g => Mongo.matches Book_get [("genre", Mongo.VStr g)] d
     | None => true
     end.

(** The handler, for a skip and a limit that are not negative;
    what the driver does with negative ones is left out ([None]). *)
Definition list_books (params : ListParams) (s : State) : option BooksPage :=
  let page := int_or (param_page params) 1 in
  let limit := int_or (param_limit params) 5 in
  let skip := ((page - 1) * limit)%Z in
  let search := str_or (param_search params) "" in
  let genre := str_or (param_genre params) "" in
  let sortBy := str_or (param_sortBy params) "createdAt" in
  let sortOrder :=
    match param_sortOrder params with
    | Some o => if String.eqb o "asc" then 1%Z else (-1)%Z
    | None => (-1)%Z
    end in
  let query := build_query search genre in
  if (skip <? 0)%Z || (limit <? 0)%Z then None
  else
    let found :=
      firstn (Z.to_nat limit)
        (skipn (Z.to_nat skip)
           (sort_documents sortBy sortOrder (filter (query_matches query) (books s)))) in
    let total := List.length (filter (query_matches query) (books s)) in
    let totalPages := Qceiling (inject_Z (Z.of_nat total) / inject_Z limit) in
    Some (mkBooksPage
            (map (fun book => transform_book book s) found)
            (mkPagination page totalPages total (page <? totalPages)%Z (1 <? page)%Z)).

End Listing.

(** ** Virtual fields computed from the clock *)

Module Review_virtuals.

(** The text of [reviewAge]: a fixed word or a count with its unit. *)
Inductive age : Type :=
| Today
| Yesterday
| DaysAgo (n : Z)
| WeeksAgo (n : Z)
| MonthsAgo (n : Z)
| YearsAgo (n : Z).

(** [now] is [new Date()] in milliseconds. *)
Definition reviewAge (now : Z) (this : Review.t) : age :=
  let diffTime := Z.abs (now - Review.sharedOn this) in
  let diffDays := Qceiling (inject_Z diffTime / inject_Z (1000 * 60 * 60 * 24)) in
  if (diffDays =? 1)%Z then Today
  else if (diffDays =? 2)%Z then Yesterday
  else if (diffDays <=? 7)%Z then DaysAgo diffDays
  else if (diffDays <=? 30)%Z then WeeksAgo (Qceiling (inject_Z diffDays / 7))
  else if (diffDays <=? 365)%Z then MonthsAgo (Qceiling (inject_Z diffDays / 30))
  else YearsAgo (Qceiling (inject_Z diffDays / 365)).

End Review_virtuals.

(** ** The tag clean-up of the Book pre-save hook *)

Module Book_tags.

(** [[...new Set(tags)]]: the first occurrence of every element, in
    order. *)
Fixpoint distinct (seen : list string) (tags : list string) : list string :=
  match tags with
  | [] => []
  | tag :: rest =>
      if existsb (String.eqb tag) seen then distinct seen rest
      else tag :: distinct (tag :: seen) rest
  end.

(** [tag && tag.trim().length > 0] *)
Definition kept (tag : string) : bool :=
  negb (String.eqb tag "") && (0 <? String.length (Js.trim tag))%nat.

(** The tags as the hook leaves them. *)
Definition pre_save (bookTags : list string) : list string :=
  if (0 <? List.length bookTags)%nat then distinct [] (filter kept bookTags)
  else bookTags.

End Book_tags.

(** *** The virtual field [bookAge] *)

Module Book_age.

(** The text of [bookAge]: a fixed phrase, or an age with "years old". *)
Inductive age : Type :=
| PublishedThisYear
| PublishedLastYear
| YearsOld (age : Q)
| LessThanADecadeOld
| AModernClassic
| ATimelessWork
| AHistoricalTreasure.

Definition less (x y : Q) : bool := negb (Js.Qleb y x).

Definition bookAge (currentYear : Z) (this : Book.t) : age :=
  let age := inject_Z currentYear - Book.publicationYear this in
  if Qeq_bool age 0 then PublishedThisYear
  else if Qeq_bool age 1 then PublishedLastYear
  else if less age 5 then YearsOld age
  else if less age 10 then LessThanADecadeOld
  else if less age 50 then AModernClassic
  else if less age 100 then ATimelessWork
  else AHistoricalTreasure.

End Book_age.

(** ** The front end: components/Pagination.js and the stars of
    components/RatingAnalytics.js *)

Module Pagination_js.

Definition maxVisiblePages : Z := 5.

(** [startPage] and [endPage] *)
Definition window (currentPage totalPages : Z) : Z * Z :=
  let startPage :=
    Z.max 1 (currentPage - Qfloor (inject_Z maxVisiblePages / 2)) in
  let endPage := Z.min totalPages (startPage + maxVisiblePages - 1) in
  let startPage :=
    if (endPage - startPage + 1 <? maxVisiblePages)%Z
    then Z.max 1 (endPage - maxVisiblePages + 1)
    else startPage in
  (startPage, endPage).

(** [for (let i = startPage; i <= endPage; i++) pages.push(i)] *)
Definition range (startPage endPage : Z) : list Z :=
  map (fun i => (startPage + Z.of_nat i)%Z) (seq 0 (Z.to_nat (endPage - startPage + 1))).

(** What the component draws. *)
Record drawn : Type := mkDrawn {
  previous_disabled : bool;
  first_page : bool;
  leading_dots : bool;
  pages : list Z;
  trailing_dots : bool;
  last_page : bool;
  next_disabled : bool
}.

(** The component; [None] is the [null] it returns for a single page. *)
Definition Pagination (currentPage totalPages : Z) : option drawn :=
  let (startPage, endPage) := window currentPage totalPages in
  if (totalPages <=? 1)%Z then None
  else Some (mkDrawn (currentPage =? 1)%Z
                     (1 <? startPage)%Z
                     ((1 <? startPage) && (2 <? startPage))%Z
                     (range startPage endPage)
                     ((endPage <? totalPages) && (endPage <? totalPages - 1))%Z
                     (endPage <? totalPages)%Z
                     (currentPage =? totalPages)%Z).

End Pagination_js.

Module RatingAnalytics_js.

Inductive star : Type :=
| Full
| Half
| Empty.

(** [rating % 1]: the remainder has the sign of the dividend. *)
Definition remainder_1 (rating : Q) : Q :=
  if Js.Qleb 0 rating then rating - inject_Z (Qfloor rating)
  else rating - inject_Z (Qceiling rating).

Definition renderStars (rating : Q) : list star :=
  let fullStars := Qfloor rating in
  let hasHalfStar := Js.Qleb (1 # 2) (remainder_1 rating) in
  let emptyStars := (5 - Qceiling rating)%Z in
  (repeat Full (Z.to_nat fullStars)
   ++ (if hasHalfStar then [Half] else [])
   ++ repeat Empty (Z.to_nat emptyStars))%list.

End RatingAnalytics_js.

(** * Properties *)

(** ** Rounding *)

Lemma Math_round_bounds (x : Q) :
  inject_Z (Js.Math_round x) <= x + (1 # 2) /\ x - (1 # 2) < inject_Z (Js.Math_round x).
Proof.
  unfold Js.Math_round. split.
  - apply Qfloor_le.
  - pose proof (Qlt_floor (x + (1 # 2))) as H.
    rewrite inject_Z_plus in H. change (inject_Z 1) with 1 in H.
    generalize dependent (inject_Z (Qfloor (x + (1 # 2)))). intros q H. lra.
Qed.

Lemma round1_rounds (x : Q) :
  rounded_to_one_decimal x (inject_Z (Js.Math_round (x * 10)) / 10).
Proof.
  destruct (Math_round_bounds (x * 10)) as [Hle Hlt].
  split; [exists (Js.Math_round (x * 10)); reflexivity | ].
  generalize dependent (inject_Z (Js.Math_round (x * 10))). intros q Hle Hlt.
  split.
  - apply Qlt_shift_div_l; lra.
  - apply Qle_shift_div_r; lra.
Qed.

Lemma Math_round_tenths (z : Z) : Js.Math_round (inject_Z z / 10 * 10) = z.
Proof.
  unfold Js.Math_round.
  assert (E : inject_Z z / 10 * 10 + (1 # 2) == inject_Z z + (1 # 2)) by (field; discriminate).
  rewrite E.
  pose proof (Qfloor_le (inject_Z z + (1 # 2))) as Hle.
  pose proof (Qlt_floor (inject_Z z + (1 # 2))) as Hlt.
  rewrite inject_Z_plus in Hlt. change (inject_Z 1) with 1 in Hlt.
  remember (Qfloor (inject_Z z + (1 # 2))) as f eqn:Ef. clear Ef E.
  assert (H1 : inject_Z f < inject_Z (z + 1)).
  { rewrite inject_Z_plus. change (inject_Z 1) with 1.
    revert Hle Hlt. generalize (inject_Z f). generalize (inject_Z z). intros; lra. }
  assert (H2 : inject_Z z < inject_Z (f + 1)).
  { rewrite inject_Z_plus. change (inject_Z 1) with 1.
    revert Hle Hlt. generalize (inject_Z f). generalize (inject_Z z). intros; lra. }
  rewrite <- Zlt_Qlt in H1, H2. lia.
Qed.

(** The setter of [communityRating] leaves a value alone that is
    already a whole number of tenths. *)
Lemma round1_tenths (z : Z) : Js.round1 (inject_Z z / 10) = inject_Z z / 10.
Proof. unfold Js.round1. now rewrite Math_round_tenths. Qed.

(** ** Collections *)

Section Collections.
Variable doc : Type.

Lemma update_first_absent (p : doc -> bool) (upd : doc -> doc) (coll : list doc) :
  List.find p coll = None -> Mongo.update_first p upd coll = coll.
Proof.
  induction coll as [|d rest IH]; simpl; [reflexivity|].
  destruct (p d); [discriminate|]. intros H. now rewrite IH.
Qed.

(** An update in place relates the collections document by document. *)
Lemma update_first_frame (R : doc -> doc -> Prop) (p : doc -> bool)
      (upd : doc -> doc) (coll : list doc) :
  (forall d, R d d) -> (forall d, p d = true -> R d (upd d)) ->
  Forall2 R coll (Mongo.update_first p upd coll).
Proof.
  intros Hrefl Hupd. induction coll as [|d rest IH]; simpl; [constructor|].
  destruct (p d) eqn:E.
  - constructor; [now apply Hupd|]. clear IH. induction rest; constructor; auto.
  - constructor; auto.
Qed.

Lemma remove_first_incl (p : doc -> bool) (coll : list doc) (d : doc) :
  In d (Mongo.remove_first p coll) -> In d coll.
Proof.
  induction coll as [|x rest IH]; simpl; [tauto|].
  destruct (p x); simpl; [tauto|].
  intros [H|H]; [left; exact H | right; exact (IH H)].
Qed.

Section ById.
Variable id_of : doc -> ObjectId.

Lemma update_first_find_same (id : ObjectId) (upd : doc -> doc) (coll : list doc) :
  (forall d, id_of (upd d) = id_of d) ->
  List.find (is_id id_of id) (Mongo.update_first (is_id id_of id) upd coll)
  = option_map upd (List.find (is_id id_of id) coll).
Proof.
  intros Hid. induction coll as [|d rest IH]; simpl; [reflexivity|].
  destruct (is_id id_of id d) eqn:E; simpl.
  - unfold is_id in *. rewrite Hid, E. reflexivity.
  - rewrite E. exact IH.
Qed.

Lemma update_first_find_other (id id' : ObjectId) (upd : doc -> doc) (coll : list doc) :
  (forall d, id_of (upd d) = id_of d) -> id' <> id ->
  List.find (is_id id_of id') (Mongo.update_first (is_id id_of id) upd coll)
  = List.find (is_id id_of id') coll.
Proof.
  intros Hid Hne. induction coll as [|d rest IH]; simpl; [reflexivity|].
  destruct (is_id id_of id d) eqn:E; simpl.
  - unfold is_id in *. rewrite Hid.
    apply N.eqb_eq in E. rewrite E.
    destruct (N.eqb_spec id id'); [congruence | reflexivity].
  - rewrite IH. reflexivity.
Qed.
End ById.
End Collections.

(** ** Queries on the review collection *)

(** The filter [{ reviewedBook: b }] selects the reviews that reference
    [b]. *)
Lemma find_reviewedBook (b : ObjectId) (rs : list Review.t) :
  Mongo.find Review.get [("reviewedBook", Mongo.VId b)] rs = filter (references b) rs.
Proof.
  unfold Mongo.find. apply filter_ext. intros r.
  unfold Mongo.matches, Mongo.holds, references. simpl. apply andb_true_r.
Qed.

(** No review carries [bookId]: a filter on it selects nothing,
    whatever the value. *)
Lemma matches_bookId (v : Mongo.value) (r : Review.t) :
  Mongo.matches Review.get [("bookId", v)] r = false.
Proof. reflexivity. Qed.

Lemma find_bookId (v : Mongo.value) (rs : list Review.t) :
  Mongo.find Review.get [("bookId", v)] rs = [].
Proof.
  unfold Mongo.find. induction rs as [|r rest IH]; [reflexivity|].
  cbn [filter]. rewrite matches_bookId. exact IH.
Qed.

Lemma deleteMany_bookId (v : Mongo.value) (rs : list Review.t) :
  Mongo.deleteMany Review.get [("bookId", v)] rs = rs.
Proof.
  unfold Mongo.deleteMany. induction rs as [|r rest IH]; [reflexivity|].
  cbn [filter]. rewrite matches_bookId. cbn [negb]. now rewrite IH.
Qed.

(** The filter of the duplicate check finds a review exactly when the
    pair has one. *)
Lemma findOne_pair (b u : ObjectId) (s : State) :
  has_review b u s = true <->
  Mongo.findOne Review.get
    [("reviewedBook", Mongo.VId b); ("reviewAuthor", Mongo.VId u)] (reviews s) <> None.
Proof.
  unfold has_review, Mongo.findOne.
  induction (reviews s) as [|r rest IH]; simpl.
  - split; [discriminate | congruence].
  - unfold Mongo.matches, Mongo.holds. simpl. rewrite andb_true_r.
    destruct ((Review.reviewedBook r =? b)%N && (Review.reviewAuthor r =? u)%N); simpl.
    + split; [discriminate | reflexivity].
    + exact IH.
Qed.

Lemma fold_sum_total (rs : list Review.t) (a : Q) :
  fold_left (fun sum review => sum + Review.starRating review) rs a
  == a + total (map Review.starRating rs).
Proof.
  revert a. induction rs as [|r rest IH]; intros a; simpl.
  - ring.
  - rewrite IH. ring.
Qed.

(** ** The aggregate updater *)

Lemma updateBookRating_reviews (b : ObjectId) (s : State) :
  reviews (updateBookRating b s) = reviews s.
Proof. reflexivity. Qed.

Lemma with_books_same (s : State) : with_books (books s) s = s.
Proof. destruct s; reflexivity. Qed.

Lemma with_reviews_same (s : State) : with_reviews (reviews s) s = s.
Proof. destruct s; reflexivity. Qed.

Lemma updateBookRating_unfold (b : ObjectId) (s : State) :
  updateBookRating b s
  = Book_findByIdAndUpdate_metrics b
      (inject_Z (Js.Math_round (averageRating_of b s * 10)) / 10)
      (List.length (reviews_of b s)) s.
Proof.
  unfold updateBookRating, averageRating_of, reviews_of.
  now rewrite find_reviewedBook.
Qed.

(** The document the updater leaves for the book it was called on. *)
Lemma updateBookRating_book (b : ObjectId) (s : State) :
  Book_findById b (updateBookRating b s)
  = option_map
      (Book_update_metrics
         (inject_Z (Js.Math_round (averageRating_of b s * 10)) / 10)
         (List.length (reviews_of b s)) (clock s))
      (Book_findById b s).
Proof.
  rewrite updateBookRating_unfold.
  unfold Book_findByIdAndUpdate_metrics, Book_findById. simpl.
  apply update_first_find_same. reflexivity.
Qed.

Lemma averageRating_of_mean (b : ObjectId) (s : State) :
  ratings_of b s <> [] -> averageRating_of b s == mean (ratings_of b s).
Proof.
  unfold averageRating_of, mean, ratings_of. intros Hne.
  rewrite length_map.
  destruct (reviews_of b s) as [|r rest] eqn:E; [now elim Hne|].
  change (0 <? List.length (r :: rest))%nat with true. cbv iota.
  rewrite fold_sum_total. rewrite Qplus_0_l. reflexivity.
Qed.

Lemma averageRating_of_none (b : ObjectId) (s : State) :
  ratings_of b s = [] -> averageRating_of b s = 0.
Proof.
  unfold averageRating_of, ratings_of. intros E.
  apply map_eq_nil in E. now rewrite E.
Qed.

Lemma exposed_averageRating_eq (bk : Book.t) :
  exposed_averageRating bk == Book.communityRating bk.
Proof.
  unfold exposed_averageRating.
  destruct (Qeq_bool (Book.communityRating bk) 0) eqn:E; [|reflexivity].
  apply Qeq_bool_eq in E. now rewrite E.
Qed.

Lemma exposed_totalReviews_eq (bk : Book.t) :
  exposed_totalReviews bk = Book.reviewCount bk.
Proof.
  unfold exposed_totalReviews.
  destruct (Nat.eqb_spec (Book.reviewCount bk) 0); congruence.
Qed.

#[local] Instance rounded_to_one_decimal_compat :
  Proper (Qeq ==> Qeq ==> iff) rounded_to_one_decimal.
Proof.
  intros x x' Hx v v' Hv. unfold rounded_to_one_decimal.
  setoid_rewrite Hx. setoid_rewrite Hv. reflexivity.
Qed.

(** After the updater has run for [b], the stored average of [b] is
    the rounded mean of its ratings, or 0 without ratings. *)
Lemma updateBookRating_average (b : ObjectId) (s : State) :
  average_settled b (updateBookRating b s).
Proof.
  intros bk Hbk. rewrite updateBookRating_book in Hbk.
  destruct (Book_findById b s) as [bk0|]; [|discriminate].
  injection Hbk as <-.
  change (ratings_of b (updateBookRating b s)) with (ratings_of b s).
  assert (Hcr : Book.communityRating
                  (Book_update_metrics
                     (inject_Z (Js.Math_round (averageRating_of b s * 10)) / 10)
                     (List.length (reviews_of b s)) (clock s) bk0)
                = inject_Z (Js.Math_round (averageRating_of b s * 10)) / 10).
  { simpl. apply round1_tenths. }
  split; intros Hr.
  - rewrite exposed_averageRating_eq, Hcr, (averageRating_of_none _ _ Hr).
    split; reflexivity.
  - rewrite exposed_averageRating_eq, Hcr.
    split; [|reflexivity].
    rewrite <- (averageRating_of_mean _ _ Hr). apply round1_rounds.
Qed.

(** After the updater has run for [b], the stored count of [b] is the
    number of reviews that reference [b]. *)
Lemma updateBookRating_count (b : ObjectId) (s : State) :
  count_settled b (updateBookRating b s).
Proof.
  intros bk Hbk. rewrite updateBookRating_book in Hbk.
  destruct (Book_findById b s) as [bk0|]; [|discriminate].
  injection Hbk as <-.
  rewrite exposed_totalReviews_eq. split; reflexivity.
Qed.

(** Without the book, the updater changes nothing. *)
Lemma updateBookRating_absent (b : ObjectId) (s : State) :
  Book_findById b s = None -> updateBookRating b s = s.
Proof.
  intros H. rewrite updateBookRating_unfold.
  unfold Book_findByIdAndUpdate_metrics.
  rewrite update_first_absent by exact H. apply with_books_same.
Qed.

(** ** The review handlers end in the updater *)

(** Case analysis along the branches of a handler. *)
Ltac branch H :=
  repeat match type of H with
         | context [match ?x with _ => _ end] => destruct x eqn:?
         end.

Ltac branch_goal :=
  repeat match goal with
         | |- context [match ?x with _ => _ end] => destruct x eqn:?
         end.

Lemma post_review_success (user : ObjectId) (body : ReviewBody) (s : State) :
  succeeded (snd (post_review user body s)) = true ->
  exists b s2,
    affected_book (PostReview user body) s = Some b
    /\ fst (post_review user body s) = updateBookRating b s2.
Proof.
  unfold post_review, affected_book. intros H.
  branch H; try discriminate H.
  eexists _, _. split; reflexivity.
Qed.

Lemma put_review_success (id : string) (user : ObjectId) (body : ReviewPatch)
      (s : State) :
  succeeded (snd (put_review id user body s)) = true ->
  exists b s2,
    affected_book (PutReview id user body) s = Some b
    /\ fst (put_review id user body s) = updateBookRating b s2.
Proof.
  unfold put_review, affected_book. intros H.
  branch H; try discriminate H.
  eexists _, _. split; reflexivity.
Qed.

Lemma delete_review_success (id : string) (user : ObjectId) (s : State) :
  succeeded (snd (delete_review id user s)) = true ->
  exists b s2,
    affected_book (DeleteReview id user) s = Some b
    /\ fst (delete_review id user s) = updateBookRating b s2.
Proof.
  unfold delete_review, affected_book. intros H.
  branch H; try discriminate H.
  eexists _, _. split; reflexivity.
Qed.

Lemma review_request_success (req : Request) (s : State) (b : ObjectId) :
  affected_book req s = Some b ->
  succeeded (snd (handle req s)) = true ->
  exists s2, fst (handle req s) = updateBookRating b s2.
Proof.
  intros Hb Hok.
  destruct req as [user body|id user body|id user|user body|id user body|id user];
    try discriminate Hb; simpl handle in *.
  - destruct (post_review_success _ _ _ Hok) as (b' & s2 & Hb' & E).
    exists s2. congruence.
  - destruct (put_review_success _ _ _ _ Hok) as (b' & s2 & Hb' & E).
    exists s2. congruence.
  - destruct (delete_review_success _ _ _ Hok) as (b' & s2 & Hb' & E).
    exists s2. congruence.
Qed.

(** ** What the updater writes *)

(** C9 as stated fails: the recompute also refreshes [updatedAt] of the
    book (the Book schema sets [timestamps: true]).  In the library of
    the example the book was stored at instant 100; a recompute at
    instant 200 leaves a document that differs in [updatedAt]. *)
Lemma recompute_touches_updatedAt :
  ~ Forall2 (fun d d' => (Book._id d <> 3%N -> d' = d) /\ differ_in_derived_only d d')
            (books Demo.library) (books (updateBookRating 3%N Demo.library)).
Proof.
  intros H. vm_compute in H. inversion H as [|d d' l l' [_ [_ Hstamp]] _]; subst.
  discriminate Hstamp.
Qed.

(** C9, amended.  The recompute for book [b] writes, on the document of
    [b], the two derived fields and the store-kept [updatedAt] only:
    every other field of that document, every other book document, and
    the review and user collections are unchanged. *)
Theorem recompute_frame (b : ObjectId) (s : State) :
  Forall2 (fun d d' =>
             (Book._id d <> b -> d' = d)
             /\ same_descriptive_fields d d'
             /\ (d' = d \/ Book.updatedAt d' = clock s))
          (books s) (books (updateBookRating b s))
  /\ reviews (updateBookRating b s) = reviews s
  /\ users (updateBookRating b s) = users s.
Proof.
  split; [|split; reflexivity].
  rewrite updateBookRating_unfold. unfold Book_findByIdAndUpdate_metrics. simpl books.
  apply update_first_frame.
  - intros d. unfold same_descriptive_fields. intuition.
  - intros d Hd. unfold is_id in Hd. apply N.eqb_eq in Hd.
    unfold same_descriptive_fields. simpl. intuition.
Qed.

(** ** Deleting a book *)

Lemma delete_book_keeps_reviews (id : string) (user : ObjectId) (s : State) :
  reviews (fst (delete_book id user s)) = reviews s.
Proof.
  unfold delete_book. branch_goal; try reflexivity.
  simpl. apply deleteMany_bookId.
Qed.

(** C3 fails on the code: the creator deletes the book of the example
    while three reviews reference it; the handler answers 200, the book
    is gone, and the three reviews are still stored with the dangling
    reference. *)
Theorem delete_book_orphans_reviews :
  option_map Book.sharedBy (Book_findById 3%N Demo.rated_5_4_3) = Some 0%N
  /\ snd (delete_book (Demo.oid 3) 0%N Demo.rated_5_4_3)
     = Message 200 "Book and associated reviews deleted successfully"
  /\ Book_findById 3%N Demo.orphaned = None
  /\ map Review._id (reviews_of 3%N Demo.orphaned) = [4%N; 5%N; 6%N].
Proof. vm_compute. repeat split; reflexivity. Qed.

(** ** The book handlers and the derived fields *)

Lemma post_book_ignores_derived (user : ObjectId) (body : BookBody) (s : State)
      (a b c d : option Q) :
  post_book user (with_derived_input a b c d body) s = post_book user body s.
Proof. reflexivity. Qed.

Lemma put_book_ignores_derived (id : string) (user : ObjectId) (body : BookBody)
      (s : State) (a b c d : option Q) :
  put_book id user (with_derived_input a b c d body) s = put_book id user body s.
Proof. reflexivity. Qed.

Lemma post_book_books (user : ObjectId) (body : BookBody) (s : State) :
  books (fst (post_book user body s)) = books s
  \/ exists bk,
       books (fst (post_book user body s)) = (books s ++ [bk])%list
       /\ Book.communityRating bk = 0 /\ Book.reviewCount bk = 0%nat.
Proof.
  unfold post_book.
  destruct (negb (List.length (post_book_errors (year s) body) =? 0)%nat);
    [left; reflexivity|].
  destruct (Validator.trim (title body)) as [t|]; [|left; reflexivity].
  destruct (Validator.trim (author body)) as [a|]; [|left; reflexivity].
  destruct (Validator.trim (description body)) as [d|]; [|left; reflexivity].
  destruct (genre body) as [g|]; [|left; reflexivity].
  destruct (publishedYear body) as [y|]; [|left; reflexivity].
  unfold new_Book, Book_save_new.
  match goal with
  | |- context [negb (Book.validate ?y ?b)] => destruct (negb (Book.validate y b))
  end; [left; reflexivity|].
  right. eexists. split; [reflexivity|]. split; reflexivity.
Qed.

Lemma put_book_books (id : string) (user : ObjectId) (body : BookBody) (s : State) :
  Forall2 same_derived_fields (books s) (books (fst (put_book id user body s))).
Proof.
  assert (Hrefl : forall l, Forall2 same_derived_fields l l).
  { induction l; constructor; [split; reflexivity | assumption]. }
  unfold put_book.
  destruct (negb (List.length (put_book_errors (year s) body) =? 0)%nat);
    [apply Hrefl|].
  destruct (Mongo.castObjectId id) as [bid|]; [|apply Hrefl].
  destruct (Book_findById bid s) as [book|]; [|apply Hrefl].
  destruct (negb (Book.canBeEditedBy book user)); [apply Hrefl|].
  unfold Book_findByIdAndUpdate.
  destruct (negb (BookUpdate_valid (year s) (book_updateData body))); [apply Hrefl|].
  match goal with
  | |- context [match ?x with Some _ => _ | None => _ end] => destruct x
  end.
  all: simpl; apply update_first_frame;
    [ intros d; split; reflexivity
    | intros d _; unfold apply_BookUpdate, set_if;
      destruct (book_updateData body) as [[?|] [?|] [?|] [?|] [?|]];
      split; reflexivity ].
Qed.

Lemma delete_book_books (id : string) (user : ObjectId) (s : State) (d : Book.t) :
  In d (books (fst (delete_book id user s))) -> In d (books s).
Proof.
  unfold delete_book.
  destruct (Mongo.castObjectId id) as [bid|]; [|tauto].
  destruct (Book_findById bid s) as [book|]; [|tauto].
  destruct (negb (Book.canBeEditedBy book user)); [tauto|].
  simpl. apply remove_first_incl.
Qed.

(** C10.  The client-facing book handlers never set the derived fields
    from request input: whatever a body carries under the names of the
    derived fields, creation and update behave as without it; a created
    book starts with [communityRating = 0] and [reviewCount = 0] and
    leaves the stored books as they are; an update leaves both derived
    fields of every stored book as they are; a deletion leaves the
    remaining books as they are. *)
Theorem book_handlers_keep_derived_fields (user : ObjectId) (body : BookBody)
        (s : State) :
  (forall a b c d,
      post_book user (with_derived_input a b c d body) s = post_book user body s)
  /\ (forall id a b c d,
         put_book id user (with_derived_input a b c d body) s = put_book id user body s)
  /\ (books (fst (post_book user body s)) = books s
      \/ exists bk,
           books (fst (post_book user body s)) = (books s ++ [bk])%list
           /\ Book.communityRating bk = 0 /\ Book.reviewCount bk = 0%nat)
  /\ (forall id,
         Forall2 same_derived_fields (books s) (books (fst (put_book id user body s))))
  /\ (forall id d, In d (books (fst (delete_book id user s))) -> In d (books s)).
Proof.
  split; [intros; apply post_book_ignores_derived|].
  split; [intros; apply put_book_ignores_derived|].
  split; [apply post_book_books|].
  split; [intros; apply put_book_books | intros id d; apply delete_book_books].
Qed.

(** ** Request validation *)

Lemma parse_hex_all (l : list ascii) (acc : N) :
  Mongo.parse_hex acc l <> None <-> Forall (fun c => Mongo.hex_digit c <> None) l.
Proof.
  revert acc. induction l as [|c l IH]; intros acc; simpl.
  - split; [constructor | discriminate].
  - destruct (Mongo.hex_digit c) as [d|] eqn:E.
    + rewrite IH. split.
      * intros H. constructor; [congruence | exact H].
      * intros H. inversion H; assumption.
    + split; [congruence|]. intros H. inversion H; congruence.
Qed.

Lemma isMongoId_spec (v : option string) :
  Validator.isMongoId v = true <-> well_formed_id v.
Proof.
  unfold Validator.isMongoId, well_formed_id, Mongo.castObjectId.
  destruct v as [raw|].
  - destruct (Nat.eqb_spec (String.length raw) 24) as [Hlen|Hlen].
    + destruct (Mongo.parse_hex 0 (list_ascii_of_string raw)) as [o|] eqn:E.
      * split; [|reflexivity]. intros _. exists raw. repeat split; [exact Hlen|].
        apply parse_hex_all with (acc := 0%N). congruence.
      * split; [discriminate|]. intros (raw' & Hraw & _ & Hall).
        injection Hraw as <-.
        apply parse_hex_all with (acc := 0%N) in Hall. congruence.
    + split; [discriminate|]. intros (raw' & Hraw & Hlen' & _).
      injection Hraw as <-. contradiction.
  - split; [discriminate|]. intros (raw & Hraw & _). discriminate.
Qed.

Lemma Number_isInteger_spec (q : Q) :
  Js.Number_isInteger q = true <-> exists z, q == inject_Z z.
Proof.
  unfold Js.Number_isInteger. rewrite Qeq_bool_iff. split.
  - intros H. exists (Qfloor q). symmetry. exact H.
  - intros [z Hz]. rewrite Hz at 2. rewrite Hz, Qfloor_Z. reflexivity.
Qed.

Lemma isInt_spec (lo hi : Z) (v : option Q) :
  Validator.isInt lo hi v = true <-> integer_within lo hi v.
Proof.
  unfold Validator.isInt, integer_within, Js.Qleb. destruct v as [q|].
  - rewrite !andb_true_iff, Number_isInteger_spec, !Qle_bool_iff. split.
    + intros [[[z Hz] Hlo] Hhi]. exists q, z.
      rewrite Hz in Hlo, Hhi. rewrite <- Zle_Qle in Hlo, Hhi. auto.
    + intros (q' & z & Hq & Hz & Hlo & Hhi). injection Hq as <-.
      rewrite Hz, <- !Zle_Qle. repeat split; try assumption. now exists z.
  - split; [discriminate|]. intros (q & z & Hq & _). discriminate.
Qed.

Lemma isLength_trim_spec (lo hi : nat) (v : option string) :
  Validator.isLength lo hi (Validator.trim v) = true <-> text_within lo hi v.
Proof.
  unfold Validator.isLength, Validator.trim, text_within, Js.len_between.
  destruct v as [t|]; simpl.
  - rewrite andb_true_iff, !Nat.leb_le. split.
    + intros H. exists t. auto.
    + intros (t' & Ht & H). injection Ht as <-. exact H.
  - split; [discriminate|]. intros (t & Ht & _). discriminate.
Qed.

Lemma report_nil (ok : bool) (msg : string) : Validator.report ok msg = [] <-> ok = true.
Proof. destruct ok; simpl; split; congruence. Qed.

Lemma post_review_errors_nil (body : ReviewBody) :
  post_review_errors body = [] <->
  Validator.isMongoId (bookId body) = true
  /\ Validator.isInt 1 5 (rating body) = true
  /\ Validator.isLength 1 500 (Validator.trim (reviewText body)) = true.
Proof.
  unfold post_review_errors. split.
  - intros H. apply app_eq_nil in H as [H1 H]. apply app_eq_nil in H as [H2 H3].
    rewrite report_nil in H1, H2, H3. auto.
  - intros (H1 & H2 & H3). rewrite H1, H2, H3. reflexivity.
Qed.

Lemma length_zero_nil (A : Type) (l : list A) :
  negb (List.length l =? 0)%nat = false <-> l = [].
Proof. destruct l; simpl; split; congruence. Qed.

(** The handler answers with the validation errors exactly when there
    are some, and then leaves the store alone. *)
Lemma post_review_rejects (user : ObjectId) (body : ReviewBody) (s : State) :
  (forall status errs, snd (post_review user body s) = Errors status errs ->
     post_review_errors body <> []
     /\ post_review user body s = (s, Errors 400 (post_review_errors body)))
  /\ (post_review_errors body <> [] ->
      post_review user body s = (s, Errors 400 (post_review_errors body))).
Proof.
  split.
  - intros status errs H. unfold post_review in *.
    destruct (negb (List.length (post_review_errors body) =? 0)%nat) eqn:E.
    + split; [|reflexivity]. intros Hnil. apply length_zero_nil in Hnil. congruence.
    + branch H; discriminate H.
  - intros Hne. unfold post_review.
    destruct (negb (List.length (post_review_errors body) =? 0)%nat) eqn:E;
      [reflexivity|].
    apply length_zero_nil in E. contradiction.
Qed.

(** C7 as stated fails: a body whose rating and text are within bounds
    but whose [bookId] is not an identifier is rejected with the
    validation errors. *)
Lemma validation_also_checks_bookId :
  let body := mkReviewBody (Some "clean-code") (Some 5)
                (Some "An exceptional book that changed how I think.") in
  ~ ((exists errs, snd (post_review 1%N body Demo.library) = Errors 400 errs)
     <-> (~ integer_within 1 5 (rating body)
          \/ ~ text_within 1 500 (reviewText body))).
Proof.
  intros body [H _].
  destruct H as [H|H].
  - exists ["Invalid book ID"]. vm_compute. reflexivity.
  - apply H. exists 5, 5%Z. repeat split; try reflexivity; lia.
  - apply H. eexists. split; [reflexivity|]. vm_compute. split; lia.
Qed.

(** C7, amended.  The creation is rejected with the validation errors
    (status 400) exactly when the [bookId] is not a well-formed
    identifier, or the rating is not an integer in [1,5], or the
    trimmed review text is not between 1 and 500 characters long; a
    rejected request inserts no review and changes no aggregate: the
    store is left as it was. *)
Theorem post_review_validation (user : ObjectId) (body : ReviewBody) (s : State) :
  ((exists errs, snd (post_review user body s) = Errors 400 errs)
   <-> (~ well_formed_id (bookId body)
        \/ ~ integer_within 1 5 (rating body)
        \/ ~ text_within 1 500 (reviewText body)))
  /\ (forall status errs, snd (post_review user body s) = Errors status errs ->
        status = 400%Z /\ fst (post_review user body s) = s).
Proof.
  destruct (post_review_rejects user body s) as [Honly Hif].
  split; [split|].
  - intros [errs H]. destruct (Honly _ _ H) as [Hne _].
    rewrite <- isMongoId_spec, <- isInt_spec, <- isLength_trim_spec.
    destruct (Validator.isMongoId (bookId body)) eqn:E1; [|left; discriminate].
    destruct (Validator.isInt 1 5 (rating body)) eqn:E2; [|right; left; discriminate].
    destruct (Validator.isLength 1 500 (Validator.trim (reviewText body))) eqn:E3;
      [|right; right; discriminate].
    elim Hne. apply post_review_errors_nil. auto.
  - intros H. exists (post_review_errors body). rewrite Hif; [reflexivity|].
    rewrite post_review_errors_nil, isMongoId_spec, isInt_spec, isLength_trim_spec.
    tauto.
  - intros status errs H. destruct (Honly _ _ H) as [_ E].
    rewrite E in H |- *. simpl in *. split; [congruence | reflexivity].
Qed.

(** A review text shorter than the ten characters the schema asks for
    passes the request validation and is then refused by [save()]; the
    handler answers 500 and stores nothing. *)
Example short_text_refused_by_schema :
  let body := mkReviewBody (Some (Demo.oid 3)) (Some 5) (Some "Loved it") in
  post_review_errors body = []
  /\ snd (post_review 1%N body Demo.library) = Message 500 "Server error"
  /\ reviews (fst (post_review 1%N body Demo.library)) = reviews Demo.library
  /\ books (fst (post_review 1%N body Demo.library)) = books Demo.library.
Proof. vm_compute. repeat split; reflexivity. Qed.

(** ** Ownership of reviews *)

Lemma put_review_errors_nil (patch : ReviewPatch) :
  put_review_errors patch = [] <-> patch_well_formed patch.
Proof.
  unfold put_review_errors, patch_well_formed.
  rewrite <- isInt_spec, <- isLength_trim_spec. split.
  - intros H. apply app_eq_nil in H as [H1 H2]. rewrite report_nil in H1, H2.
    unfold Validator.optional in *. split.
    + destruct (patch_rating patch); [right; exact H1 | left; reflexivity].
    + destruct (patch_reviewText patch); [right; exact H2 | left; reflexivity].
  - intros [H1 H2]. unfold Validator.optional.
    assert (E1 : match patch_rating patch with
                 | Some _ => Validator.isInt 1 5 (patch_rating patch)
                 | None => true
                 end = true).
    { destruct H1 as [->| ->]; [reflexivity|]. now destruct (patch_rating patch). }
    assert (E2 : match Validator.trim (patch_reviewText patch) with
                 | Some _ => Validator.isLength 1 500
                               (Validator.trim (patch_reviewText patch))
                 | None => true
                 end = true).
    { destruct H2 as [->| ->]; [reflexivity|].
      now destruct (Validator.trim (patch_reviewText patch)). }
    rewrite E1, E2. reflexivity.
Qed.

(** C8 as stated fails: reader 1 is not the author of review 4, yet an
    update with a rating out of range is answered with the validation
    errors, which the handler checks before it looks at the author. *)
Lemma non_author_gets_validation_error_first :
  (exists r, Review_findById 4%N Demo.rated_5_4_3 = Some r
             /\ Review.canBeEditedBy r 1%N = false)
  /\ ~ (forall patch,
          snd (put_review (Demo.oid 4) 1%N patch Demo.rated_5_4_3)
          = Message 403 "Not authorized to update this review").
Proof.
  split.
  - eexists. split; vm_compute; reflexivity.
  - intros H. specialize (H (mkReviewPatch (Some 9) None)).
    vm_compute in H. discriminate H.
Qed.

(** C8, amended.  For a review and a requester who is not its author,
    the deletion is refused with status 403, and so is every update
    whose patch passes the request validation (a patch that does not is
    answered with the validation errors, status 400); in every case the
    store is left as it was: the review, its rating and text, and the
    aggregates of its book are unchanged. *)
Theorem non_author_is_refused (id : string) (rid user : ObjectId)
        (review : Review.t) (s : State) :
  Mongo.castObjectId id = Some rid ->
  Review_findById rid s = Some review ->
  Review.canBeEditedBy review user = false ->
  delete_review id user s = (s, Message 403 "Not authorized to delete this review")
  /\ forall patch,
       fst (put_review id user patch s) = s
       /\ (patch_well_formed patch ->
           snd (put_review id user patch s)
           = Message 403 "Not authorized to update this review")
       /\ (~ patch_well_formed patch ->
           snd (put_review id user patch s) = Errors 400 (put_review_errors patch)).
Proof.
  intros Hid Hfind Hauth. split.
  - unfold delete_review. rewrite Hid, Hfind, Hauth. reflexivity.
  - intros patch. rewrite <- put_review_errors_nil. unfold put_review.
    destruct (negb (List.length (put_review_errors patch) =? 0)%nat) eqn:E.
    + split; [reflexivity|]. split; [|intros _; reflexivity].
      intros Hnil. apply length_zero_nil in Hnil. congruence.
    + rewrite Hid, Hfind, Hauth. apply length_zero_nil in E.
      split; [reflexivity|]. split; [intros _; reflexivity | contradiction].
Qed.

Lemma non_author_is_refused_witness :
  delete_review (Demo.oid 4) 1%N Demo.rated_5_4_3
  = (Demo.rated_5_4_3, Message 403 "Not authorized to delete this review")
  /\ snd (put_review (Demo.oid 4) 1%N (mkReviewPatch (Some 1) None) Demo.rated_5_4_3)
     = Message 403 "Not authorized to update this review".
Proof.
  assert (Hfind : exists r, Review_findById 4%N Demo.rated_5_4_3 = Some r
                            /\ Review.canBeEditedBy r 1%N = false).
  { eexists. split; vm_compute; reflexivity. }
  destruct Hfind as (r & Hfind & Hauth).
  destruct (@non_author_is_refused (Demo.oid 4) 4%N 1%N r Demo.rated_5_4_3)
    as [Hdel Hput]; [vm_compute; reflexivity | exact Hfind | exact Hauth |].
  split; [exact Hdel|].
  apply (Hput (mkReviewPatch (Some 1) None)).
  split; [right | left; reflexivity].
  exists 1, 1%Z. repeat split; try reflexivity; lia.
Defined.

(** ** A recompute without its book *)

Lemma Review_findById_updated (rid : ObjectId) (u : ReviewUpdate) (stamp : Z)
      (s : State) :
  Review_findById rid
    (with_reviews
       (Mongo.update_first (is_id Review._id rid) (apply_ReviewUpdate u stamp)
          (reviews s)) s)
  = option_map (apply_ReviewUpdate u stamp) (Review_findById rid s).
Proof.
  unfold Review_findById. simpl. apply update_first_find_same.
  intros d. unfold apply_ReviewUpdate.
  destruct (upd_starRating u), (upd_reviewContent u); reflexivity.
Qed.

Lemma recalculate_after_absent (doc : Review.t) (s : State) :
  Book_findById (Review.reviewedBook doc) s = None -> recalculate_after doc s = s.
Proof. intros H. unfold recalculate_after. now rewrite H. Qed.

(** C6.  When the book a review references is not in the store, the
    recompute is a no-op: the updater and both hooks return the store
    as it is, nothing is thrown, and the deletion or update of such a
    review by its author completes with status 200. *)
Theorem recompute_without_book_is_noop (b : ObjectId) (s : State) :
  Book_findById b s = None ->
  updateBookRating b s = s
  /\ (forall doc, Review.reviewedBook doc = b ->
        Review_post_save doc s = s
        /\ Review_post_findOneAndDelete (Some doc) s = s)
  /\ (forall id rid user review,
        Mongo.castObjectId id = Some rid ->
        Review_findById rid s = Some review ->
        Review.reviewedBook review = b ->
        Review.canBeEditedBy review user = true ->
        delete_review id user s
        = (with_reviews (Mongo.remove_first (is_id Review._id rid) (reviews s)) s,
           Message 200 "Review deleted successfully")
        /\ (forall patch,
              patch_well_formed patch ->
              ReviewUpdate_valid (review_updateData patch) = true ->
              put_review id user patch s
              = (with_reviews
                   (Mongo.update_first (is_id Review._id rid)
                      (apply_ReviewUpdate (review_updateData patch) (clock s))
                      (reviews s)) s,
                 ReviewReply 200 "Review updated successfully"
                   (apply_ReviewUpdate (review_updateData patch) (clock s) review)))).
Proof.
  intros Hb. split; [now apply updateBookRating_absent|]. split.
  - intros doc <-. split; now apply recalculate_after_absent.
  - intros id rid user review Hid Hfind <- Hauth. split.
    + unfold delete_review. rewrite Hid, Hfind, Hauth. simpl negb. cbv iota.
      unfold Review_findByIdAndDelete. rewrite Hfind.
      unfold Review_post_findOneAndDelete.
      rewrite recalculate_after_absent by exact Hb.
      rewrite updateBookRating_absent by exact Hb. reflexivity.
    + intros patch Hpatch Hvalid. apply put_review_errors_nil in Hpatch.
      unfold put_review. rewrite Hpatch. simpl negb. cbv iota.
      rewrite Hid, Hfind, Hauth. simpl negb. cbv iota.
      unfold Review_findByIdAndUpdate. rewrite Hvalid. simpl negb. cbv iota.
      rewrite Review_findById_updated, Hfind. simpl option_map.
      rewrite updateBookRating_absent by exact Hb. reflexivity.
Qed.

Lemma recompute_without_book_is_noop_witness :
  Book_findById 3%N Demo.orphaned = None
  /\ updateBookRating 3%N Demo.orphaned = Demo.orphaned
  /\ snd (delete_review (Demo.oid 6) 2%N Demo.orphaned)
     = Message 200 "Review deleted successfully".
Proof.
  assert (Hb : Book_findById 3%N Demo.orphaned = None) by (vm_compute; reflexivity).
  destruct (@recompute_without_book_is_noop 3%N Demo.orphaned Hb) as (Hupd & _ & Hreq).
  split; [exact Hb|]. split; [exact Hupd|].
  assert (Hfind : exists r, Review_findById 6%N Demo.orphaned = Some r
                            /\ Review.reviewedBook r = 3%N
                            /\ Review.canBeEditedBy r 2%N = true).
  { eexists. split; [|split]; vm_compute; reflexivity. }
  destruct Hfind as (r & Hfind & Href & Hauth).
  destruct (Hreq (Demo.oid 6) 6%N 2%N r) as [Hdel _];
    [vm_compute; reflexivity | exact Hfind | exact Href | exact Hauth |].
  rewrite Hdel. reflexivity.
Defined.

(** ** One review per reader and book *)

Lemma Book_save_reviews (loaded b : Book.t) (s s' : State) :
  Book_save loaded b s = Ok s' -> reviews s' = reviews s.
Proof.
  unfold Book_save. intros H. branch H; try discriminate H.
  - injection H as <-. reflexivity.
  - injection H as <-. reflexivity.
Qed.

Lemma recalculateRating_reviews (this : Book.t) (s s' : State) :
  recalculateRating this s = Ok s' -> reviews s' = reviews s.
Proof.
  unfold recalculateRating. rewrite find_bookId. simpl. apply Book_save_reviews.
Qed.

Lemma recalculate_after_reviews (doc : Review.t) (s : State) :
  reviews (recalculate_after doc s) = reviews s.
Proof.
  unfold recalculate_after.
  destruct (Book_findById (Review.reviewedBook doc) s) as [book|]; [|reflexivity].
  destruct (recalculateRating book s) as [s'|e] eqn:E; [|reflexivity].
  now apply recalculateRating_reviews in E.
Qed.

Lemma same_key_index (r : Review.t) (l : list Review.t) :
  existsb (Review.same_key r) l = false ->
  ~ In (Review.index_key r) (map Review.index_key l).
Proof.
  intros H Hin. apply in_map_iff in Hin as (x & Hx & Hin).
  assert (E : existsb (Review.same_key r) l = true).
  { apply existsb_exists. exists x. split; [exact Hin|].
    unfold Review.index_key in Hx. injection Hx as H1 H2.
    unfold Review.same_key. rewrite H1, H2, !N.eqb_refl. reflexivity. }
  congruence.
Qed.

Lemma NoDup_map_snoc (A B : Type) (f : A -> B) (l : list A) (x : A) :
  NoDup (map f l) -> ~ In (f x) (map f l) -> NoDup (map f (l ++ [x])).
Proof.
  intros Hl Hx. rewrite map_app. simpl.
  apply NoDup_app; [exact Hl | repeat constructor; simpl; tauto |].
  intros y Hy [<-|[]]. contradiction.
Qed.

Lemma NoDup_map_remove_first (A B : Type) (f : A -> B) (p : A -> bool) (l : list A) :
  NoDup (map f l) -> NoDup (map f (Mongo.remove_first p l)).
Proof.
  induction l as [|x l IH]; simpl; [tauto|].
  intros H. inversion H as [|? ? Hx Hl]; subst.
  destruct (p x); [exact Hl|]. simpl. constructor; [|now apply IH].
  intros Hin. apply Hx. apply in_map_iff in Hin as (y & Hy & Hin).
  apply in_map_iff. exists y. split; [exact Hy|].
  eapply remove_first_incl; eassumption.
Qed.

Lemma map_update_first (A B : Type) (f : A -> B) (p : A -> bool) (upd : A -> A)
      (l : list A) :
  (forall d, f (upd d) = f d) -> map f (Mongo.update_first p upd l) = map f l.
Proof.
  intros H. induction l as [|x l IH]; simpl; [reflexivity|].
  destruct (p x); simpl; [now rewrite H | now rewrite IH].
Qed.

Lemma apply_ReviewUpdate_key (u : ReviewUpdate) (stamp : Z) (r : Review.t) :
  Review.index_key (apply_ReviewUpdate u stamp r) = Review.index_key r.
Proof.
  unfold apply_ReviewUpdate.
  destruct (upd_starRating u), (upd_reviewContent u); reflexivity.
Qed.

Lemma Review_save_reviews (r saved : Review.t) (s s' : State) :
  Review_save r s = Ok (saved, s') ->
  reviews s' = (reviews s ++ [saved])%list
  /\ existsb (Review.same_key saved) (reviews s) = false.
Proof.
  unfold Review_save, Review_insert. intros H.
  destruct (negb (Review_validate r s)); [discriminate H|].
  match type of H with
  | context [existsb ?f ?l] => destruct (existsb f l) eqn:E
  end; [discriminate H|].
  injection H as <- <-. unfold Review_post_save.
  rewrite recalculate_after_reviews. split; [reflexivity | exact E].
Qed.

Lemma post_review_reviews (user : ObjectId) (body : ReviewBody) (s : State) :
  reviews (fst (post_review user body s)) = reviews s
  \/ exists r,
       reviews (fst (post_review user body s)) = (reviews s ++ [r])%list
       /\ existsb (Review.same_key r) (reviews s) = false.
Proof.
  unfold post_review.
  destruct (negb (List.length (post_review_errors body) =? 0)%nat); [now left|].
  destruct (bookId body) as [raw|]; [|now left].
  destruct (rating body) as [stars|]; [|now left].
  destruct (Validator.trim (reviewText body)) as [text|]; [|now left].
  destruct (Mongo.castObjectId raw) as [b|]; [|now left].
  destruct (Book_findById b s); [|now left].
  match goal with
  | |- context [Mongo.findOne ?g ?f ?l] => destruct (Mongo.findOne g f l)
  end; [now left|].
  unfold new_Review.
  match goal with
  | |- context [Review_save ?r ?s1] => destruct (Review_save r s1) as [[saved s2]|e] eqn:E
  end; [|now left].
  right. exists saved. apply Review_save_reviews in E. exact E.
Qed.

Lemma put_review_keys (id : string) (user : ObjectId) (body : ReviewPatch) (s : State) :
  map Review.index_key (reviews (fst (put_review id user body s)))
  = map Review.index_key (reviews s).
Proof.
  unfold put_review.
  destruct (negb (List.length (put_review_errors body) =? 0)%nat); [reflexivity|].
  destruct (Mongo.castObjectId id) as [rid|]; [|reflexivity].
  destruct (Review_findById rid s) as [review|]; [|reflexivity].
  destruct (negb (Review.canBeEditedBy review user)); [reflexivity|].
  unfold Review_findByIdAndUpdate.
  destruct (negb (ReviewUpdate_valid (review_updateData body))); [reflexivity|].
  match goal with
  | |- context [match ?x with Some _ => _ | None => _ end] => destruct x
  end; simpl; apply map_update_first; intros d; apply apply_ReviewUpdate_key.
Qed.

Lemma delete_review_reviews (id : string) (user : ObjectId) (s : State) :
  reviews (fst (delete_review id user s)) = reviews s
  \/ exists rid,
       reviews (fst (delete_review id user s))
       = Mongo.remove_first (is_id Review._id rid) (reviews s).
Proof.
  unfold delete_review.
  destruct (Mongo.castObjectId id) as [rid|]; [|now left].
  destruct (Review_findById rid s) as [review|]; [|now left].
  destruct (negb (Review.canBeEditedBy review user)); [now left|].
  right. exists rid. simpl. unfold Review_findByIdAndDelete.
  destruct (Review_findById rid s) as [doc|]; simpl;
    [apply recalculate_after_reviews | reflexivity].
Qed.

Lemma post_book_reviews (user : ObjectId) (body : BookBody) (s : State) :
  reviews (fst (post_book user body s)) = reviews s.
Proof.
  unfold post_book.
  destruct (negb (List.length (post_book_errors (year s) body) =? 0)%nat);
    [reflexivity|].
  destruct (Validator.trim (title body)); [|reflexivity].
  destruct (Validator.trim (author body)); [|reflexivity].
  destruct (Validator.trim (description body)); [|reflexivity].
  destruct (genre body); [|reflexivity].
  destruct (publishedYear body); [|reflexivity].
  unfold new_Book, Book_save_new.
  match goal with
  | |- context [negb (Book.validate ?y ?b)] => destruct (negb (Book.validate y b))
  end; reflexivity.
Qed.

Lemma put_book_reviews (id : string) (user : ObjectId) (body : BookBody) (s : State) :
  reviews (fst (put_book id user body s)) = reviews s.
Proof.
  unfold put_book.
  destruct (negb (List.length (put_book_errors (year s) body) =? 0)%nat);
    [reflexivity|].
  destruct (Mongo.castObjectId id) as [bid|]; [|reflexivity].
  destruct (Book_findById bid s) as [book|]; [|reflexivity].
  destruct (negb (Book.canBeEditedBy book user)); [reflexivity|].
  unfold Book_findByIdAndUpdate.
  destruct (negb (BookUpdate_valid (year s) (book_updateData body))); [reflexivity|].
  match goal with
  | |- context [match ?x with Some _ => _ | None => _ end] => destruct x
  end; reflexivity.
Qed.

(** Every handler keeps the review collection free of two reviews with
    the same book and author. *)
Lemma handle_keeps_one_review_per_pair (req : Request) (s : State) :
  one_review_per_pair (reviews s) ->
  one_review_per_pair (reviews (fst (handle req s))).
Proof.
  unfold one_review_per_pair. intros H.
  destruct req as [user body|id user body|id user|user body|id user body|id user];
    simpl handle.
  - destruct (post_review_reviews user body s) as [->|(r & -> & Hr)]; [exact H|].
    apply NoDup_map_snoc; [exact H | now apply same_key_index].
  - now rewrite put_review_keys.
  - destruct (delete_review_reviews id user s) as [->|(rid & ->)]; [exact H|].
    now apply NoDup_map_remove_first.
  - now rewrite post_book_reviews.
  - now rewrite put_book_reviews.
  - now rewrite delete_book_keeps_reviews.
Qed.

Lemma reachable_one_review_per_pair (s : State) :
  reachable s -> one_review_per_pair (reviews s).
Proof.
  induction 1 as [c y|req s _ IH|s _ IH|c y s _ IH _].
  - constructor.
  - now apply handle_keeps_one_review_per_pair.
  - exact IH.
  - exact IH.
Qed.

(** A creation for a pair that has a review leaves the store alone and
    does not succeed; when the request passes validation and the book
    exists, the answer is the duplicate rejection. *)
Lemma post_review_duplicate (user b : ObjectId) (body : ReviewBody) (raw : string)
      (s : State) :
  bookId body = Some raw ->
  Mongo.castObjectId raw = Some b ->
  has_review b user s = true ->
  fst (post_review user body s) = s
  /\ succeeded (snd (post_review user body s)) = false
  /\ (post_review_errors body = [] -> Book_findById b s <> None ->
      snd (post_review user body s)
      = Message 400 "You have already reviewed this book").
Proof.
  intros Hraw Hcast Hdup. apply findOne_pair in Hdup.
  unfold post_review.
  destruct (negb (List.length (post_review_errors body) =? 0)%nat) eqn:E.
  - split; [reflexivity|]. split; [reflexivity|].
    intros Hnil. apply length_zero_nil in Hnil. congruence.
  - rewrite Hraw.
    destruct (rating body) as [stars|] eqn:Er;
      [|split; [reflexivity|]; split; [reflexivity|]; intros Hnil;
        apply post_review_errors_nil in Hnil as (_ & Hint & _);
        rewrite Er in Hint; discriminate Hint].
    destruct (Validator.trim (reviewText body)) as [text|] eqn:Et;
      [|split; [reflexivity|]; split; [reflexivity|]; intros Hnil;
        apply post_review_errors_nil in Hnil as (_ & _ & Hlen);
        rewrite Et in Hlen; discriminate Hlen].
    rewrite Hcast.
    destruct (Book_findById b s) as [book|];
      [|split; [reflexivity|]; split; [reflexivity|]; intros _ Hb; now elim Hb].
    match goal with
    | |- context [Mongo.findOne ?g ?f ?l] => destruct (Mongo.findOne g f l)
    end; [|now elim Hdup].
    split; [reflexivity|]. split; [reflexivity|]. intros _ _. reflexivity.
Qed.

Lemma Review_insert_duplicate (r : Review.t) (s : State) :
  has_review (Review.reviewedBook r) (Review.reviewAuthor r) s = true ->
  Review_insert r s = Throw DuplicateKey.
Proof.
  unfold has_review, Review_insert. intros H.
  assert (E : existsb (Review.same_key r) (reviews s) = true).
  { apply existsb_exists in H as (x & Hin & Hx). apply existsb_exists.
    exists x. split; [exact Hin|].
    apply andb_true_iff in Hx as [H1 H2]. apply N.eqb_eq in H1, H2.
    unfold Review.same_key. rewrite H1, H2, !N.eqb_refl. reflexivity. }
  now rewrite E.
Qed.

(** C5 as stated fails: reader 0 has reviewed book 3, yet a second
    creation with a rating out of range is answered with the validation
    errors, not with the duplicate rejection. *)
Lemma duplicate_attempt_gets_validation_error_first :
  has_review 3%N 0%N Demo.rated_5_4_3 = true
  /\ ~ (forall body,
          bookId body = Some (Demo.oid 3) ->
          snd (post_review 0%N body Demo.rated_5_4_3)
          = Message 400 "You have already reviewed this book").
Proof.
  split; [vm_compute; reflexivity|].
  intros H. specialize (H (Demo.a_review 9) eq_refl).
  vm_compute in H. discriminate H.
Qed.

(** C5, amended.  In every reachable state at most one review exists
    per (book, user) pair.  A creation for a pair that already has a
    review inserts nothing and does not succeed; it is answered with
    the duplicate rejection when the request passes the request
    validation and the book exists.  Besides the lookup of the handler,
    the unique index of the store refuses the insertion of a review
    whose pair is taken. *)
Theorem one_review_per_user_per_book (s : State) :
  reachable s ->
  one_review_per_pair (reviews s)
  /\ (forall user b body raw,
        bookId body = Some raw ->
        Mongo.castObjectId raw = Some b ->
        has_review b user s = true ->
        fst (post_review user body s) = s
        /\ succeeded (snd (post_review user body s)) = false
        /\ (well_formed_id (bookId body) ->
            integer_within 1 5 (rating body) ->
            text_within 1 500 (reviewText body) ->
            Book_findById b s <> None ->
            snd (post_review user body s)
            = Message 400 "You have already reviewed this book"))
  /\ (forall r,
        has_review (Review.reviewedBook r) (Review.reviewAuthor r) s = true ->
        Review_insert r s = Throw DuplicateKey).
Proof.
  intros Hreach. split; [now apply reachable_one_review_per_pair|]. split.
  - intros user b body raw Hraw Hcast Hdup.
    destruct (@post_review_duplicate user b body raw s Hraw Hcast Hdup) as (H1 & H2 & H3).
    split; [exact H1|]. split; [exact H2|].
    intros Hid Hint Htext Hbook. apply H3; [|exact Hbook].
    apply post_review_errors_nil.
    rewrite isMongoId_spec, isInt_spec, isLength_trim_spec. auto.
  - intros r. apply Review_insert_duplicate.
Qed.

Lemma one_review_per_user_per_book_witness :
  one_review_per_pair (reviews Demo.rated_5_4_3)
  /\ fst (post_review 0%N (Demo.a_review 1) Demo.rated_5_4_3) = Demo.rated_5_4_3
  /\ snd (post_review 0%N (Demo.a_review 1) Demo.rated_5_4_3)
     = Message 400 "You have already reviewed this book".
Proof.
  assert (Hreach : reachable Demo.rated_5_4_3).
  { unfold Demo.rated_5_4_3. apply reach_request.
    unfold Demo.rated_5_4. apply reach_request.
    unfold Demo.rated_5. apply reach_request.
    unfold Demo.library. apply reach_tick; [|vm_compute; discriminate].
    apply reach_request. do 3 apply reach_sign_up. apply reach_initial. }
  destruct (@one_review_per_user_per_book Demo.rated_5_4_3 Hreach) as (Hone & Hdup & _).
  split; [exact Hone|].
  destruct (Hdup 0%N 3%N (Demo.a_review 1) (Demo.oid 3)) as (Hst & _ & Hmsg);
    [reflexivity | vm_compute; reflexivity | vm_compute; reflexivity |].
  split; [exact Hst|].
  apply Hmsg.
  - exists (Demo.oid 3). split; [reflexivity|]. split; [reflexivity|].
    repeat constructor; discriminate.
  - exists 1, 1%Z. repeat split; try reflexivity; lia.
  - eexists. split; [reflexivity|]. vm_compute. split; lia.
  - vm_compute. discriminate.
Defined.

(** ** recalculateRating against updateBookRating *)

Lemma Book_findById_id (b : ObjectId) (s : State) (bk : Book.t) :
  Book_findById b s = Some bk -> Book._id bk = b.
Proof.
  unfold Book_findById. intros H. apply find_some in H as [_ H].
  unfold is_id in H. now apply N.eqb_eq in H.
Qed.

Lemma round1_zero : Js.round1 0 = 0 # 10.
Proof. reflexivity. Qed.

#[local] Arguments Js.round1 : simpl never.

Lemma validate_zeroed (y : Z) (bk : Book.t) :
  Book.validate y bk = true ->
  Book.validate y (Book.set_reviewCount 0 (Book.set_communityRating 0 bk)) = true.
Proof.
  unfold Book.validate. simpl. rewrite round1_zero.
  rewrite !andb_true_iff. intros [H _]. split; [exact H | reflexivity].
Qed.

Lemma pre_save_zeroed (bk : Book.t) :
  Book.pre_save (Book.set_reviewCount 0 (Book.set_communityRating 0 bk))
  = Book.set_reviewCount 0 (Book.set_communityRating 0 bk).
Proof.
  unfold Book.pre_save, Book.set_reviewCount, Book.set_communityRating.
  cbn [Book.communityRating]. rewrite round1_zero. reflexivity.
Qed.

(** On a stored, valid book the method finds no review and leaves the
    book with rating 0 and count 0. *)
Lemma recalculateRating_zero (s : State) (bk : Book.t) :
  Book_findById (Book._id bk) s = Some bk ->
  Book.validate (year s) bk = true ->
  exists s' bk',
    recalculateRating bk s = Ok s'
    /\ Book_findById (Book._id bk) s' = Some bk'
    /\ Book.communityRating bk' == 0 /\ Book.reviewCount bk' = 0%nat
    /\ reviews s' = reviews s.
Proof.
  intros Hfind Hvalid. unfold recalculateRating. rewrite find_bookId.
  change (List.length (@nil Review.t) =? 0)%nat with true. cbv iota.
  unfold Book_save. rewrite (validate_zeroed _ _ Hvalid), pre_save_zeroed.
  simpl negb. cbv iota.
  match goal with
  | |- context [if ?m then _ else _] => destruct m eqn:Hmod
  end.
  - eexists _, _. split; [reflexivity|]. split.
    + unfold Book_findById in *. simpl books.
      change (Book._id (Book.set_reviewCount 0 (Book.set_communityRating 0 bk)))
        with (Book._id bk).
      rewrite update_first_find_same by reflexivity.
      rewrite Hfind. reflexivity.
    + simpl. rewrite round1_zero. repeat split; reflexivity.
  - exists s, bk. split; [reflexivity|]. split; [exact Hfind|].
    apply orb_false_iff in Hmod as [Hcr Hrc].
    apply negb_false_iff in Hcr, Hrc.
    apply Qeq_bool_eq in Hcr. apply Nat.eqb_eq in Hrc. simpl in Hcr, Hrc.
    rewrite round1_zero in Hcr. split; [|split; [exact Hrc | reflexivity]].
    rewrite Hcr. reflexivity.
Qed.

Lemma pre_save_reviewedBook (now : Z) (modified : bool) (r : Review.t) :
  Review.reviewedBook (Review.pre_save now modified r) = Review.reviewedBook r.
Proof.
  unfold Review.pre_save.
  destruct modified; simpl;
    match goal with
    | |- context [if ?c then _ else _] => destruct c
    end; reflexivity.
Qed.

Lemma reviews_of_snoc (b : ObjectId) (s : State) (l : list Review.t) (r : Review.t) :
  reviews s = (l ++ [r])%list -> Review.reviewedBook r = b -> reviews_of b s <> [].
Proof.
  intros Hl Hr. unfold reviews_of. rewrite Hl, filter_app. simpl.
  unfold references at 2. rewrite Hr, N.eqb_refl.
  intros H. apply app_eq_nil in H as [_ H]. discriminate H.
Qed.

(** After [review.save()] on a valid book, the hook has left the book
    with rating 0 and count 0 although the saved review references
    it. *)
Lemma Review_save_leaves_zero (r saved : Review.t) (s s2 : State) (bk : Book.t) :
  Review_save r s = Ok (saved, s2) ->
  Book_findById (Review.reviewedBook r) s = Some bk ->
  Book.validate (year s) bk = true ->
  (exists bk2,
      Book_findById (Review.reviewedBook r) s2 = Some bk2
      /\ Book.communityRating bk2 == 0 /\ Book.reviewCount bk2 = 0%nat)
  /\ reviews_of (Review.reviewedBook r) s2 <> [].
Proof.
  intros Hsave Hfind Hvalid.
  pose proof (Review_save_reviews _ _ Hsave) as [Hrs _].
  pose proof (Book_findById_id _ _ Hfind) as Hid.
  unfold Review_save, Review_insert in Hsave.
  destruct (negb (Review_validate r s)); [discriminate Hsave|].
  match type of Hsave with
  | context [existsb ?f ?l] => destruct (existsb f l)
  end; [discriminate Hsave|].
  injection Hsave as Hsaved Hs2.
  assert (Hbook : Review.reviewedBook saved = Review.reviewedBook r).
  { rewrite <- Hsaved. simpl. apply pre_save_reviewedBook. }
  split; [|eapply reviews_of_snoc; eassumption].
  rewrite <- Hs2. unfold Review_post_save, recalculate_after.
  rewrite Hsaved, Hbook.
  match goal with
  | |- context [Book_findById ?b ?s1] =>
      change (Book_findById b s1) with (Book_findById b s)
  end.
  rewrite Hfind.
  match goal with
  | |- context [recalculateRating bk ?s1] =>
      destruct (@recalculateRating_zero s1 bk) as (s' & bk' & -> & Hbk' & Hcr & Hrc & _)
  end.
  - rewrite Hid. exact Hfind.
  - exact Hvalid.
  - rewrite Hid in Hbk'. exists bk'. auto.
Qed.

(** ** Consistency of the reachable states *)

(** *** Shapes of the results of the handlers *)

Lemma Review_save_shape (r saved : Review.t) (s s2 : State) :
  Review_save r s = Ok (saved, s2) ->
  s2 = recalculate_after saved (with_reviews (reviews s ++ [saved]) s)
  /\ Review.reviewedBook saved = Review.reviewedBook r
  /\ Review.valid_starRating (Review.starRating saved) = true
  /\ Book_findById (Review.reviewedBook r) s <> None.
Proof.
  unfold Review_save, Review_insert, Review_validate. intros H.
  destruct (Book_findById (Review.reviewedBook r) s) as [bk|] eqn:Hbk;
    [|discriminate H].
  destruct (User_exists (Review.reviewAuthor r) s); [|discriminate H].
  destruct (Review.valid_starRating (Review.starRating r)) eqn:Hstars;
    [|discriminate H].
  destruct (Review.valid_reviewContent (Review.reviewContent r)); [|discriminate H].
  simpl in H.
  match type of H with
  | context [existsb ?f ?l] => destruct (existsb f l)
  end; [discriminate H|].
  injection H as Hsaved Hs2. subst saved s2.
  split; [reflexivity|]. split; [simpl; apply pre_save_reviewedBook|].
  split; [|discriminate].
  unfold Review.pre_save. simpl.
  match goal with
  | |- context [if ?c then _ else _] => destruct c
  end; exact Hstars.
Qed.

Lemma same_documents_refl (s : State) : same_documents s s.
Proof. repeat split; reflexivity. Qed.

Lemma post_review_shape (user : ObjectId) (body : ReviewBody) (s : State) :
  post_review_effect s (fst (post_review user body s)).
Proof.
  pose proof (@post_review_nothing s s (same_documents_refl s)) as Hsame.
  unfold post_review.
  destruct (negb (List.length (post_review_errors body) =? 0)%nat); [exact Hsame|].
  destruct (bookId body) as [raw|]; [|exact Hsame].
  destruct (rating body) as [stars|]; [|exact Hsame].
  destruct (Validator.trim (reviewText body)) as [text|]; [|exact Hsame].
  destruct (Mongo.castObjectId raw) as [b|]; [|exact Hsame].
  destruct (Book_findById b s) as [bk|] eqn:Hbk; [|exact Hsame].
  match goal with
  | |- context [Mongo.findOne ?g ?f ?l] => destruct (Mongo.findOne g f l)
  end; [exact Hsame|].
  unfold new_Review.
  match goal with
  | |- context [Review_save ?r ?s1] =>
      destruct (Review_save r s1) as [[saved s2]|e] eqn:E
  end.
  - apply Review_save_shape in E as (Hs2 & Hb & Hstars & _). simpl in Hb.
    apply post_review_stored with (r := saved).
    + rewrite Hb, Hbk. discriminate.
    + exact Hstars.
    + simpl. rewrite Hb, Hs2. reflexivity.
  - apply post_review_nothing. repeat split; simpl; first [reflexivity | lia].
Qed.

Lemma put_review_shape (id : string) (user : ObjectId) (body : ReviewPatch) (s : State) :
  put_review_effect s (fst (put_review id user body s)).
Proof.
  pose proof (@put_review_nothing s s (same_documents_refl s)) as Hsame.
  unfold put_review.
  destruct (negb (List.length (put_review_errors body) =? 0)%nat); [exact Hsame|].
  destruct (Mongo.castObjectId id) as [rid|]; [|exact Hsame].
  destruct (Review_findById rid s) as [r0|] eqn:Hr0; [|exact Hsame].
  destruct (negb (Review.canBeEditedBy r0 user)); [exact Hsame|].
  unfold Review_findByIdAndUpdate.
  destruct (ReviewUpdate_valid (review_updateData body)) eqn:Hvalid; [|exact Hsame].
  simpl negb. cbv iota.
  match goal with
  | |- context [match ?x with Some _ => _ | None => _ end] => destruct x
  end; simpl fst; eapply put_review_stored; eauto.
Qed.

Lemma delete_review_shape (id : string) (user : ObjectId) (s : State) :
  delete_review_effect s (fst (delete_review id user s)).
Proof.
  pose proof (@delete_review_nothing s s (same_documents_refl s)) as Hsame.
  unfold delete_review.
  destruct (Mongo.castObjectId id) as [rid|]; [|exact Hsame].
  destruct (Review_findById rid s) as [r0|] eqn:Hr0; [|exact Hsame].
  destruct (negb (Review.canBeEditedBy r0 user)); [exact Hsame|].
  simpl fst. eapply delete_review_removed; [exact Hr0|].
  unfold Review_findByIdAndDelete. rewrite Hr0. reflexivity.
Qed.

Lemma post_book_shape (user : ObjectId) (body : BookBody) (s : State) :
  post_book_effect s (fst (post_book user body s)).
Proof.
  pose proof (@post_book_nothing s s (same_documents_refl s)) as Hsame.
  unfold post_book.
  destruct (negb (List.length (post_book_errors (year s) body) =? 0)%nat);
    [exact Hsame|].
  destruct (Validator.trim (title body)) as [t|]; [|exact Hsame].
  destruct (Validator.trim (author body)) as [a|]; [|exact Hsame].
  destruct (Validator.trim (description body)) as [d|]; [|exact Hsame].
  destruct (genre body) as [g|]; [|exact Hsame].
  destruct (publishedYear body) as [y|]; [|exact Hsame].
  unfold new_Book, Book_save_new.
  match goal with
  | |- context [negb (Book.validate ?y ?b)] => destruct (Book.validate y b) eqn:Hvalid
  end; simpl negb; cbv iota; simpl fst.
  - eapply post_book_stored; [| | | |reflexivity]; try reflexivity.
    simpl in Hvalid |- *. exact Hvalid.
  - apply post_book_nothing. repeat split; simpl; first [reflexivity | lia].
Qed.

Lemma put_book_shape (id : string) (user : ObjectId) (body : BookBody) (s : State) :
  put_book_effect s (fst (put_book id user body s)).
Proof.
  pose proof (@put_book_nothing s s (same_documents_refl s)) as Hsame.
  unfold put_book.
  destruct (negb (List.length (put_book_errors (year s) body) =? 0)%nat);
    [exact Hsame|].
  destruct (Mongo.castObjectId id) as [bid|]; [|exact Hsame].
  destruct (Book_findById bid s) as [book|]; [|exact Hsame].
  destruct (negb (Book.canBeEditedBy book user)); [exact Hsame|].
  unfold Book_findByIdAndUpdate.
  destruct (BookUpdate_valid (year s) (book_updateData body)) eqn:Hvalid;
    [|exact Hsame].
  simpl negb. cbv iota.
  match goal with
  | |- context [match ?x with Some _ => _ | None => _ end] => destruct x
  end; simpl fst; eapply put_book_stored; eauto.
Qed.

Lemma delete_book_shape (id : string) (user : ObjectId) (s : State) :
  delete_book_effect s (fst (delete_book id user s)).
Proof.
  pose proof (@delete_book_nothing s s (same_documents_refl s)) as Hsame.
  unfold delete_book.
  destruct (Mongo.castObjectId id) as [bid|]; [|exact Hsame].
  destruct (Book_findById bid s) as [book|]; [|exact Hsame].
  destruct (negb (Book.canBeEditedBy book user)); [exact Hsame|].
  simpl fst. apply delete_book_removed with (bid := bid).
  rewrite deleteMany_bookId, with_reviews_same. reflexivity.
Qed.

Lemma pre_save_valid (b : Book.t) :
  Book.valid_communityRating (Book.communityRating b) = true -> Book.pre_save b = b.
Proof.
  unfold Book.valid_communityRating, Book.pre_save. intros H.
  apply andb_true_iff in H as [H0 H5]. rewrite H0. simpl negb. cbv iota.
  rewrite H5. reflexivity.
Qed.

Lemma validate_rating (y : Z) (b : Book.t) :
  Book.validate y b = true -> Book.valid_communityRating (Book.communityRating b) = true.
Proof. unfold Book.validate. rewrite !andb_true_iff. tauto. Qed.

Lemma recalculate_after_shape (doc : Review.t) (s : State) :
  recalculate_effect (Review.reviewedBook doc) s (recalculate_after doc s).
Proof.
  unfold recalculate_after.
  destruct (Book_findById (Review.reviewedBook doc) s) as [book|] eqn:Hbook;
    [|now constructor 1].
  apply Book_findById_id in Hbook.
  unfold recalculateRating. rewrite find_bookId.
  change (List.length (@nil Review.t) =? 0)%nat with true. cbv iota.
  unfold Book_save.
  match goal with
  | |- context [negb (Book.validate ?y ?b)] => destruct (Book.validate y b) eqn:Hvalid
  end; simpl negb; cbv iota; [|now constructor 1].
  pose proof (validate_rating _ _ Hvalid) as Hrating.
  rewrite (pre_save_valid _ Hrating).
  match goal with
  | |- context [if ?m then _ else _] => destruct m
  end; [|now constructor 1].
  eapply recalculate_stored; [exact Hrating|].
  simpl Book._id. rewrite Hbook. reflexivity.
Qed.

(** *** Lists under the store's operations *)

Section Lists.
Variable doc : Type.

Lemma filter_snoc_out (q : doc -> bool) (l : list doc) (x : doc) :
  q x = false -> filter q (l ++ [x]) = filter q l.
Proof. intros H. rewrite filter_app. simpl. rewrite H. apply app_nil_r. Qed.

Lemma filter_update_first_out (q p : doc -> bool) (upd : doc -> doc) (l : list doc)
      (d0 : doc) :
  List.find p l = Some d0 -> q d0 = false -> q (upd d0) = false ->
  filter q (Mongo.update_first p upd l) = filter q l.
Proof.
  induction l as [|x l IH]; simpl; [discriminate|].
  destruct (p x).
  - intros H H0 H1. injection H as ->. simpl. now rewrite H0, H1.
  - intros H H0 H1. simpl. now rewrite IH.
Qed.

Lemma filter_remove_first_out (q p : doc -> bool) (l : list doc) (d0 : doc) :
  List.find p l = Some d0 -> q d0 = false ->
  filter q (Mongo.remove_first p l) = filter q l.
Proof.
  induction l as [|x l IH]; simpl; [discriminate|].
  destruct (p x).
  - intros H H0. injection H as ->. now rewrite H0.
  - intros H H0. simpl. now rewrite IH.
Qed.

Lemma Forall_update_first (P : doc -> Prop) (p : doc -> bool) (upd : doc -> doc)
      (l : list doc) :
  (forall d, P d -> P (upd d)) -> Forall P l -> Forall P (Mongo.update_first p upd l).
Proof.
  intros Hupd. induction 1 as [|x l Hx Hl IH]; simpl; [constructor|].
  destruct (p x); constructor; auto.
Qed.

Lemma Forall_remove_first (P : doc -> Prop) (p : doc -> bool) (l : list doc) :
  Forall P l -> Forall P (Mongo.remove_first p l).
Proof.
  induction 1 as [|x l Hx Hl IH]; simpl; [constructor|].
  destruct (p x); [exact Hl | constructor; auto].
Qed.

Lemma Forall_snoc (P : doc -> Prop) (l : list doc) (x : doc) :
  Forall P l -> P x -> Forall P (l ++ [x]).
Proof. intros Hl Hx. apply Forall_app. split; [exact Hl | now constructor]. Qed.

Section WithId.
Variable id_of : doc -> ObjectId.

Lemma find_snoc (id : ObjectId) (l : list doc) (x : doc) :
  List.find (is_id id_of id) (l ++ [x])
  = match List.find (is_id id_of id) l with
    | Some d => Some d
    | None => if is_id id_of id x then Some x else None
    end.
Proof.
  induction l as [|y l IH]; simpl; [reflexivity|].
  destruct (is_id id_of id y); [reflexivity | exact IH].
Qed.

Lemma find_absent_of_bound (id : ObjectId) (l : list doc) :
  Forall (fun d => (id_of d < id)%N) l -> List.find (is_id id_of id) l = None.
Proof.
  induction 1 as [|x l Hx Hl IH]; simpl; [reflexivity|].
  unfold is_id at 1. destruct (N.eqb_spec (id_of x) id); [lia | exact IH].
Qed.

Lemma remove_first_find_other (id id' : ObjectId) (l : list doc) :
  id' <> id ->
  List.find (is_id id_of id') (Mongo.remove_first (is_id id_of id) l)
  = List.find (is_id id_of id') l.
Proof.
  intros Hne. induction l as [|x l IH]; simpl; [reflexivity|].
  destruct (is_id id_of id x) eqn:E.
  - unfold is_id in *. apply N.eqb_eq in E.
    destruct (N.eqb_spec (id_of x) id'); [congruence | reflexivity].
  - simpl. now rewrite IH.
Qed.

Lemma remove_first_find_same (id : ObjectId) (l : list doc) :
  NoDup (map id_of l) ->
  List.find (is_id id_of id) (Mongo.remove_first (is_id id_of id) l) = None.
Proof.
  induction l as [|x l IH]; simpl; [reflexivity|].
  intros H. inversion H as [|? ? Hx Hl]; subst.
  destruct (is_id id_of id x) eqn:E.
  - unfold is_id in E. apply N.eqb_eq in E. subst id.
    destruct (List.find (is_id id_of (id_of x)) l) as [d|] eqn:Hd; [|reflexivity].
    apply find_some in Hd as [Hin Hd]. unfold is_id in Hd. apply N.eqb_eq in Hd.
    elim Hx. rewrite <- Hd. now apply in_map.
  - simpl. rewrite E. now apply IH.
Qed.
End WithId.
End Lists.

(** *** Settled aggregates under changes elsewhere *)

Lemma settled_transfer (b : ObjectId) (s s' : State) :
  (forall bk', Book_findById b s' = Some bk' ->
     exists bk, Book_findById b s = Some bk /\ same_derived_fields bk bk') ->
  reviews_of b s' = reviews_of b s ->
  average_settled b s /\ count_settled b s ->
  average_settled b s' /\ count_settled b s'.
Proof.
  intros Hbook Hrev [Havg Hcnt].
  assert (Hexp : forall bk bk', same_derived_fields bk bk' ->
                 exposed_averageRating bk' = exposed_averageRating bk
                 /\ exposed_totalReviews bk' = exposed_totalReviews bk).
  { intros bk bk' [H1 H2]. unfold exposed_averageRating, exposed_totalReviews.
    now rewrite H1, H2. }
  split.
  - intros bk' Hbk'. destruct (Hbook _ Hbk') as (bk & Hbk & Hsame).
    destruct (Hexp _ _ Hsame) as [He _]. destruct Hsame as [Hcr _].
    unfold ratings_of. rewrite Hrev, Hcr, He. exact (Havg _ Hbk).
  - intros bk' Hbk'. destruct (Hbook _ Hbk') as (bk & Hbk & Hsame).
    destruct (Hexp _ _ Hsame) as [_ He]. destruct Hsame as [_ Hrc].
    rewrite Hrev, Hrc, He. exact (Hcnt _ Hbk).
Qed.

Lemma same_derived_refl (bk : Book.t) : same_derived_fields bk bk.
Proof. split; reflexivity. Qed.

Lemma settled_except_transfer (b0 : option ObjectId) (s s' : State) :
  (forall b, Some b <> b0 ->
     (forall bk', Book_findById b s' = Some bk' ->
        exists bk, Book_findById b s = Some bk /\ same_derived_fields bk bk')
     /\ reviews_of b s' = reviews_of b s) ->
  settled_except b0 s -> settled_except b0 s'.
Proof.
  intros H Hs b Hb. destruct (H b Hb) as [Hbook Hrev].
  eapply settled_transfer; eauto.
Qed.

Lemma settled_except_weaken (b0 : option ObjectId) (s : State) :
  settled_except None s -> settled_except b0 s.
Proof. intros H b _. apply H. discriminate. Qed.

Lemma consistent_same_documents (b0 : option ObjectId) (s s' : State) :
  same_documents s s' -> consistent_except b0 s -> consistent_except b0 s'.
Proof.
  intros (Hb & Hr & Hy & Hn) ((Hnd & Hbid & Hrid) & (Hvb & Hvr) & Hset).
  split; [|split].
  - unfold well_formed. rewrite Hb, Hr. split; [exact Hnd|]. split.
    + eapply Forall_impl; [|exact Hbid]. simpl. intros; lia.
    + eapply Forall_impl; [|exact Hrid]. simpl. intros; lia.
  - unfold all_valid. rewrite Hb, Hr, Hy. split; assumption.
  - eapply settled_except_transfer; [|exact Hset].
    intros b _. unfold Book_findById, reviews_of. rewrite Hb, Hr. split; [|reflexivity].
    intros bk' Hbk'. exists bk'. split; [exact Hbk' | apply same_derived_refl].
Qed.

(** *** The rating the updater stores is within bounds *)

Lemma total_bounds (l : list Q) :
  Forall (fun x => 1 <= x /\ x <= 5) l ->
  inject_Z (Z.of_nat (List.length l)) <= total l
  /\ total l <= 5 * inject_Z (Z.of_nat (List.length l)).
Proof.
  induction 1 as [|x l [Hlo Hhi] _ [IHlo IHhi]].
  - split; vm_compute; discriminate.
  - cbn [total List.length]. rewrite Nat2Z.inj_succ. unfold Z.succ.
    rewrite inject_Z_plus. change (inject_Z 1) with 1.
    revert IHlo IHhi. generalize (inject_Z (Z.of_nat (List.length l))).
    generalize (total l). intros t n IHlo IHhi. split; lra.
Qed.

Lemma valid_starRating_bounds (v : Q) :
  Review.valid_starRating v = true -> 1 <= v /\ v <= 5.
Proof.
  unfold Review.valid_starRating, Js.Qleb. rewrite !andb_true_iff, !Qle_bool_iff.
  tauto.
Qed.

Lemma averageRating_of_bounds (b : ObjectId) (s : State) :
  Forall (fun r => Review.valid_starRating (Review.starRating r) = true) (reviews s) ->
  0 <= averageRating_of b s /\ averageRating_of b s <= 5.
Proof.
  intros Hvalid. unfold averageRating_of.
  assert (Hl : Forall (fun x => 1 <= x /\ x <= 5)
                 (map Review.starRating (reviews_of b s))).
  { apply Forall_map. unfold reviews_of. apply Forall_forall. intros r Hr.
    apply filter_In in Hr as [Hr _]. apply valid_starRating_bounds.
    revert r Hr. now apply Forall_forall. }
  destruct (reviews_of b s) as [|r rest] eqn:E; [simpl; split; lra|].
  change (0 <? List.length (r :: rest))%nat with true. cbv iota.
  apply total_bounds in Hl as [Hlo Hhi]. rewrite length_map in Hlo, Hhi.
  assert (Hn : 0 < inject_Z (Z.of_nat (List.length (r :: rest)))).
  { change 0 with (inject_Z 0). rewrite <- Zlt_Qlt. simpl. lia. }
  pose proof (fold_sum_total (r :: rest) 0) as Hsum. rewrite Qplus_0_l in Hsum.
  revert Hlo Hhi Hsum Hn.
  generalize (fold_left (fun sum review => sum + Review.starRating review) (r :: rest) 0).
  generalize (total (map Review.starRating (r :: rest))).
  generalize (inject_Z (Z.of_nat (List.length (r :: rest)))).
  intros n t f Hlo Hhi Hsum Hn. split.
  - apply Qle_shift_div_l; [exact Hn|]. lra.
  - apply Qle_shift_div_r; [exact Hn|]. lra.
Qed.

Lemma rounded_rating_valid (avg : Q) :
  0 <= avg /\ avg <= 5 ->
  Book.valid_communityRating (inject_Z (Js.Math_round (avg * 10)) / 10) = true.
Proof.
  intros [Hlo Hhi]. destruct (Math_round_bounds (avg * 10)) as [Hle Hlt].
  set (z := Js.Math_round (avg * 10)) in *.
  assert (Hz : (0 <= z <= 50)%Z).
  { assert (H1 : inject_Z (-1) < inject_Z z).
    { change (inject_Z (-1)) with (-1 # 1).
      revert Hlt. generalize (inject_Z z). intros q Hlt. lra. }
    assert (H2 : inject_Z z < inject_Z 51).
    { change (inject_Z 51) with 51.
      revert Hle. generalize (inject_Z z). intros q Hle. lra. }
    rewrite <- Zlt_Qlt in H1, H2. lia. }
  destruct Hz as [Hz0 Hz50]. rewrite Zle_Qle in Hz0, Hz50.
  change (inject_Z 0) with 0 in Hz0. change (inject_Z 50) with 50 in Hz50.
  unfold Book.valid_communityRating, Js.Qleb.
  rewrite andb_true_iff, !Qle_bool_iff.
  revert Hz0 Hz50. generalize (inject_Z z). intros q Hz0 Hz50. split.
  - apply Qle_shift_div_l; lra.
  - apply Qle_shift_div_r; lra.
Qed.

(** *** Steps that keep the store consistent *)

Lemma validate_same_fields (y : Z) (d d' : Book.t) :
  same_descriptive_fields d d' ->
  Book.valid_communityRating (Book.communityRating d') = true ->
  Book.validate y d = true -> Book.validate y d' = true.
Proof.
  intros (_ & Ht & Ha & Hs & Hg & Hy & _) Hcr. unfold Book.validate.
  rewrite Ht, Ha, Hs, Hg, Hy, Hcr, !andb_true_iff. tauto.
Qed.

Lemma books_metrics_update (b0 : ObjectId) (f : Book.t -> Book.t) (s : State) :
  (forall d, same_descriptive_fields d (f d)) ->
  (forall d, Book.valid_communityRating (Book.communityRating (f d)) = true) ->
  consistent_except (Some b0) s ->
  consistent_except (Some b0)
    (with_books (Mongo.update_first (is_id Book._id b0) f (books s)) s).
Proof.
  intros Hsame Hcr ((Hnd & Hbid & Hrid) & (Hvb & Hvr) & Hset).
  assert (Hid : forall d, Book._id (f d) = Book._id d) by (intros d; apply Hsame).
  split; [|split].
  - unfold well_formed. simpl. split; [|split; [|exact Hrid]].
    + rewrite map_update_first by exact Hid. exact Hnd.
    + apply Forall_update_first; [|exact Hbid]. intros d Hd. now rewrite Hid.
  - unfold all_valid. simpl. split; [|exact Hvr].
    apply Forall_update_first; [|exact Hvb].
    intros d Hd. eapply validate_same_fields; eauto.
  - eapply settled_except_transfer; [|exact Hset].
    intros b Hb. split; [|reflexivity].
    intros bk' Hbk'. exists bk'. split; [|apply same_derived_refl].
    rewrite <- Hbk'. unfold Book_findById. simpl. symmetry.
    apply update_first_find_other; [exact Hid | congruence].
Qed.

Lemma updateBookRating_consistent (b0 : ObjectId) (s : State) :
  consistent_except (Some b0) s -> consistent (updateBookRating b0 s).
Proof.
  intros H. pose proof H as (_ & (_ & Hvr) & _).
  assert (H' : consistent_except (Some b0) (updateBookRating b0 s)).
  { rewrite updateBookRating_unfold. unfold Book_findByIdAndUpdate_metrics.
    apply books_metrics_update; [| |exact H].
    - intros d. unfold same_descriptive_fields. simpl. tauto.
    - intros d. simpl. rewrite round1_tenths.
      apply rounded_rating_valid. now apply averageRating_of_bounds. }
  destruct H' as (Hwf & Hv & Hset). split; [exact Hwf|]. split; [exact Hv|].
  intros b _. destruct (N.eq_dec b b0) as [->|Hne].
  - split; [apply updateBookRating_average | apply updateBookRating_count].
  - apply Hset. congruence.
Qed.

Lemma recalculate_after_consistent (r : Review.t) (s : State) :
  consistent_except (Some (Review.reviewedBook r)) s ->
  consistent_except (Some (Review.reviewedBook r)) (recalculate_after r s).
Proof.
  intros H. destruct (recalculate_after_shape r s) as [->|rating count Hr ->];
    [exact H|].
  apply books_metrics_update; [| |exact H].
  - intros d. unfold same_descriptive_fields. simpl. tauto.
  - intros d. exact Hr.
Qed.

Lemma Book_findById_bound (b : ObjectId) (s : State) :
  well_formed s -> Book_findById b s <> None -> (b < nextId s)%N.
Proof.
  intros (_ & Hbid & _) Hb.
  destruct (Book_findById b s) as [bk|] eqn:E; [clear Hb|congruence].
  pose proof (Book_findById_id _ _ E) as <-.
  unfold Book_findById in E. apply find_some in E as [Hin _].
  revert bk Hin. now apply Forall_forall.
Qed.

Lemma references_other (b b0 : ObjectId) (r : Review.t) :
  Review.reviewedBook r = b0 -> Some b <> Some b0 -> references b r = false.
Proof.
  intros Hr Hb. unfold references. rewrite Hr.
  destruct (N.eqb_spec b0 b); congruence.
Qed.

Lemma review_appended (r : Review.t) (s : State) :
  Book_findById (Review.reviewedBook r) s <> None ->
  Review.valid_starRating (Review.starRating r) = true ->
  consistent s ->
  consistent_except (Some (Review.reviewedBook r))
    (with_reviews (reviews s ++ [r]) (with_nextId (nextId s + 1)%N s)).
Proof.
  intros Hbook Hstars (Hwf & (Hvb & Hvr) & Hset).
  pose proof (Book_findById_bound _ Hwf Hbook) as Hlt.
  destruct Hwf as (Hnd & Hbid & Hrid).
  split; [|split].
  - unfold well_formed. simpl. split; [exact Hnd|]. split.
    + eapply Forall_impl; [|exact Hbid]. simpl. intros; lia.
    + apply Forall_snoc; [|lia].
      eapply Forall_impl; [|exact Hrid]. simpl. intros; lia.
  - split; simpl; [exact Hvb | now apply Forall_snoc].
  - eapply settled_except_transfer; [|apply settled_except_weaken; exact Hset].
    intros b Hb. split.
    + intros bk' Hbk'. exists bk'. split; [exact Hbk' | apply same_derived_refl].
    + unfold reviews_of. simpl. apply filter_snoc_out.
      now apply references_other with (b0 := Review.reviewedBook r).
Qed.

Lemma apply_ReviewUpdate_reviewedBook (u : ReviewUpdate) (stamp : Z) (r : Review.t) :
  Review.reviewedBook (apply_ReviewUpdate u stamp r) = Review.reviewedBook r.
Proof.
  unfold apply_ReviewUpdate.
  destruct (upd_starRating u), (upd_reviewContent u); reflexivity.
Qed.

Lemma apply_ReviewUpdate_valid (u : ReviewUpdate) (stamp : Z) (r : Review.t) :
  ReviewUpdate_valid u = true ->
  Review.valid_starRating (Review.starRating r) = true ->
  Review.valid_starRating (Review.starRating (apply_ReviewUpdate u stamp r)) = true.
Proof.
  unfold ReviewUpdate_valid, apply_ReviewUpdate. intros Hu Hr.
  apply andb_true_iff in Hu as [Hu _].
  destruct (upd_starRating u), (upd_reviewContent u); simpl; assumption.
Qed.

Lemma review_updated (rid : ObjectId) (r0 : Review.t) (u : ReviewUpdate) (s : State) :
  Review_findById rid s = Some r0 ->
  ReviewUpdate_valid u = true ->
  consistent s ->
  consistent_except (Some (Review.reviewedBook r0))
    (with_reviews
       (Mongo.update_first (is_id Review._id rid) (apply_ReviewUpdate u (clock s))
          (reviews s)) s).
Proof.
  intros Hr0 Hu ((Hnd & Hbid & Hrid) & (Hvb & Hvr) & Hset).
  split; [|split].
  - unfold well_formed. simpl. split; [exact Hnd|]. split; [exact Hbid|].
    apply Forall_update_first; [|exact Hrid].
    intros d Hd. now rewrite apply_ReviewUpdate_reviewedBook.
  - split; simpl; [exact Hvb|].
    apply Forall_update_first; [|exact Hvr].
    intros d Hd. now apply apply_ReviewUpdate_valid.
  - eapply settled_except_transfer; [|apply settled_except_weaken; exact Hset].
    intros b Hb. split.
    + intros bk' Hbk'. exists bk'. split; [exact Hbk' | apply same_derived_refl].
    + unfold reviews_of. simpl. eapply filter_update_first_out; [exact Hr0| |].
      * now apply references_other with (b0 := Review.reviewedBook r0).
      * apply references_other with (b0 := Review.reviewedBook r0); [|exact Hb].
        apply apply_ReviewUpdate_reviewedBook.
Qed.

Lemma review_removed (rid : ObjectId) (r0 : Review.t) (s : State) :
  Review_findById rid s = Some r0 ->
  consistent s ->
  consistent_except (Some (Review.reviewedBook r0))
    (with_reviews (Mongo.remove_first (is_id Review._id rid) (reviews s)) s).
Proof.
  intros Hr0 ((Hnd & Hbid & Hrid) & (Hvb & Hvr) & Hset).
  split; [|split].
  - unfold well_formed. simpl. split; [exact Hnd|]. split; [exact Hbid|].
    now apply Forall_remove_first.
  - split; simpl; [exact Hvb | now apply Forall_remove_first].
  - eapply settled_except_transfer; [|apply settled_except_weaken; exact Hset].
    intros b Hb. split.
    + intros bk' Hbk'. exists bk'. split; [exact Hbk' | apply same_derived_refl].
    + unfold reviews_of. simpl. eapply filter_remove_first_out; [exact Hr0|].
      now apply references_other with (b0 := Review.reviewedBook r0).
Qed.

Lemma reviews_of_fresh (b : ObjectId) (s : State) :
  Forall (fun r => (Review.reviewedBook r < b)%N) (reviews s) -> reviews_of b s = [].
Proof.
  unfold reviews_of. induction 1 as [|r l Hr _ IH]; simpl; [reflexivity|].
  unfold references at 1. destruct (N.eqb_spec (Review.reviewedBook r) b); [lia|].
  exact IH.
Qed.

Lemma book_appended (bk : Book.t) (s : State) :
  Book._id bk = nextId s ->
  Book.validate (year s) bk = true ->
  Book.communityRating bk = 0 -> Book.reviewCount bk = 0%nat ->
  consistent s ->
  consistent (with_books (books s ++ [bk]) (with_nextId (nextId s + 1)%N s)).
Proof.
  intros Hid Hvalid Hcr Hrc ((Hnd & Hbid & Hrid) & (Hvb & Hvr) & Hset).
  split; [|split].
  - unfold well_formed. simpl. split; [|split].
    + apply NoDup_map_snoc; [exact Hnd|]. rewrite Hid. intros Hin.
      apply in_map_iff in Hin as (d & Hd & Hin).
      rewrite Forall_forall in Hbid. specialize (Hbid _ Hin). lia.
    + apply Forall_snoc; [|lia].
      eapply Forall_impl; [|exact Hbid]. simpl. intros; lia.
    + eapply Forall_impl; [|exact Hrid]. simpl. intros; lia.
  - split; simpl; [now apply Forall_snoc | exact Hvr].
  - intros b _.
    set (s' := with_books (books s ++ [bk]) (with_nextId (nextId s + 1)%N s)).
    destruct (Book_findById b s) as [d|] eqn:Hd.
    + apply settled_transfer with (s := s); [|reflexivity|apply Hset; discriminate].
      intros bk' Hbk'. exists d. split; [exact Hd|].
      unfold s', Book_findById in Hbk', Hd. simpl in Hbk'.
      rewrite find_snoc, Hd in Hbk'. injection Hbk' as <-. apply same_derived_refl.
    + assert (Hfind : forall bk', Book_findById b s' = Some bk' ->
                                  bk' = bk /\ b = nextId s).
      { intros bk' Hbk'. unfold s', Book_findById in Hbk', Hd. simpl in Hbk'.
        rewrite find_snoc, Hd in Hbk'. unfold is_id in Hbk'.
        destruct (N.eqb_spec (Book._id bk) b); [|discriminate].
        injection Hbk' as <-. split; congruence. }
      split; intros bk' Hbk'; destruct (Hfind _ Hbk') as [-> ->].
      * assert (Hnone : ratings_of (nextId s) s' = []).
        { unfold ratings_of. now rewrite (@reviews_of_fresh (nextId s) s' Hrid). }
        split; [intros _ | intros Hne; contradiction].
        rewrite exposed_averageRating_eq, Hcr. split; reflexivity.
      * rewrite exposed_totalReviews_eq, Hrc.
        rewrite (@reviews_of_fresh (nextId s) s' Hrid). split; reflexivity.
Qed.

Lemma apply_BookUpdate_fields (u : BookUpdate) (stamp : Z) (d : Book.t) :
  Book._id (apply_BookUpdate u stamp d) = Book._id d
  /\ same_derived_fields d (apply_BookUpdate u stamp d).
Proof.
  unfold apply_BookUpdate, set_if, same_derived_fields.
  destruct (upd_bookTitle u), (upd_authorName u), (upd_bookSummary u),
    (upd_literaryGenre u), (upd_publicationYear u); repeat split; reflexivity.
Qed.

Lemma apply_BookUpdate_valid (y : Z) (u : BookUpdate) (stamp : Z) (d : Book.t) :
  BookUpdate_valid y u = true ->
  Book.validate y d = true -> Book.validate y (apply_BookUpdate u stamp d) = true.
Proof.
  unfold BookUpdate_valid, Book.validate, apply_BookUpdate, set_if, valid_if.
  rewrite !andb_true_iff.
  intros ((((Ht & Ha) & Hs) & Hg) & Hy) (((((Vt & Va) & Vs) & Vg) & Vy) & Vr).
  destruct (upd_bookTitle u), (upd_authorName u), (upd_bookSummary u),
    (upd_literaryGenre u), (upd_publicationYear u); simpl; repeat split; assumption.
Qed.

Lemma book_updated (bid : ObjectId) (u : BookUpdate) (s : State) :
  BookUpdate_valid (year s) u = true ->
  consistent s ->
  consistent
    (with_books
       (Mongo.update_first (is_id Book._id bid) (apply_BookUpdate u (clock s))
          (books s)) s).
Proof.
  intros Hu ((Hnd & Hbid & Hrid) & (Hvb & Hvr) & Hset).
  assert (Hid : forall d, Book._id (apply_BookUpdate u (clock s) d) = Book._id d)
    by (intros d; apply apply_BookUpdate_fields).
  split; [|split].
  - unfold well_formed. simpl. split; [|split; [|exact Hrid]].
    + rewrite map_update_first by exact Hid. exact Hnd.
    + apply Forall_update_first; [|exact Hbid]. intros d Hd. now rewrite Hid.
  - split; simpl; [|exact Hvr].
    apply Forall_update_first; [|exact Hvb].
    intros d Hd. now apply apply_BookUpdate_valid.
  - eapply settled_except_transfer; [|exact Hset].
    intros b _. split; [|reflexivity].
    intros bk' Hbk'. unfold Book_findById in *. simpl in Hbk'.
    destruct (N.eq_dec b bid) as [->|Hne].
    + rewrite update_first_find_same in Hbk' by exact Hid.
      destruct (List.find (is_id Book._id bid) (books s)) as [d|]; [|discriminate].
      injection Hbk' as <-. exists d. split; [reflexivity|].
      apply apply_BookUpdate_fields.
    + rewrite update_first_find_other in Hbk' by (exact Hid || exact Hne).
      exists bk'. split; [exact Hbk' | apply same_derived_refl].
Qed.

Lemma book_removed (bid : ObjectId) (s : State) :
  consistent s ->
  consistent (with_books (Mongo.remove_first (is_id Book._id bid) (books s)) s).
Proof.
  intros ((Hnd & Hbid & Hrid) & (Hvb & Hvr) & Hset).
  split; [|split].
  - unfold well_formed. simpl. split; [|split; [|exact Hrid]].
    + now apply NoDup_map_remove_first.
    + now apply Forall_remove_first.
  - split; simpl; [now apply Forall_remove_first | exact Hvr].
  - eapply settled_except_transfer; [|exact Hset].
    intros b _. split; [|reflexivity].
    intros bk' Hbk'. unfold Book_findById in *. simpl in Hbk'.
    destruct (N.eq_dec b bid) as [->|Hne].
    + rewrite remove_first_find_same in Hbk' by exact Hnd. discriminate.
    + rewrite remove_first_find_other in Hbk' by exact Hne.
      exists bk'. split; [exact Hbk' | apply same_derived_refl].
Qed.

(** *** Every reachable state is consistent *)

Lemma handle_consistent (req : Request) (s : State) :
  consistent s -> consistent (fst (handle req s)).
Proof.
  intros H.
  destruct req as [user body|id user body|id user|user body|id user body|id user];
    simpl handle.
  - destruct (post_review_shape user body s) as [Hsame|r Hbook Hstars ->].
    + now apply consistent_same_documents with (s := s).
    + apply updateBookRating_consistent, recalculate_after_consistent.
      now apply review_appended.
  - destruct (put_review_shape id user body s) as [Hsame|rid r0 u Hr0 Hu ->].
    + now apply consistent_same_documents with (s := s).
    + apply updateBookRating_consistent. now apply review_updated.
  - destruct (delete_review_shape id user s) as [Hsame|rid r0 Hr0 ->].
    + now apply consistent_same_documents with (s := s).
    + apply updateBookRating_consistent, recalculate_after_consistent.
      now apply review_removed.
  - destruct (post_book_shape user body s) as [Hsame|bk Hid Hv Hcr Hrc ->].
    + now apply consistent_same_documents with (s := s).
    + now apply book_appended.
  - destruct (put_book_shape id user body s) as [Hsame|bid u Hu ->].
    + now apply consistent_same_documents with (s := s).
    + now apply book_updated.
  - destruct (delete_book_shape id user s) as [Hsame|bid ->].
    + now apply consistent_same_documents with (s := s).
    + now apply book_removed.
Qed.

Lemma valid_publicationYear_later (y y' : Z) (v : Q) :
  (y <= y')%Z ->
  Book.valid_publicationYear y v = true -> Book.valid_publicationYear y' v = true.
Proof.
  intros Hy. unfold Book.valid_publicationYear, Js.Qleb.
  rewrite !andb_true_iff, !Qle_bool_iff. intros [[H1 H2] H3].
  repeat split; try assumption.
  eapply Qle_trans; [exact H2|]. rewrite <- Zle_Qle. lia.
Qed.

Lemma validate_later (y y' : Z) (bk : Book.t) :
  (y <= y')%Z -> Book.validate y bk = true -> Book.validate y' bk = true.
Proof.
  intros Hy. unfold Book.validate. rewrite !andb_true_iff.
  intros (((((Vt & Va) & Vs) & Vg) & Vy) & Vr). repeat split; try assumption.
  eapply valid_publicationYear_later; eassumption.
Qed.

Lemma reachable_consistent (s : State) : reachable s -> consistent s.
Proof.
  induction 1 as [c y|req s _ IH|s _ IH|c y s _ IH Hy].
  - split; [|split].
    + repeat split; constructor.
    + split; constructor.
    + intros b _. split; intros bk Hbk; discriminate Hbk.
  - now apply handle_consistent.
  - apply consistent_same_documents with (s := s); [|exact IH].
    repeat split; simpl; first [reflexivity | lia].
  - destruct IH as ((Hnd & Hbid & Hrid) & (Hvb & Hvr) & Hset).
    split; [|split].
    + repeat split; assumption.
    + split; simpl; [|exact Hvr].
      eapply Forall_impl; [|exact Hvb]. simpl. intros bk. now apply validate_later.
    + eapply settled_except_transfer; [|exact Hset].
      intros b _. split; [|reflexivity].
      intros bk' Hbk'. exists bk'. split; [exact Hbk' | apply same_derived_refl].
Qed.

(** Both aggregates of every stored book are settled in every state
    the server can reach, whatever requests were handled. *)
Theorem aggregates_settled_when_reachable (s : State) (b : ObjectId) :
  reachable s -> average_settled b s /\ count_settled b s.
Proof.
  intros Hreach. destruct (reachable_consistent Hreach) as (_ & _ & Hset).
  apply Hset. discriminate.
Qed.

(** A stored book of a reachable state passes its schema. *)
Lemma reachable_book_valid (s : State) (bk : Book.t) :
  reachable s -> Book_findById (Book._id bk) s = Some bk ->
  Book.validate (year s) bk = true.
Proof.
  intros Hreach Hfind. destruct (reachable_consistent Hreach) as (_ & (Hvb & _) & _).
  unfold Book_findById in Hfind. apply find_some in Hfind as [Hin _].
  revert bk Hin. now apply Forall_forall.
Qed.

(** C4.  The method [recalculateRating] of the Book model and the
    helper [updateBookRating] of the review routes are not equivalent.
    For every book stored in a reachable state: the method's filter on
    [bookId] matches no review, and the method persists rating 0 and
    count 0; the helper stores the rounded mean and the number of the
    reviews that reference the book; so the two differ as soon as the
    book has a review; and after [review.save()], whose hook runs the
    method, the book carries 0 and 0 although it has a review, until
    the helper runs and settles both fields. *)
Theorem recalculateRating_is_not_updateBookRating (s : State) (bk : Book.t) :
  reachable s ->
  Book_findById (Book._id bk) s = Some bk ->
  Mongo.find Review.get [("bookId", Mongo.VId (Book._id bk))] (reviews s) = []
  /\ (exists s' bk',
         recalculateRating bk s = Ok s'
         /\ Book_findById (Book._id bk) s' = Some bk'
         /\ Book.communityRating bk' == 0 /\ Book.reviewCount bk' = 0%nat)
  /\ (average_settled (Book._id bk) (updateBookRating (Book._id bk) s)
      /\ count_settled (Book._id bk) (updateBookRating (Book._id bk) s))
  /\ (reviews_of (Book._id bk) s <> [] ->
      forall s', recalculateRating bk s = Ok s' ->
        option_map Book.reviewCount (Book_findById (Book._id bk) s')
        <> option_map Book.reviewCount
             (Book_findById (Book._id bk) (updateBookRating (Book._id bk) s)))
  /\ (forall r saved s2,
        Review.reviewedBook r = Book._id bk ->
        Review_save r s = Ok (saved, s2) ->
        (exists bk2,
            Book_findById (Book._id bk) s2 = Some bk2
            /\ Book.communityRating bk2 == 0 /\ Book.reviewCount bk2 = 0%nat)
        /\ reviews_of (Book._id bk) s2 <> []
        /\ average_settled (Book._id bk) (updateBookRating (Book._id bk) s2)
        /\ count_settled (Book._id bk) (updateBookRating (Book._id bk) s2)).
Proof.
  intros Hreach Hfind.
  pose proof (reachable_book_valid Hreach Hfind) as Hvalid.
  destruct (recalculateRating_zero _ Hfind Hvalid)
    as (s' & bk' & Hrec & Hbk' & Hcr & Hrc & _).
  split; [apply find_bookId|].
  split; [exists s', bk'; auto|].
  split; [split; [apply updateBookRating_average | apply updateBookRating_count]|].
  split.
  - intros Hne s'' Hrec'. rewrite Hrec in Hrec'. injection Hrec' as <-.
    rewrite Hbk', updateBookRating_book, Hfind. simpl. rewrite Hrc.
    intros H. injection H as H. symmetry in H. apply length_zero_iff_nil in H.
    contradiction.
  - intros r saved s2 Hr Hsave. rewrite <- Hr in *.
    destruct (@Review_save_leaves_zero r saved s s2 bk Hsave Hfind Hvalid)
      as [Hzero Hne].
    split; [exact Hzero|]. split; [exact Hne|].
    split; [apply updateBookRating_average | apply updateBookRating_count].
Qed.

Lemma recalculateRating_is_not_updateBookRating_witness :
  Book_findById 3%N Demo.rated_5_4_3 = Some (Demo.book_in Demo.rated_5_4_3)
  /\ exists s' bk',
       recalculateRating (Demo.book_in Demo.rated_5_4_3) Demo.rated_5_4_3 = Ok s'
       /\ Book_findById 3%N s' = Some bk'
       /\ Book.communityRating bk' == 0 /\ Book.reviewCount bk' = 0%nat.
Proof.
  assert (Hreach : reachable Demo.rated_5_4_3).
  { unfold Demo.rated_5_4_3. apply reach_request.
    unfold Demo.rated_5_4. apply reach_request.
    unfold Demo.rated_5. apply reach_request.
    unfold Demo.library. apply reach_tick; [|vm_compute; discriminate].
    apply reach_request. do 3 apply reach_sign_up. apply reach_initial. }
  assert (Hfind : Book_findById (Book._id (Demo.book_in Demo.rated_5_4_3))
                    Demo.rated_5_4_3
                  = Some (Demo.book_in Demo.rated_5_4_3))
    by (vm_compute; reflexivity).
  split; [vm_compute; reflexivity|].
  destruct (@recalculateRating_is_not_updateBookRating
              Demo.rated_5_4_3 (Demo.book_in Demo.rated_5_4_3) Hreach Hfind)
    as (_ & (s' & bk' & Hrec & Hbk' & Hcr & Hrc) & _).
  exists s', bk'. split; [exact Hrec|]. split; [|split; assumption].
  rewrite <- Hbk'. f_equal.
Defined.

(** On the book rated 5, 4 and 3 the method leaves 0 over 0 reviews,
    the helper 4.0 over 3 reviews. *)
Example recalculateRating_on_5_4_3 :
  option_map Demo.metrics
    (match recalculateRating (Demo.book_in Demo.rated_5_4_3) Demo.rated_5_4_3 with
     | Ok s' => Some s'
     | Throw _ => None
     end)
  = Some (Some (0, 0%nat))
  /\ Demo.metrics (updateBookRating 3%N Demo.rated_5_4_3) = Some (4, 3%nat).
Proof. vm_compute. split; reflexivity. Qed.

(** The hook of the deletion does the same: with two reviews left, the
    book carries 0 over 0 until the helper runs. *)
Example hook_after_delete_on_5_4_3 :
  Demo.metrics (Review_findByIdAndDelete 6%N Demo.rated_5_4_3) = Some (0, 0%nat)
  /\ List.length (reviews_of 3%N (Review_findByIdAndDelete 6%N Demo.rated_5_4_3)) = 2%nat
  /\ Demo.metrics (updateBookRating 3%N (Review_findByIdAndDelete 6%N Demo.rated_5_4_3))
     = Some (9 # 2, 2%nat).
Proof. vm_compute. repeat split; reflexivity. Qed.

(** ** Aggregates after a review write *)

Lemma books_update_keeps_present (b b0 : ObjectId) (f : Book.t -> Book.t) (s : State) :
  (forall d, Book._id (f d) = Book._id d) ->
  Book_findById b s <> None ->
  Book_findById b (with_books (Mongo.update_first (is_id Book._id b0) f (books s)) s)
  <> None.
Proof.
  intros Hid Hb. unfold Book_findById in *. simpl.
  destruct (N.eq_dec b b0) as [->|Hne].
  - rewrite update_first_find_same by exact Hid.
    destruct (List.find (is_id Book._id b0) (books s)); [discriminate | congruence].
  - now rewrite update_first_find_other by (exact Hid || exact Hne).
Qed.

Lemma updateBookRating_keeps_present (b b0 : ObjectId) (s : State) :
  Book_findById b s <> None -> Book_findById b (updateBookRating b0 s) <> None.
Proof.
  rewrite updateBookRating_unfold. unfold Book_findByIdAndUpdate_metrics.
  now apply books_update_keeps_present.
Qed.

Lemma recalculate_after_keeps_present (b : ObjectId) (r : Review.t) (s : State) :
  Book_findById b s <> None -> Book_findById b (recalculate_after r s) <> None.
Proof.
  intros Hb. destruct (recalculate_after_shape r s) as [->|rating count _ ->];
    [exact Hb | now apply books_update_keeps_present].
Qed.

(** A review request removes no book. *)
Lemma review_write_keeps_book (req : Request) (s : State) (b b0 : ObjectId) :
  affected_book req s = Some b0 ->
  Book_findById b s <> None -> Book_findById b (fst (handle req s)) <> None.
Proof.
  intros Hreq Hb.
  destruct req as [user body|id user body|id user|user body|id user body|id user];
    try discriminate Hreq; simpl handle.
  - destruct (post_review_shape user body s) as [(Hbooks & _)|r _ _ ->].
    + unfold Book_findById in *. now rewrite Hbooks.
    + now apply updateBookRating_keeps_present, recalculate_after_keeps_present.
  - destruct (put_review_shape id user body s) as [(Hbooks & _)|rid r0 u _ _ ->].
    + unfold Book_findById in *. now rewrite Hbooks.
    + now apply updateBookRating_keeps_present.
  - destruct (delete_review_shape id user s) as [(Hbooks & _)|rid r0 _ ->].
    + unfold Book_findById in *. now rewrite Hbooks.
    + now apply updateBookRating_keeps_present, recalculate_after_keeps_present.
Qed.

(** C1.  After a review creation, update or deletion that affects book
    [b] has completed, [b] is still stored if it was, and the stored
    average rating of [b] (and the [averageRating] the API exposes) is
    the mean of the star ratings of the reviews that reference [b],
    rounded to one decimal place, and 0 when no review references
    [b]. *)
Theorem average_settled_after_review_write (req : Request) (s : State) (b : ObjectId) :
  affected_book req s = Some b ->
  succeeded (snd (handle req s)) = true ->
  average_settled b (fst (handle req s))
  /\ (Book_findById b s <> None -> Book_findById b (fst (handle req s)) <> None).
Proof.
  intros Hb Hok. split; [|now apply review_write_keeps_book with (b0 := b)].
  destruct (review_request_success _ _ Hb Hok) as [s2 ->].
  apply updateBookRating_average.
Qed.

Lemma average_settled_after_review_write_witness :
  affected_book (PostReview 2%N (Demo.a_review 3)) Demo.rated_5_4 = Some 3%N
  /\ succeeded (snd (handle (PostReview 2%N (Demo.a_review 3)) Demo.rated_5_4)) = true
  /\ average_settled 3%N (fst (handle (PostReview 2%N (Demo.a_review 3)) Demo.rated_5_4))
  /\ Book_findById 3%N (fst (handle (PostReview 2%N (Demo.a_review 3)) Demo.rated_5_4))
     <> None.
Proof.
  split; [vm_compute; reflexivity|].
  split; [vm_compute; reflexivity|].
  destruct (@average_settled_after_review_write
              (PostReview 2%N (Demo.a_review 3)) Demo.rated_5_4 3%N)
    as [Hsettled Hkept]; [vm_compute; reflexivity | vm_compute; reflexivity |].
  split; [exact Hsettled|]. apply Hkept. vm_compute. discriminate.
Defined.

(** C2.  After a review creation, update or deletion that affects book
    [b] has completed, [b] is still stored if it was, and the stored
    review count of [b] (and the [totalReviews] the API exposes) is the
    number of review records whose book reference is [b]. *)
Theorem count_settled_after_review_write (req : Request) (s : State) (b : ObjectId) :
  affected_book req s = Some b ->
  succeeded (snd (handle req s)) = true ->
  count_settled b (fst (handle req s))
  /\ (Book_findById b s <> None -> Book_findById b (fst (handle req s)) <> None).
Proof.
  intros Hb Hok. split; [|now apply review_write_keeps_book with (b0 := b)].
  destruct (review_request_success _ _ Hb Hok) as [s2 ->].
  apply updateBookRating_count.
Qed.

Lemma count_settled_after_review_write_witness :
  affected_book (DeleteReview (Demo.oid 6) 2%N) Demo.rated_5_4_3 = Some 3%N
  /\ succeeded (snd (handle (DeleteReview (Demo.oid 6) 2%N) Demo.rated_5_4_3)) = true
  /\ count_settled 3%N (fst (handle (DeleteReview (Demo.oid 6) 2%N) Demo.rated_5_4_3))
  /\ Book_findById 3%N (fst (handle (DeleteReview (Demo.oid 6) 2%N) Demo.rated_5_4_3))
     <> None.
Proof.
  split; [vm_compute; reflexivity|].
  split; [vm_compute; reflexivity|].
  destruct (@count_settled_after_review_write
              (DeleteReview (Demo.oid 6) 2%N) Demo.rated_5_4_3 3%N)
    as [Hsettled Hkept]; [vm_compute; reflexivity | vm_compute; reflexivity |].
  split; [exact Hsettled|]. apply Hkept. vm_compute. discriminate.
Defined.

(** The scenario of the specification: ratings 5, 4, 3 give 4.0 over 3
    reviews; without the rating 3, 4.5 over 2; with 4 turned into 2, 3.5;
    without reviews, 0 over 0. *)
Example scenario_5_4_3 : Demo.metrics Demo.rated_5_4_3 = Some (4, 3%nat).
Proof. vm_compute. reflexivity. Qed.

Example scenario_without_3 : Demo.metrics Demo.without_3 = Some (9 # 2, 2%nat).
Proof. vm_compute. reflexivity. Qed.

Example scenario_5_2 : Demo.metrics Demo.rated_5_2 = Some (7 # 2, 2%nat).
Proof. vm_compute. reflexivity. Qed.

Example scenario_none : Demo.metrics Demo.rated_none = Some (0, 0%nat).
Proof. vm_compute. reflexivity. Qed.

(** * Further properties of the routes and of the models *)

(** The session of the examples is a run of the server. *)
Ltac session_is_reachable :=
  unfold Demo.rated_5_4_3; apply reach_request;
  unfold Demo.rated_5_4; apply reach_request;
  unfold Demo.rated_5; apply reach_request;
  unfold Demo.library; (apply reach_tick; [|vm_compute; discriminate]);
  apply reach_request; do 3 apply reach_sign_up; apply reach_initial.

(** ** White space at the ends of a text *)

Lemma drop_while_head (p : ascii -> bool) (l : list ascii) (c : ascii) (r : list ascii) :
  Js.drop_while p l = c :: r -> p c = false.
Proof.
  induction l as [|x l IH]; simpl; [discriminate|].
  destruct (p x) eqn:E; [exact IH|]. intros H. injection H as <- _. exact E.
Qed.

Lemma drop_while_fixed (p : ascii -> bool) (l : list ascii) :
  (forall c r, l = c :: r -> p c = false) -> Js.drop_while p l = l.
Proof.
  destruct l as [|x l]; simpl; [reflexivity|].
  intros H. now rewrite (H x l eq_refl).
Qed.

Lemma drop_while_suffix (p : ascii -> bool) (l : list ascii) :
  exists a, l = (a ++ Js.drop_while p l)%list /\ forallb p a = true.
Proof.
  induction l as [|x l (a & Ha & Hp)]; simpl.
  - exists []. split; reflexivity.
  - destruct (p x) eqn:E.
    + exists (x :: a). simpl. rewrite E, Hp. split; [now rewrite <- Ha | reflexivity].
    + exists []. split; reflexivity.
Qed.

Lemma trim_as_list (s : string) :
  list_ascii_of_string (Js.trim s) = trim_list (list_ascii_of_string s).
Proof. unfold Js.trim. apply list_ascii_of_string_of_list_ascii. Qed.

Lemma trim_list_prefix (l : list ascii) :
  exists b, Js.drop_while Js.is_space l = (trim_list l ++ b)%list
            /\ forallb Js.is_space b = true.
Proof.
  unfold trim_list.
  destruct (drop_while_suffix Js.is_space (rev (Js.drop_while Js.is_space l)))
    as (a & Ha & Hp).
  exists (rev a). split.
  - rewrite <- (rev_involutive (Js.drop_while Js.is_space l)) at 1.
    rewrite Ha at 1. now rewrite rev_app_distr.
  - rewrite forallb_forall in *. intros x Hx. apply Hp. now apply in_rev.
Qed.

Lemma trim_list_first (l : list ascii) (c : ascii) (r : list ascii) :
  trim_list l = c :: r -> Js.is_space c = false.
Proof.
  intros H. destruct (trim_list_prefix l) as (b & Hb & _).
  rewrite H in Hb. simpl in Hb. now apply drop_while_head in Hb.
Qed.

Lemma trim_list_last (l : list ascii) (c : ascii) (r : list ascii) :
  rev (trim_list l) = c :: r -> Js.is_space c = false.
Proof.
  unfold trim_list. rewrite rev_involutive. apply drop_while_head.
Qed.

Lemma trim_list_fixed (l : list ascii) :
  (forall c r, l = c :: r -> Js.is_space c = false) ->
  (forall c r, rev l = c :: r -> Js.is_space c = false) ->
  trim_list l = l.
Proof.
  intros Hfirst Hlast. unfold trim_list.
  rewrite (drop_while_fixed _ Hfirst), (drop_while_fixed _ Hlast).
  apply rev_involutive.
Qed.

Lemma trim_list_idem (l : list ascii) : trim_list (trim_list l) = trim_list l.
Proof.
  apply trim_list_fixed; [apply trim_list_first | apply trim_list_last].
Qed.

Lemma trim_idem (s : string) : Js.trim (Js.trim s) = Js.trim s.
Proof.
  unfold Js.trim at 1. rewrite trim_as_list.
  change (string_of_list_ascii (trim_list (trim_list (list_ascii_of_string s)))
          = Js.trim s).
  rewrite trim_list_idem. reflexivity.
Qed.

(** ** Creation of a review, case by case *)

Lemma has_review_same_key (r : Review.t) (s : State) :
  existsb (Review.same_key r) (reviews s)
  = has_review (Review.reviewedBook r) (Review.reviewAuthor r) s.
Proof.
  unfold has_review. induction (reviews s) as [|x l IH]; simpl; [reflexivity|].
  rewrite IH. unfold Review.same_key.
  now rewrite (N.eqb_sym (Review.reviewedBook r)), (N.eqb_sym (Review.reviewAuthor r)).
Qed.

Lemma has_review_findOne (b u : ObjectId) (s : State) :
  Mongo.findOne Review.get
    [("reviewedBook", Mongo.VId b); ("reviewAuthor", Mongo.VId u)] (reviews s) = None
  <-> has_review b u s = false.
Proof.
  pose proof (findOne_pair b u s) as H.
  destruct (has_review b u s); destruct (Mongo.findOne _ _ _).
  - split; discriminate.
  - exfalso. now apply (proj1 H).
  - split; [discriminate|]. intros _. exfalso.
    assert (false = true) by (apply H; discriminate). discriminate.
  - split; reflexivity.
Qed.

Lemma valid_starRating_isInt (q : Q) :
  Review.valid_starRating q = Validator.isInt 1 5 (Some q).
Proof.
  unfold Review.valid_starRating, Validator.isInt.
  change (inject_Z 1) with 1. change (inject_Z 5) with 5.
  destruct (Js.Qleb 1 q), (Js.Qleb q 5), (Js.Number_isInteger q); reflexivity.
Qed.

(** [review.save()] on the document the creation route builds. *)
Lemma Review_save_new (b user : ObjectId) (stars : Q) (t : string) (s : State) :
  Book_findById b s <> None ->
  Validator.isInt 1 5 (Some stars) = true ->
  has_review b user s = false ->
  let saved := Review.mk (nextId s) b user stars
                 (Js.trim (Js.squeeze (Js.trim t)))
                 (clock s) (clock s) (clock s) (clock s) in
  Review_save (fst (new_Review b user stars (Js.trim t) s))
              (snd (new_Review b user stars (Js.trim t) s))
  = if User_exists user s && Review.valid_reviewContent (Js.trim t)
    then Ok (saved,
             recalculate_after saved
               (with_reviews (reviews s ++ [saved]) (with_nextId (nextId s + 1)%N s)))
    else Throw ValidationFailed.
Proof.
  intros Hbk Hint Hnone saved.
  unfold new_Review, Review_save. cbn [fst snd].
  set (r := Review.set_reviewContent (Js.trim t) _).
  set (s1 := with_nextId (nextId s + 1)%N s).
  assert (Hv : Review_validate r s1
               = User_exists user s && Review.valid_reviewContent (Js.trim t)).
  { unfold Review_validate, r, Review.set_reviewContent.
    cbn [Review.reviewedBook Review.reviewAuthor Review.starRating Review.reviewContent].
    unfold s1, with_nextId, Book_findById, User_exists. cbn [books users].
    fold (Book_findById b s). destruct (Book_findById b s); [|congruence].
    rewrite trim_idem, valid_starRating_isInt, Hint.
    cbn [andb]. now rewrite andb_true_r. }
  rewrite Hv.
  destruct (User_exists user s); cbn [andb negb]; [|reflexivity].
  destruct (Review.valid_reviewContent (Js.trim t)) eqn:Ect; cbn [negb]; [|reflexivity].
  unfold Review_insert. rewrite has_review_same_key.
  assert (Hr2 : Review.set_updatedAt (clock s1)
                  (Review.set_createdAt (clock s1) (Review.pre_save (clock s1) true r))
                = saved).
  { unfold Review.pre_save, r, Review.set_reviewContent, Review.set_lastModified,
      Review.set_updatedAt, Review.set_createdAt, saved.
    cbn [Review.reviewedBook Review.reviewAuthor Review.starRating Review.reviewContent
         Review._id Review.sharedOn Review.lastModified Review.createdAt Review.updatedAt].
    rewrite trim_idem.
    destruct (String.eqb (Js.trim t) "") eqn:E0.
    - apply String.eqb_eq in E0. rewrite E0 in Ect. discriminate Ect.
    - cbn [negb Review.reviewedBook Review.reviewAuthor Review.starRating
           Review.reviewContent Review._id Review.sharedOn Review.lastModified
           Review.createdAt Review.updatedAt].
      now rewrite trim_idem. }
  rewrite Hr2. unfold saved at 1 2.
  cbn [Review.reviewedBook Review.reviewAuthor].
  change (has_review b user s1) with (has_review b user s). rewrite Hnone.
  reflexivity.
Qed.

Lemma len_between_both (t : string) :
  Js.len_between 1 500 t = true -> Js.len_between 10 1000 t = true ->
  Js.len_between 10 500 t = true.
Proof.
  unfold Js.len_between. intros H1 H2.
  apply andb_prop in H1 as [_ H1]. apply andb_prop in H2 as [H2 _]. now rewrite H1, H2.
Qed.

Lemma len_between_split (t : string) :
  Js.len_between 10 500 t = true ->
  Js.len_between 1 500 t = true /\ Js.len_between 10 1000 t = true.
Proof.
  unfold Js.len_between. intros H. apply andb_prop in H as [H1 H2].
  apply Nat.leb_le in H1, H2. split; apply andb_true_intro; split; apply Nat.leb_le; lia.
Qed.

(** The outcomes of a creation: refused with the store as it was; an
    identifier drawn and the document refused by its schema; or stored. *)
Lemma post_review_cases (user : ObjectId) (body : ReviewBody) (s : State) :
  (fst (post_review user body s) = s
   /\ succeeded (snd (post_review user body s)) = false)
  \/ (fst (post_review user body s) = with_nextId (nextId s + 1)%N s
      /\ snd (post_review user body s) = Message 500 "Server error")
  \/ exists raw b stars t,
       let saved := Review.mk (nextId s) b user stars
                      (Js.trim (Js.squeeze (Js.trim t)))
                      (clock s) (clock s) (clock s) (clock s) in
       bookId body = Some raw /\ Mongo.castObjectId raw = Some b
       /\ rating body = Some stars /\ reviewText body = Some t
       /\ Validator.isInt 1 5 (Some stars) = true
       /\ Js.len_between 10 500 (Js.trim t) = true
       /\ (5 <=? Js.count_word (Js.trim t))%nat = true
       /\ Book_findById b s <> None
       /\ User_exists user s = true
       /\ has_review b user s = false
       /\ post_review user body s
          = (updateBookRating b
               (recalculate_after saved
                  (with_reviews (reviews s ++ [saved])
                     (with_nextId (nextId s + 1)%N s))),
             ReviewReply 201 "Review added successfully" saved).
Proof.
  unfold post_review.
  destruct (negb (List.length (post_review_errors body) =? 0)%nat) eqn:E;
    [left; split; reflexivity|].
  apply length_zero_nil, post_review_errors_nil in E. destruct E as (Hid & Hint & Hlen).
  destruct (bookId body) as [raw|] eqn:Eb; [|discriminate Hid].
  destruct (rating body) as [stars|] eqn:Er; [|discriminate Hint].
  destruct (reviewText body) as [t|] eqn:Et; [|discriminate Hlen].
  cbn [Validator.trim option_map] in *.
  destruct (Mongo.castObjectId raw) as [b|] eqn:Ec; [|left; split; reflexivity].
  destruct (Book_findById b s) as [bk|] eqn:Ebk; [|left; split; reflexivity].
  destruct (Mongo.findOne _ _ _) eqn:Ef; [left; split; reflexivity|].
  apply has_review_findOne in Ef.
  assert (Hbk : Book_findById b s <> None) by congruence.
  pose proof (@Review_save_new b user stars t s Hbk Hint Ef) as Hs. cbn zeta in Hs.
  destruct (new_Review b user stars (Js.trim t) s) as [r s1] eqn:En.
  cbn [fst snd] in Hs. rewrite Hs.
  assert (Es1 : s1 = with_nextId (nextId s + 1)%N s).
  { unfold new_Review in En. now injection En as _ <-. }
  destruct (User_exists user s) eqn:Eu; cbn [andb];
    [|right; left; split; [exact Es1 | reflexivity]].
  destruct (Review.valid_reviewContent (Js.trim t)) eqn:Ect;
    [|right; left; split; [exact Es1 | reflexivity]].
  right; right. exists raw, b, stars, t. cbn zeta.
  unfold Review.valid_reviewContent in Ect. apply andb_prop in Ect as [Hl Hw].
  pose proof (len_between_both _ Hlen Hl).
  repeat (split; [first [reflexivity | assumption | congruence]|]).
  reflexivity.
Qed.

(** A creation whose body, book and author pass every check is stored. *)
Lemma post_review_accepts (user b : ObjectId) (body : ReviewBody) (raw t : string)
      (stars : Q) (s : State) :
  bookId body = Some raw -> Mongo.castObjectId raw = Some b ->
  rating body = Some stars -> reviewText body = Some t ->
  Validator.isInt 1 5 (Some stars) = true ->
  Js.len_between 10 500 (Js.trim t) = true ->
  (5 <=? Js.count_word (Js.trim t))%nat = true ->
  Book_findById b s <> None ->
  User_exists user s = true ->
  has_review b user s = false ->
  succeeded (snd (post_review user body s)) = true.
Proof.
  intros Eb Ec Er Et Hint Hlen Hw Hbk Hu Hnone.
  apply len_between_split in Hlen as [Hl1 Hl2].
  assert (He : post_review_errors body = []).
  { apply post_review_errors_nil. rewrite Eb, Er, Et. cbn [Validator.trim option_map].
    unfold Validator.isMongoId. rewrite Ec. auto. }
  unfold post_review. rewrite He, Eb, Er, Et, Ec. cbn [List.length Nat.eqb negb].
  cbn [Validator.trim option_map].
  pose proof (@Review_save_new b user stars t s Hbk Hint Hnone) as Hs. cbn zeta in Hs.
  destruct (Book_findById b s) eqn:Ebk; [|congruence].
  apply has_review_findOne in Hnone as Hf. rewrite Hf.
  destruct (new_Review b user stars (Js.trim t) s) as [r s1].
  cbn [fst snd] in Hs. rewrite Hs, Hu.
  unfold Review.valid_reviewContent. rewrite Hl2, Hw. reflexivity.
Qed.

Lemma same_descriptive_refl (d : Book.t) : same_descriptive_fields d d.
Proof. unfold same_descriptive_fields. tauto. Qed.

Lemma only_metrics_refl (b : ObjectId) (l : list Book.t) :
  Forall2 (only_metrics_of b) l l.
Proof.
  induction l; constructor; [|assumption].
  split; [reflexivity | apply same_descriptive_refl].
Qed.

Lemma only_metrics_trans (b : ObjectId) (l1 l2 l3 : list Book.t) :
  Forall2 (only_metrics_of b) l1 l2 -> Forall2 (only_metrics_of b) l2 l3 ->
  Forall2 (only_metrics_of b) l1 l3.
Proof.
  intros H. revert l3. induction H as [|x y l l' [Hx Hd] _ IH]; intros l3 H23.
  - inversion H23. constructor.
  - inversion H23 as [|y' z l2' l3' [Hy Hd'] Hrest]; subst. constructor; [|now apply IH].
    split.
    + intros Hne. rewrite Hy, Hx; [reflexivity | exact Hne |].
      destruct Hd as [-> _]. exact Hne.
    + unfold same_descriptive_fields in *. intuition congruence.
Qed.

Lemma only_metrics_update (b : ObjectId) (f : Book.t -> Book.t) (l : list Book.t) :
  (forall d, same_descriptive_fields d (f d)) ->
  Forall2 (only_metrics_of b) l (Mongo.update_first (is_id Book._id b) f l).
Proof.
  intros Hf. apply update_first_frame.
  - intros d. split; [reflexivity | apply same_descriptive_refl].
  - intros d Hd. split; [|apply Hf].
    intros Hne. unfold is_id in Hd. apply N.eqb_eq in Hd. contradiction.
Qed.

Lemma only_metrics_ids (b : ObjectId) (l l' : list Book.t) :
  Forall2 (only_metrics_of b) l l' -> map Book._id l' = map Book._id l.
Proof.
  induction 1 as [|x y l l' [_ Hd] _ IH]; [reflexivity|].
  simpl. destruct Hd as [-> _]. now rewrite IH.
Qed.

(** What [updateBookRating] and the hooks leave alone. *)
Lemma updateBookRating_leaves (b : ObjectId) (s : State) :
  reviews (updateBookRating b s) = reviews s
  /\ users (updateBookRating b s) = users s
  /\ nextId (updateBookRating b s) = nextId s
  /\ clock (updateBookRating b s) = clock s
  /\ year (updateBookRating b s) = year s
  /\ Forall2 (only_metrics_of b) (books s) (books (updateBookRating b s)).
Proof.
  unfold updateBookRating, Book_findByIdAndUpdate_metrics, with_books. cbn.
  repeat (split; [reflexivity|]).
  apply only_metrics_update. intros d. unfold same_descriptive_fields. cbn. tauto.
Qed.

Lemma recalculate_after_leaves (r : Review.t) (s : State) :
  reviews (recalculate_after r s) = reviews s
  /\ users (recalculate_after r s) = users s
  /\ nextId (recalculate_after r s) = nextId s
  /\ clock (recalculate_after r s) = clock s
  /\ year (recalculate_after r s) = year s
  /\ Forall2 (only_metrics_of (Review.reviewedBook r)) (books s)
             (books (recalculate_after r s)).
Proof.
  destruct (recalculate_after_shape r s) as [-> | rating count _ ->].
  - repeat (split; [reflexivity|]). apply only_metrics_refl.
  - unfold with_books. cbn. repeat (split; [reflexivity|]).
    apply only_metrics_update. intros d. unfold same_descriptive_fields. cbn. tauto.
Qed.

(** X1.  POST /api/reviews succeeds exactly when the body names a stored book
    that the requester has not reviewed yet, the rating is a whole number
    from 1 to 5, the trimmed text has between 10 and 500 characters, at
    least five of them word characters, and the requester is a stored
    user: the checks of the route and of the schema taken together. *)
Theorem review_is_created_iff (user : ObjectId) (body : ReviewBody) (s : State) :
  succeeded (snd (post_review user body s)) = true
  <-> (exists raw b,
          bookId body = Some raw /\ Mongo.castObjectId raw = Some b
          /\ Book_findById b s <> None /\ has_review b user s = false)
      /\ integer_within 1 5 (rating body)
      /\ (exists t, reviewText body = Some t
                    /\ (10 <= String.length (Js.trim t) <= 500)%nat
                    /\ (5 <= Js.count_word (Js.trim t))%nat)
      /\ User_exists user s = true.
Proof.
  split.
  - intros Hok.
    destruct (post_review_cases user body s)
      as [[_ Hf] | [[_ Hf] | (raw & b & stars & t & H)]].
    + rewrite Hf in Hok. discriminate Hok.
    + rewrite Hf in Hok. discriminate Hok.
    + cbn zeta in H.
      destruct H as (Eb & Ec & Er & Et & Hint & Hlen & Hw & Hbk & Hu & Hnone & _).
      split; [exists raw, b; auto|]. split; [rewrite Er; now apply isInt_spec|].
      split; [|exact Hu]. exists t. split; [exact Et|].
      unfold Js.len_between in Hlen. apply andb_prop in Hlen as [H1 H2].
      apply Nat.leb_le in H1, H2, Hw. lia.
  - intros ((raw & b & Eb & Ec & Hbk & Hnone) & Hint & (t & Et & Hlen & Hw) & Hu).
    pose proof Hint as (stars & z & Er & _).
    apply isInt_spec in Hint. rewrite Er in Hint.
    apply (@post_review_accepts user b body raw t stars s); auto.
    + unfold Js.len_between. apply andb_true_intro. split; apply Nat.leb_le; lia.
    + apply Nat.leb_le. exact Hw.
Qed.

(** X2.  When POST /api/reviews succeeds, exactly one review is appended:
    its identifier is the next of the counter, its author the requester,
    its book and rating those of the body, its text the trimmed text with
    every run of white space squeezed to one space, its four dates the
    instant of the request.  The reply is 201 with that document; the
    users are untouched, and of the books only the metrics of the
    reviewed book can change. *)
Theorem created_review_is_stored (user : ObjectId) (body : ReviewBody) (s : State) :
  succeeded (snd (post_review user body s)) = true ->
  exists raw b stars t saved,
    bookId body = Some raw /\ Mongo.castObjectId raw = Some b
    /\ rating body = Some stars /\ reviewText body = Some t
    /\ saved = Review.mk (nextId s) b user stars (Js.trim (Js.squeeze (Js.trim t)))
                 (clock s) (clock s) (clock s) (clock s)
    /\ snd (post_review user body s) = ReviewReply 201 "Review added successfully" saved
    /\ reviews (fst (post_review user body s)) = (reviews s ++ [saved])%list
    /\ users (fst (post_review user body s)) = users s
    /\ nextId (fst (post_review user body s)) = (nextId s + 1)%N
    /\ Forall2 (only_metrics_of b) (books s) (books (fst (post_review user body s))).
Proof.
  intros Hok.
  destruct (post_review_cases user body s)
    as [[_ Hf] | [[_ Hf] | (raw & b & stars & t & H)]].
  - rewrite Hf in Hok. discriminate Hok.
  - rewrite Hf in Hok. discriminate Hok.
  - cbn zeta in H.
    destruct H as (Eb & Ec & Er & Et & _ & _ & _ & _ & _ & _ & Hrun).
    exists raw, b, stars, t. eexists. repeat (split; [first [eassumption | reflexivity]|]).
    rewrite Hrun. cbn [fst snd].
    set (saved := Review.mk _ _ _ _ _ _ _ _ _).
    set (s1 := with_reviews _ _).
    destruct (updateBookRating_leaves b (recalculate_after saved s1))
      as (Hr & Hu & Hn & _ & _ & Hb).
    destruct (recalculate_after_leaves saved s1) as (Hr' & Hu' & Hn' & _ & _ & Hb').
    rewrite Hr, Hu, Hn, Hr', Hu', Hn'.
    repeat (split; [reflexivity|]).
    eapply only_metrics_trans; [exact Hb' | exact Hb].
Qed.

Lemma created_review_is_stored_witness :
  succeeded (snd (post_review 0%N (Demo.a_review 5) Demo.library)) = true
  /\ exists saved,
       reviews (fst (post_review 0%N (Demo.a_review 5) Demo.library))
       = (reviews Demo.library ++ [saved])%list.
Proof.
  split; [vm_compute; reflexivity|].
  destruct (@created_review_is_stored 0%N (Demo.a_review 5) Demo.library)
    as (raw & b & stars & t & saved & _ & _ & _ & _ & _ & _ & Hr & _);
    [vm_compute; reflexivity|].
  exists saved. exact Hr.
Defined.

(** ** Update and deletion of a review, case by case *)

Lemma put_review_cases (id : string) (user : ObjectId) (body : ReviewPatch) (s : State) :
  (fst (put_review id user body s) = s
   /\ succeeded (snd (put_review id user body s)) = false)
  \/ exists rid r0,
       Mongo.castObjectId id = Some rid
       /\ Review_findById rid s = Some r0
       /\ Review.canBeEditedBy r0 user = true
       /\ put_review_errors body = []
       /\ ReviewUpdate_valid (review_updateData body) = true
       /\ put_review id user body s
          = (updateBookRating (Review.reviewedBook r0)
               (with_reviews
                  (Mongo.update_first (is_id Review._id rid)
                     (apply_ReviewUpdate (review_updateData body) (clock s))
                     (reviews s)) s),
             ReviewReply 200 "Review updated successfully"
               (apply_ReviewUpdate (review_updateData body) (clock s) r0)).
Proof.
  unfold put_review.
  destruct (negb (List.length (put_review_errors body) =? 0)%nat) eqn:E;
    [left; split; reflexivity|].
  apply length_zero_nil in E.
  destruct (Mongo.castObjectId id) as [rid|] eqn:Ec; [|left; split; reflexivity].
  destruct (Review_findById rid s) as [r0|] eqn:Ef; [|left; split; reflexivity].
  destruct (Review.canBeEditedBy r0 user) eqn:Ea; cbn [negb];
    [|left; split; reflexivity].
  unfold Review_findByIdAndUpdate.
  destruct (ReviewUpdate_valid (review_updateData body)) eqn:Ev; cbn [negb];
    [|left; split; reflexivity].
  rewrite Review_findById_updated, Ef. cbn [option_map].
  right. exists rid, r0. repeat (split; [first [reflexivity | assumption]|]).
  reflexivity.
Qed.

Lemma delete_review_cases (id : string) (user : ObjectId) (s : State) :
  (fst (delete_review id user s) = s
   /\ succeeded (snd (delete_review id user s)) = false)
  \/ exists rid r0,
       Mongo.castObjectId id = Some rid
       /\ Review_findById rid s = Some r0
       /\ Review.canBeEditedBy r0 user = true
       /\ delete_review id user s
          = (updateBookRating (Review.reviewedBook r0)
               (recalculate_after r0
                  (with_reviews
                     (Mongo.remove_first (is_id Review._id rid) (reviews s)) s)),
             Message 200 "Review deleted successfully").
Proof.
  unfold delete_review.
  destruct (Mongo.castObjectId id) as [rid|] eqn:Ec; [|left; split; reflexivity].
  destruct (Review_findById rid s) as [r0|] eqn:Ef; [|left; split; reflexivity].
  destruct (Review.canBeEditedBy r0 user) eqn:Ea; cbn [negb];
    [|left; split; reflexivity].
  right. exists rid, r0. repeat (split; [first [reflexivity | assumption]|]).
  unfold Review_findByIdAndDelete. rewrite Ef. reflexivity.
Qed.

Lemma integer_within_truthy (lo hi : Z) (q : Q) :
  (0 < lo)%Z -> integer_within lo hi (Some q) -> Js.truthy_num (Some q) = true.
Proof.
  intros Hlo (q' & z & Hq & Hz & Hr). injection Hq as <-.
  unfold Js.truthy_num. destruct (Qeq_bool q 0) eqn:E; [|reflexivity].
  apply Qeq_bool_iff in E. rewrite Hz in E.
  unfold Qeq in E. simpl in E. lia.
Qed.

Lemma text_within_truthy (lo hi : nat) (t : string) :
  (0 < lo)%nat -> text_within lo hi (Some t) -> Js.truthy_str (Some (Js.trim t)) = true.
Proof.
  intros Hlo (t' & Ht & Hlen). injection Ht as <-.
  unfold Js.truthy_str. destruct (String.eqb (Js.trim t) "") eqn:E; [|reflexivity].
  apply String.eqb_eq in E. rewrite E in Hlen. simpl in Hlen. lia.
Qed.

(** The [$set] object of a patch that passed the request validation. *)
Lemma review_updateData_well_formed (body : ReviewPatch) :
  patch_well_formed body ->
  review_updateData body
  = mkReviewUpdate (patch_rating body) (option_map Js.trim (patch_reviewText body)).
Proof.
  intros [Hr Ht]. unfold review_updateData, Validator.trim.
  f_equal.
  - destruct Hr as [-> | Hr]; [reflexivity|].
    destruct (patch_rating body) as [q|] eqn:E; [|reflexivity].
    now rewrite (@integer_within_truthy 1 5 q).
  - destruct Ht as [-> | Ht]; [reflexivity|].
    destruct (patch_reviewText body) as [t|] eqn:E; [|reflexivity].
    cbn [option_map]. now rewrite (@text_within_truthy 1 500 t); [|lia|].
Qed.

Lemma valid_reviewContent_spec (t : string) :
  text_within 1 500 (Some t) ->
  (Review.valid_reviewContent (Js.trim t) = true <-> acceptable_text t).
Proof.
  intros (t' & Ht & Hlen). injection Ht as <-.
  unfold Review.valid_reviewContent, acceptable_text, Js.len_between.
  rewrite !andb_true_iff, !Nat.leb_le.
  generalize dependent (String.length (Js.trim t)). intros n Hn.
  generalize (Js.count_word (Js.trim t)). intros m. lia.
Qed.

Lemma ReviewUpdate_valid_spec (body : ReviewPatch) :
  patch_well_formed body ->
  (ReviewUpdate_valid (review_updateData body) = true
   <-> forall t, patch_reviewText body = Some t -> acceptable_text t).
Proof.
  intros Hwf. rewrite (review_updateData_well_formed Hwf).
  destruct Hwf as [Hr Ht]. unfold ReviewUpdate_valid.
  cbn [upd_starRating upd_reviewContent].
  assert (Hrating : match patch_rating body with
                    | Some v => Review.valid_starRating v
                    | None => true
                    end = true).
  { destruct Hr as [-> | Hr]; [reflexivity|].
    destruct (patch_rating body) as [q|]; [|reflexivity].
    rewrite valid_starRating_isInt. now apply isInt_spec. }
  rewrite Hrating. cbn [andb].
  destruct (patch_reviewText body) as [t|] eqn:Et; cbn [option_map].
  - destruct Ht as [Ht | Ht]; [discriminate Ht|].
    rewrite trim_idem, (valid_reviewContent_spec Ht). split.
    + intros H t' Et'. now injection Et' as <-.
    + intros H. now apply H.
  - split; [intros _ t Ht'; discriminate Ht' | reflexivity].
Qed.

(** X3.  PUT /api/reviews/:id succeeds exactly when the identifier names a
    stored review written by the requester, the rating, if sent, is a
    whole number from 1 to 5, and the text, if sent, has between 10 and
    500 characters once trimmed, at least five of them word characters. *)
Theorem review_is_updated_iff (id : string) (user : ObjectId) (body : ReviewPatch)
        (s : State) :
  succeeded (snd (put_review id user body s)) = true
  <-> (exists rid r0,
          Mongo.castObjectId id = Some rid /\ Review_findById rid s = Some r0
          /\ Review.reviewAuthor r0 = user)
      /\ (patch_rating body = None \/ integer_within 1 5 (patch_rating body))
      /\ (forall t, patch_reviewText body = Some t -> acceptable_text t).
Proof.
  split.
  - intros Hok.
    destruct (put_review_cases id user body s)
      as [[_ Hf] | (rid & r0 & Ec & Ef & Ea & He & Hv & _)].
    + rewrite Hf in Hok. discriminate Hok.
    + apply put_review_errors_nil in He. split; [|split].
      * exists rid, r0. repeat split; auto. now apply N.eqb_eq.
      * apply He.
      * now apply (ReviewUpdate_valid_spec He).
  - intros ((rid & r0 & Ec & Ef & Ea) & Hr & Ht).
    assert (Hwf : patch_well_formed body).
    { split; [exact Hr|]. destruct (patch_reviewText body) as [t|] eqn:Et; [|now left].
      right. exists t. split; [reflexivity|]. destruct (Ht t eq_refl) as [Hlen _]. lia. }
    assert (Hv : ReviewUpdate_valid (review_updateData body) = true)
      by now apply ReviewUpdate_valid_spec.
    apply put_review_errors_nil in Hwf.
    unfold put_review. rewrite Hwf, Ec, Ef. cbn [List.length Nat.eqb negb].
    unfold Review.canBeEditedBy. rewrite Ea, N.eqb_refl. cbn [negb].
    unfold Review_findByIdAndUpdate. rewrite Hv. cbn [negb].
    rewrite Review_findById_updated, Ef. reflexivity.
Qed.

Lemma apply_ReviewUpdate_identity (u : ReviewUpdate) (stamp : Z) (r : Review.t) :
  same_review_identity r (apply_ReviewUpdate u stamp r).
Proof.
  unfold apply_ReviewUpdate, same_review_identity.
  destruct (upd_starRating u), (upd_reviewContent u); cbn; tauto.
Qed.

Lemma same_review_identity_refl (r : Review.t) : same_review_identity r r.
Proof. unfold same_review_identity. tauto. Qed.

(** X4.  When PUT /api/reviews/:id succeeds, the addressed review takes the
    rating that was sent and the trimmed text that was sent (white space
    inside is kept, the pre-save hook does not run), keeps the other
    value otherwise, and gets a new [updatedAt]; its identifier, book,
    author, [sharedOn], [lastModified] and [createdAt] stay, every other
    review is untouched, and of the books only the metrics of the
    reviewed book can change. *)
Theorem updated_review_is_stored (id : string) (user : ObjectId) (body : ReviewPatch)
        (s : State) :
  succeeded (snd (put_review id user body s)) = true ->
  exists rid r0 r1,
    Mongo.castObjectId id = Some rid /\ Review_findById rid s = Some r0
    /\ snd (put_review id user body s)
       = ReviewReply 200 "Review updated successfully" r1
    /\ Review_findById rid (fst (put_review id user body s)) = Some r1
    /\ same_review_identity r0 r1
    /\ Review.starRating r1 = match patch_rating body with
                              | Some q => q
                              | None => Review.starRating r0
                              end
    /\ Review.reviewContent r1 = match patch_reviewText body with
                                 | Some t => Js.trim t
                                 | None => Review.reviewContent r0
                                 end
    /\ Review.updatedAt r1 = clock s
    /\ Forall2 (fun r r' => same_review_identity r r' /\ (Review._id r <> rid -> r' = r))
               (reviews s) (reviews (fst (put_review id user body s)))
    /\ users (fst (put_review id user body s)) = users s
    /\ Forall2 (only_metrics_of (Review.reviewedBook r0))
               (books s) (books (fst (put_review id user body s))).
Proof.
  intros Hok.
  destruct (put_review_cases id user body s)
    as [[_ Hf] | (rid & r0 & Ec & Ef & Ea & He & Hv & Hrun)].
  { rewrite Hf in Hok. discriminate Hok. }
  apply put_review_errors_nil in He.
  exists rid, r0, (apply_ReviewUpdate (review_updateData body) (clock s) r0).
  rewrite Hrun. cbn [fst snd].
  set (s1 := with_reviews _ s).
  destruct (updateBookRating_leaves (Review.reviewedBook r0) s1)
    as (Hr & Hu & _ & _ & _ & Hb).
  split; [exact Ec|]. split; [exact Ef|]. split; [reflexivity|].
  split.
  { unfold Review_findById. rewrite Hr. fold (Review_findById rid s1).
    unfold s1. now rewrite Review_findById_updated, Ef. }
  split; [apply apply_ReviewUpdate_identity|].
  rewrite (review_updateData_well_formed He).
  split.
  { unfold apply_ReviewUpdate. cbn [upd_starRating upd_reviewContent].
    destruct (patch_rating body), (patch_reviewText body); reflexivity. }
  split.
  { unfold apply_ReviewUpdate. cbn [upd_starRating upd_reviewContent].
    destruct (patch_rating body), (patch_reviewText body); cbn; try reflexivity;
      apply trim_idem. }
  split.
  { unfold apply_ReviewUpdate. cbn [upd_starRating upd_reviewContent].
    destruct (patch_rating body), (patch_reviewText body); reflexivity. }
  split.
  { rewrite Hr. unfold s1, with_reviews. cbn [reviews].
    apply update_first_frame.
    - intros d. split; [apply same_review_identity_refl | reflexivity].
    - intros d Hd. split; [apply apply_ReviewUpdate_identity|].
      intros Hne. unfold is_id in Hd. apply N.eqb_eq in Hd. contradiction. }
  split; [rewrite Hu; reflexivity | exact Hb].
Qed.

Lemma updated_review_is_stored_witness :
  succeeded (snd (put_review (Demo.oid 4) 0%N (mkReviewPatch (Some 1) None)
                    Demo.rated_5_4_3)) = true
  /\ exists r1,
       Review_findById 4%N
         (fst (put_review (Demo.oid 4) 0%N (mkReviewPatch (Some 1) None)
                 Demo.rated_5_4_3)) = Some r1
       /\ Review.starRating r1 = 1.
Proof.
  split; [vm_compute; reflexivity|].
  destruct (@updated_review_is_stored (Demo.oid 4) 0%N (mkReviewPatch (Some 1) None)
              Demo.rated_5_4_3)
    as (rid & r0 & r1 & Hc & _ & _ & Hf & _ & Hs & _); [vm_compute; reflexivity|].
  exists r1. split; [|exact Hs].
  assert (E : rid = 4%N) by (vm_compute in Hc; congruence).
  subst rid. exact Hf.
Defined.

Lemma route_genres_incl : incl route_genres Book.genres.
Proof.
  unfold incl, route_genres, Book.genres. intros g H. simpl in H. simpl.
  intuition.
Qed.

Lemma existsb_eqb_In (g : string) (l : list string) :
  existsb (String.eqb g) l = true <-> In g l.
Proof.
  rewrite existsb_exists. split.
  - intros (x & Hin & He). apply String.eqb_eq in He. now subst.
  - intros Hin. exists g. split; [exact Hin | apply String.eqb_refl].
Qed.

Lemma Qleb_inject_Z (a b : Z) : Js.Qleb (inject_Z a) (inject_Z b) = (a <=? b)%Z.
Proof.
  unfold Js.Qleb, Qle_bool. simpl. now rewrite !Z.mul_1_r.
Qed.

Lemma Qleb_compat_l (x y z : Q) : x == y -> Js.Qleb x z = Js.Qleb y z.
Proof.
  intros H. unfold Js.Qleb.
  destruct (Qle_bool x z) eqn:E1, (Qle_bool y z) eqn:E2; try reflexivity.
  - apply Qle_bool_iff in E1. rewrite H in E1. apply Qle_bool_iff in E1. congruence.
  - apply Qle_bool_iff in E2. rewrite <- H in E2. apply Qle_bool_iff in E2. congruence.
Qed.

Lemma Qleb_compat_r (x y z : Q) : x == y -> Js.Qleb z x = Js.Qleb z y.
Proof.
  intros H. unfold Js.Qleb.
  destruct (Qle_bool z x) eqn:E1, (Qle_bool z y) eqn:E2; try reflexivity.
  - apply Qle_bool_iff in E1. rewrite H in E1. apply Qle_bool_iff in E1. congruence.
  - apply Qle_bool_iff in E2. rewrite <- H in E2. apply Qle_bool_iff in E2. congruence.
Qed.

(** The year passes the route and the schema when it is a whole number
    between 1400 and the current year. *)
Lemma year_checks (now : Z) (y : Q) :
  Validator.isInt 1000 now (Some y) && Book.valid_publicationYear now y = true
  <-> acceptable_year now y.
Proof.
  unfold acceptable_year. split.
  - intros H. apply andb_prop in H as [Hi Hv].
    apply isInt_spec in Hi. destruct Hi as (q & z & Hq & Hz & Hr). injection Hq as <-.
    exists z. split; [exact Hz|].
    unfold Book.valid_publicationYear in Hv.
    apply andb_prop in Hv as [_ Hv].
    rewrite (Qleb_compat_r 1400 Hz) in Hv.
    change 1400 with (inject_Z 1400) in Hv. rewrite Qleb_inject_Z in Hv.
    apply Z.leb_le in Hv. lia.
  - intros (z & Hz & Hr). apply andb_true_intro. split.
    + apply isInt_spec. exists y, z. repeat split; [exact Hz | lia | lia].
    + unfold Book.valid_publicationYear.
      rewrite (Qleb_compat_r 1000 Hz), (Qleb_compat_l _ Hz), (Qleb_compat_r 1400 Hz).
      change 1000 with (inject_Z 1000). change 1400 with (inject_Z 1400).
      rewrite !Qleb_inject_Z. rewrite !andb_true_iff, !Z.leb_le. lia.
Qed.

Lemma len_between_spec (lo hi : nat) (t : string) :
  Js.len_between lo hi t = true <-> (lo <= String.length t <= hi)%nat.
Proof. unfold Js.len_between. rewrite andb_true_iff, !Nat.leb_le. tauto. Qed.

(** [book.save()] on the document the creation route builds. *)
Lemma Book_save_new_built (t a d g : string) (y : Q) (user : ObjectId) (s : State) :
  let saved := Book.mk (nextId s) (Js.trim t) (Js.trim a) (Js.trim d) g y user 0 0
                 (clock s) (clock s) in
  Book_save_new (fst (new_Book (Js.trim t) (Js.trim a) (Js.trim d) g y user s))
                (snd (new_Book (Js.trim t) (Js.trim a) (Js.trim d) g y user s))
  = if Book.valid_bookTitle (Js.trim t) && Book.valid_authorName (Js.trim a)
       && Book.valid_bookSummary (Js.trim d) && Book.valid_literaryGenre g
       && Book.valid_publicationYear (year s) y
    then Ok (saved, with_books (books s ++ [saved]) (with_nextId (nextId s + 1)%N s))
    else Throw ValidationFailed.
Proof.
  intros saved. unfold new_Book, Book_save_new. cbn [fst snd].
  unfold Book.set_publicationYear, Book.set_literaryGenre, Book.set_bookSummary,
    Book.set_authorName, Book.set_bookTitle.
  cbn [Book._id Book.bookTitle Book.authorName Book.bookSummary Book.literaryGenre
       Book.publicationYear Book.sharedBy Book.communityRating Book.reviewCount
       Book.createdAt Book.updatedAt].
  rewrite !trim_idem.
  unfold Book.validate.
  cbn [Book._id Book.bookTitle Book.authorName Book.bookSummary Book.literaryGenre
       Book.publicationYear Book.sharedBy Book.communityRating Book.reviewCount
       Book.createdAt Book.updatedAt].
  change (year (with_nextId (nextId s + 1)%N s)) with (year s).
  change (Book.valid_communityRating 0) with true. rewrite andb_true_r.
  destruct (_ && _); cbn [negb]; [|reflexivity].
  rewrite pre_save_valid by reflexivity. reflexivity.
Qed.

Lemma post_book_errors_nil (now : Z) (body : BookBody) :
  post_book_errors now body = [] <->
  Validator.isLengthMin 1 (Validator.trim (title body)) = true
  /\ Validator.isLengthMin 1 (Validator.trim (author body)) = true
  /\ Validator.isLengthMin 1 (Validator.trim (description body)) = true
  /\ Validator.isIn route_genres (genre body) = true
  /\ Validator.isInt 1000 now (publishedYear body) = true.
Proof.
  unfold post_book_errors.
  destruct (Validator.isLengthMin 1 (Validator.trim (title body)));
    destruct (Validator.isLengthMin 1 (Validator.trim (author body)));
    destruct (Validator.isLengthMin 1 (Validator.trim (description body)));
    destruct (Validator.isIn route_genres (genre body));
    destruct (Validator.isInt 1000 now (publishedYear body));
    cbn; intuition congruence.
Qed.

(** The outcomes of the creation of a book. *)
Lemma post_book_cases (user : ObjectId) (body : BookBody) (s : State) :
  (fst (post_book user body s) = s
   /\ succeeded (snd (post_book user body s)) = false)
  \/ (fst (post_book user body s) = with_nextId (nextId s + 1)%N s
      /\ snd (post_book user body s) = Message 500 "Server error")
  \/ exists t a d g y,
       let saved := Book.mk (nextId s) (Js.trim t) (Js.trim a) (Js.trim d) g y user 0 0
                      (clock s) (clock s) in
       title body = Some t /\ author body = Some a /\ description body = Some d
       /\ genre body = Some g /\ publishedYear body = Some y
       /\ acceptable_title t /\ acceptable_author a /\ acceptable_description d
       /\ acceptable_genre g /\ acceptable_year (year s) y
       /\ post_book user body s
          = (with_books (books s ++ [saved]) (with_nextId (nextId s + 1)%N s),
             reply_book 201 "Book added successfully" saved).
Proof.
  unfold post_book.
  destruct (negb (List.length (post_book_errors (year s) body) =? 0)%nat) eqn:E;
    [left; split; reflexivity|].
  apply length_zero_nil, post_book_errors_nil in E.
  destruct E as (Ht & Ha & Hd & Hg & Hy).
  destruct (title body) as [t|] eqn:Et; [|discriminate Ht].
  destruct (author body) as [a|] eqn:Ea; [|discriminate Ha].
  destruct (description body) as [d|] eqn:Ed; [|discriminate Hd].
  destruct (genre body) as [g|] eqn:Eg; [|discriminate Hg].
  destruct (publishedYear body) as [y|] eqn:Ey; [|discriminate Hy].
  cbn [Validator.trim option_map].
  pose proof (Book_save_new_built t a d g y user s) as Hs. cbn zeta in Hs.
  destruct (new_Book (Js.trim t) (Js.trim a) (Js.trim d) g y user s) as [bk s1] eqn:En.
  cbn [fst snd] in Hs. rewrite Hs.
  assert (Es1 : s1 = with_nextId (nextId s + 1)%N s).
  { unfold new_Book in En. now injection En as _ <-. }
  destruct (_ && _) eqn:Ev; [|right; left; split; [exact Es1 | reflexivity]].
  right; right. exists t, a, d, g, y. cbn zeta.
  repeat (split; [reflexivity|]).
  rewrite !andb_true_iff in Ev. destruct Ev as ((((Hvt & Hva) & Hvd) & Hvg) & Hvy).
  unfold Book.valid_bookTitle, Book.valid_authorName, Book.valid_bookSummary in *.
  rewrite andb_true_iff, len_between_spec in Hvt, Hva. rewrite len_between_spec in Hvd.
  split; [exact Hvt|]. split; [exact Hva|]. split; [exact Hvd|].
  split; [now apply existsb_eqb_In in Hg|].
  split; [|reflexivity].
  apply year_checks. now rewrite Hy, Hvy.
Qed.



(** X6.  When POST /api/books succeeds, exactly one book is appended: its
    identifier is the next of the counter, its owner the requester, its
    texts the trimmed texts of the body, its rating and review count 0;
    the reply is 201 with average 0 over 0 reviews, and reviews and users
    are untouched. *)
Theorem created_book_is_stored (user : ObjectId) (body : BookBody) (s : State) :
  succeeded (snd (post_book user body s)) = true ->
  exists t a d g y saved,
    title body = Some t /\ author body = Some a /\ description body = Some d
    /\ genre body = Some g /\ publishedYear body = Some y
    /\ saved = Book.mk (nextId s) (Js.trim t) (Js.trim a) (Js.trim d) g y user 0 0
                 (clock s) (clock s)
    /\ snd (post_book user body s)
       = BookReply 201 "Book added successfully" saved 0 0
    /\ books (fst (post_book user body s)) = (books s ++ [saved])%list
    /\ reviews (fst (post_book user body s)) = reviews s
    /\ users (fst (post_book user body s)) = users s
    /\ nextId (fst (post_book user body s)) = (nextId s + 1)%N.
Proof.
  intros Hok.
  destruct (post_book_cases user body s)
    as [[_ Hf] | [[_ Hf] | (t & a & d & g & y & H)]].
  - rewrite Hf in Hok. discriminate Hok.
  - rewrite Hf in Hok. discriminate Hok.
  - cbn zeta in H.
    destruct H as (Et & Ea & Ed & Eg & Ey & _ & _ & _ & _ & _ & Hrun).
    exists t, a, d, g, y. eexists.
    repeat (split; [first [eassumption | reflexivity]|]).
    rewrite Hrun. cbn [fst snd]. repeat split; reflexivity.
Qed.

Lemma created_book_is_stored_witness :
  succeeded (snd (post_book 1%N Demo.a_book Demo.library)) = true
  /\ exists saved,
       books (fst (post_book 1%N Demo.a_book Demo.library))
       = (books Demo.library ++ [saved])%list
       /\ Book.sharedBy saved = 1%N.
Proof.
  split; [vm_compute; reflexivity|].
  destruct (@created_book_is_stored 1%N Demo.a_book Demo.library)
    as (t & a & d & g & y & saved & _ & _ & _ & _ & _ & Hs & _ & Hb & _);
    [vm_compute; reflexivity|].
  exists saved. split; [exact Hb|]. rewrite Hs. reflexivity.
Defined.

(** ** Update and deletion of a book, case by case *)

Lemma Book_findById_updated (bid : ObjectId) (u : BookUpdate) (stamp : Z) (s : State) :
  Book_findById bid
    (with_books
       (Mongo.update_first (is_id Book._id bid) (apply_BookUpdate u stamp) (books s)) s)
  = option_map (apply_BookUpdate u stamp) (Book_findById bid s).
Proof.
  unfold Book_findById, with_books. cbn [books].
  apply update_first_find_same. intros d. apply apply_BookUpdate_fields.
Qed.

Lemma put_book_cases (id : string) (user : ObjectId) (body : BookBody) (s : State) :
  (fst (put_book id user body s) = s
   /\ succeeded (snd (put_book id user body s)) = false)
  \/ exists bid bk,
       Mongo.castObjectId id = Some bid
       /\ Book_findById bid s = Some bk
       /\ Book.canBeEditedBy bk user = true
       /\ put_book_errors (year s) body = []
       /\ BookUpdate_valid (year s) (book_updateData body) = true
       /\ put_book id user body s
          = (with_books
               (Mongo.update_first (is_id Book._id bid)
                  (apply_BookUpdate (book_updateData body) (clock s)) (books s)) s,
             reply_book 200 "Book updated successfully"
               (apply_BookUpdate (book_updateData body) (clock s) bk)).
Proof.
  unfold put_book.
  destruct (negb (List.length (put_book_errors (year s) body) =? 0)%nat) eqn:E;
    [left; split; reflexivity|].
  apply length_zero_nil in E.
  destruct (Mongo.castObjectId id) as [bid|] eqn:Ec; [|left; split; reflexivity].
  destruct (Book_findById bid s) as [bk|] eqn:Ef; [|left; split; reflexivity].
  destruct (Book.canBeEditedBy bk user) eqn:Ea; cbn [negb];
    [|left; split; reflexivity].
  unfold Book_findByIdAndUpdate.
  destruct (BookUpdate_valid (year s) (book_updateData body)) eqn:Ev; cbn [negb];
    [|left; split; reflexivity].
  rewrite Book_findById_updated, Ef. cbn [option_map].
  right. exists bid, bk. repeat (split; [first [reflexivity | assumption]|]).
  reflexivity.
Qed.

Lemma delete_book_cases (id : string) (user : ObjectId) (s : State) :
  (fst (delete_book id user s) = s
   /\ succeeded (snd (delete_book id user s)) = false)
  \/ exists bid bk,
       Mongo.castObjectId id = Some bid
       /\ Book_findById bid s = Some bk
       /\ Book.canBeEditedBy bk user = true
       /\ delete_book id user s
          = (with_books (Mongo.remove_first (is_id Book._id bid) (books s)) s,
             Message 200 "Book and associated reviews deleted successfully").
Proof.
  unfold delete_book.
  destruct (Mongo.castObjectId id) as [bid|] eqn:Ec; [|left; split; reflexivity].
  destruct (Book_findById bid s) as [bk|] eqn:Ef; [|left; split; reflexivity].
  destruct (Book.canBeEditedBy bk user) eqn:Ea; cbn [negb];
    [|left; split; reflexivity].
  right. exists bid, bk. repeat (split; [first [reflexivity | assumption]|]).
  rewrite deleteMany_bookId, with_reviews_same. reflexivity.
Qed.

Lemma put_book_errors_nil (now : Z) (body : BookBody) :
  put_book_errors now body = [] <->
  Validator.optional (Validator.isLengthMin 1) (Validator.trim (title body)) = true
  /\ Validator.optional (Validator.isLengthMin 1) (Validator.trim (author body)) = true
  /\ Validator.optional (Validator.isLengthMin 1) (Validator.trim (description body))
     = true
  /\ Validator.optional (Validator.isIn route_genres) (genre body) = true
  /\ Validator.optional (Validator.isInt 1000 now) (publishedYear body) = true.
Proof.
  unfold put_book_errors.
  destruct (Validator.optional (Validator.isLengthMin 1) (Validator.trim (title body)));
    destruct (Validator.optional (Validator.isLengthMin 1)
                (Validator.trim (author body)));
    destruct (Validator.optional (Validator.isLengthMin 1)
                (Validator.trim (description body)));
    destruct (Validator.optional (Validator.isIn route_genres) (genre body));
    destruct (Validator.optional (Validator.isInt 1000 now) (publishedYear body));
    cbn; intuition congruence.
Qed.

Lemma truthy_trimmed (v : option string) :
  Validator.optional (Validator.isLengthMin 1) (Validator.trim v) = true ->
  (if Js.truthy_str (Validator.trim v) then Validator.trim v else None)
  = option_map Js.trim v.
Proof.
  destruct v as [t|]; [|reflexivity]. cbn. intros H.
  destruct (String.eqb (Js.trim t) "") eqn:E; [|reflexivity].
  apply String.eqb_eq in E. rewrite E in H. discriminate H.
Qed.

(** The [$set] object of a book update that passed the request
    validation holds every field that was sent. *)
Lemma book_updateData_checked (now : Z) (body : BookBody) :
  put_book_errors now body = [] ->
  book_updateData body
  = mkBookUpdate (option_map Js.trim (title body)) (option_map Js.trim (author body))
      (option_map Js.trim (description body)) (genre body) (publishedYear body).
Proof.
  intros H. apply put_book_errors_nil in H. destruct H as (Ht & Ha & Hd & Hg & Hy).
  unfold book_updateData.
  rewrite (truthy_trimmed _ Ht), (truthy_trimmed _ Ha), (truthy_trimmed _ Hd).
  f_equal.
  - destruct (genre body) as [g|]; [|reflexivity].
    cbn [Validator.optional Validator.isIn] in Hg. cbn [Js.truthy_str].
    destruct (String.eqb g "") eqn:E; [|reflexivity].
    apply String.eqb_eq in E. subst g. discriminate Hg.
  - destruct (publishedYear body) as [y|] eqn:Ey; [|reflexivity].
    cbn [Validator.optional] in Hy. apply isInt_spec in Hy.
    destruct Hy as (q & z & Hq & Hz & Hr). injection Hq as <-.
    now rewrite (@integer_within_truthy 1000 now y);
      [| lia | exists y, z; repeat split; [exact Hz | lia | lia]].
Qed.

Lemma optional_length_spec (v : option string) :
  Validator.optional (Validator.isLengthMin 1) (Validator.trim v) = true
  <-> when_present (fun t => (1 <= String.length (Js.trim t))%nat) v.
Proof.
  unfold when_present.
  destruct v as [t|]; cbn [Validator.optional Validator.trim option_map
                           Validator.isLengthMin].
  - rewrite Nat.leb_le. split; [intros H x Hx; now injection Hx as <- | auto].
  - split; [intros _ x Hx; discriminate Hx | reflexivity].
Qed.

(** The checks of a book update, route and update validators together. *)
Lemma book_update_checks (now : Z) (body : BookBody) :
  put_book_errors now body = [] /\ BookUpdate_valid now (book_updateData body) = true
  <-> when_present acceptable_title (title body)
      /\ when_present acceptable_author (author body)
      /\ when_present acceptable_description (description body)
      /\ when_present acceptable_genre (genre body)
      /\ when_present (acceptable_year now) (publishedYear body).
Proof.
  split.
  - intros [He Hv]. rewrite (@book_updateData_checked _ _ He) in Hv.
    apply put_book_errors_nil in He. destruct He as (Ht & Ha & Hd & Hg & Hy).
    unfold BookUpdate_valid in Hv.
    cbn [upd_bookTitle upd_authorName upd_bookSummary upd_literaryGenre
         upd_publicationYear] in Hv.
    rewrite !andb_true_iff in Hv. destruct Hv as ((((Vt & Va) & Vd) & Vg) & Vy).
    unfold when_present. split; [|split; [|split; [|split]]].
    + intros t Et. rewrite Et in Vt. cbn in Vt. rewrite trim_idem in Vt.
      unfold Book.valid_bookTitle in Vt. apply andb_prop in Vt as [V1 V2].
      apply len_between_spec in V1. split; assumption.
    + intros a Ea. rewrite Ea in Va. cbn in Va. rewrite trim_idem in Va.
      unfold Book.valid_authorName in Va. apply andb_prop in Va as [V1 V2].
      apply len_between_spec in V1. split; assumption.
    + intros d Ed. rewrite Ed in Vd. cbn in Vd. rewrite trim_idem in Vd.
      now apply len_between_spec in Vd.
    + intros g Eg. rewrite Eg in Hg. cbn [Validator.optional Validator.isIn] in Hg.
      now apply existsb_eqb_In in Hg.
    + intros y Ey. rewrite Ey in Hy, Vy. cbn [Validator.optional valid_if] in Hy, Vy.
      apply year_checks. now rewrite Hy, Vy.
  - intros (Ht & Ha & Hd & Hg & Hy). unfold when_present in *.
    assert (He : put_book_errors now body = []).
    { apply put_book_errors_nil. split; [|split; [|split; [|split]]].
      - apply optional_length_spec. intros t Et. destruct (Ht t Et) as [H _]. lia.
      - apply optional_length_spec. intros a Ea. destruct (Ha a Ea) as [H _]. lia.
      - apply optional_length_spec. intros d Ed. pose proof (Hd d Ed) as H.
        unfold acceptable_description, good_description in H. lia.
      - destruct (genre body) as [g|]; [|reflexivity].
        cbn [Validator.optional Validator.isIn].
        apply existsb_eqb_In. now apply Hg.
      - destruct (publishedYear body) as [y|]; [|reflexivity]. cbn [Validator.optional].
        pose proof (proj2 (year_checks now y) (Hy y eq_refl)) as H.
        now apply andb_prop in H as [H _]. }
    split; [exact He|]. rewrite (@book_updateData_checked _ _ He).
    unfold BookUpdate_valid.
    cbn [upd_bookTitle upd_authorName upd_bookSummary upd_literaryGenre
         upd_publicationYear].
    rewrite !andb_true_iff. split; [split; [split; [split|]|]|].
    + destruct (title body) as [t|]; [|reflexivity]. cbn. rewrite trim_idem.
      destruct (Ht t eq_refl) as [H1 H2]. unfold Book.valid_bookTitle.
      now rewrite (proj2 (len_between_spec 1 200 _) H1), H2.
    + destruct (author body) as [a|]; [|reflexivity]. cbn. rewrite trim_idem.
      destruct (Ha a eq_refl) as [H1 H2]. unfold Book.valid_authorName.
      now rewrite (proj2 (len_between_spec 2 100 _) H1), H2.
    + destruct (description body) as [d|]; [|reflexivity]. cbn. rewrite trim_idem.
      apply len_between_spec. now apply Hd.
    + destruct (genre body) as [g|]; [|reflexivity]. cbn [valid_if].
      apply existsb_eqb_In, route_genres_incl. now apply Hg.
    + destruct (publishedYear body) as [y|]; [|reflexivity]. cbn [valid_if].
      pose proof (proj2 (year_checks now y) (Hy y eq_refl)) as H.
      now apply andb_prop in H as [_ H].
Qed.


(** X8.  When PUT /api/books/:id succeeds, the addressed book takes every
    field that was sent (texts trimmed) and keeps the others; its
    identifier, owner, rating, review count and [createdAt] stay,
    [updatedAt] is the instant of the request, and every other book,
    the reviews and the users are untouched. *)
Theorem updated_book_is_stored (id : string) (user : ObjectId) (body : BookBody)
        (s : State) :
  succeeded (snd (put_book id user body s)) = true ->
  exists bid bk bk',
    Mongo.castObjectId id = Some bid /\ Book_findById bid s = Some bk
    /\ snd (put_book id user body s)
       = reply_book 200 "Book updated successfully" bk'
    /\ Book_findById bid (fst (put_book id user body s)) = Some bk'
    /\ bk' = Book.mk bid
               (patched (option_map Js.trim (title body)) (Book.bookTitle bk))
               (patched (option_map Js.trim (author body)) (Book.authorName bk))
               (patched (option_map Js.trim (description body)) (Book.bookSummary bk))
               (patched (genre body) (Book.literaryGenre bk))
               (patched (publishedYear body) (Book.publicationYear bk))
               (Book.sharedBy bk) (Book.communityRating bk) (Book.reviewCount bk)
               (Book.createdAt bk) (clock s)
    /\ Forall2 (fun d d' => Book._id d <> bid -> d' = d)
               (books s) (books (fst (put_book id user body s)))
    /\ reviews (fst (put_book id user body s)) = reviews s
    /\ users (fst (put_book id user body s)) = users s.
Proof.
  intros Hok.
  destruct (put_book_cases id user body s)
    as [[_ Hf] | (bid & bk & Ec & Ef & Ea & He & Hv & Hrun)].
  { rewrite Hf in Hok. discriminate Hok. }
  exists bid, bk, (apply_BookUpdate (book_updateData body) (clock s) bk).
  rewrite Hrun. cbn [fst snd].
  split; [exact Ec|]. split; [exact Ef|]. split; [reflexivity|].
  split; [now rewrite Book_findById_updated, Ef|].
  split.
  { rewrite (@book_updateData_checked _ _ He). unfold apply_BookUpdate.
    cbn [upd_bookTitle upd_authorName upd_bookSummary upd_literaryGenre
         upd_publicationYear].
    rewrite <- (Book_findById_id _ _ Ef).
    destruct bk.
    destruct (title body), (author body), (description body), (genre body),
      (publishedYear body); cbn [set_if patched option_map];
      repeat (first [ progress unfold Book.set_bookTitle
                    | progress unfold Book.set_authorName
                    | progress unfold Book.set_bookSummary
                    | progress unfold Book.set_literaryGenre
                    | progress unfold Book.set_publicationYear
                    | progress unfold Book.set_updatedAt ];
              cbn [Book._id Book.bookTitle Book.authorName Book.bookSummary
                   Book.literaryGenre Book.publicationYear Book.sharedBy
                   Book.communityRating Book.reviewCount Book.createdAt
                   Book.updatedAt]);
      rewrite ?trim_idem; reflexivity. }
  split; [|split; reflexivity].
  unfold with_books. cbn [books]. apply update_first_frame; [reflexivity|].
  intros d Hd Hne. unfold is_id in Hd. apply N.eqb_eq in Hd. contradiction.
Qed.

Lemma updated_book_is_stored_witness :
  let body := mkBookBody (Some "  Clean Code, second edition ") None None None None
                None None None None in
  succeeded (snd (put_book (Demo.oid 3) 0%N body Demo.rated_5_4_3)) = true
  /\ exists bk',
       Book_findById 3%N (fst (put_book (Demo.oid 3) 0%N body Demo.rated_5_4_3))
       = Some bk'
       /\ Book.bookTitle bk' = "Clean Code, second edition".
Proof.
  cbn zeta. split; [vm_compute; reflexivity|].
  destruct (@updated_book_is_stored (Demo.oid 3) 0%N
              (mkBookBody (Some "  Clean Code, second edition ") None None None None
                 None None None None) Demo.rated_5_4_3)
    as (bid & bk & bk' & Hc & _ & _ & Hf & Hs & _); [vm_compute; reflexivity|].
  exists bk'.
  assert (E : bid = 3%N) by (vm_compute in Hc; congruence).
  subst bid. split; [exact Hf|]. rewrite Hs. vm_compute. reflexivity.
Defined.

(** ** Identifiers *)

Lemma remove_first_perm (A : Type) (p : A -> bool) (l : list A) (d : A) :
  List.find p l = Some d -> Permutation (d :: Mongo.remove_first p l) l.
Proof.
  induction l as [|x l IH]; simpl; [discriminate|].
  destruct (p x).
  - intros H. injection H as <-. apply Permutation_refl.
  - intros H. apply perm_trans with (x :: d :: Mongo.remove_first p l).
    + apply perm_swap.
    + apply perm_skip. now apply IH.
Qed.

Lemma settle_leaves (b : ObjectId) (r : Review.t) (s : State) :
  let s' := updateBookRating b (recalculate_after r s) in
  reviews s' = reviews s /\ users s' = users s /\ nextId s' = nextId s
  /\ clock s' = clock s /\ year s' = year s
  /\ map Book._id (books s') = map Book._id (books s).
Proof.
  cbn zeta.
  destruct (updateBookRating_leaves b (recalculate_after r s))
    as (Hr & Hu & Hn & Hc & Hy & Hb).
  destruct (recalculate_after_leaves r s) as (Hr' & Hu' & Hn' & Hc' & Hy' & Hb').
  rewrite Hr, Hu, Hn, Hc, Hy, Hr', Hu', Hn', Hc', Hy'.
  repeat (split; [reflexivity|]).
  now rewrite (only_metrics_ids Hb), (only_metrics_ids Hb').
Qed.

Lemma updateBookRating_ids (b : ObjectId) (s : State) :
  map Book._id (books (updateBookRating b s)) = map Book._id (books s).
Proof.
  destruct (updateBookRating_leaves b s) as (_ & _ & _ & _ & _ & Hb).
  exact (only_metrics_ids Hb).
Qed.

Lemma identifiers_of (bs us : list ObjectId) (rs : list Review.t) (s : State) :
  map Book._id (books s) = bs -> reviews s = rs -> users s = us ->
  identifiers s = (bs ++ map Review._id rs ++ us)%list.
Proof. unfold identifiers. now intros -> -> ->. Qed.

Lemma handle_identifiers (req : Request) (s : State) :
  identifiers_step s (fst (handle req s))
  /\ users (fst (handle req s)) = users s
  /\ year (fst (handle req s)) = year s.
Proof.
  destruct req as [user body|id user body|id user|user body|id user body|id user];
    cbn [handle].
  - destruct (post_review_cases user body s)
      as [[-> _] | [[-> _] | (raw & b & stars & t & H)]].
    + split; [apply identifiers_kept; [reflexivity | lia] | split; reflexivity].
    + split; [apply identifiers_kept; [reflexivity | cbn; lia] | split; reflexivity].
    + cbn zeta in H. destruct H as (_ & _ & _ & _ & _ & _ & _ & _ & _ & _ & ->).
      cbn [fst].
      set (saved := Review.mk _ _ _ _ _ _ _ _ _).
      destruct (settle_leaves b saved
                  (with_reviews (reviews s ++ [saved]) (with_nextId (nextId s + 1)%N s)))
        as (Hr & Hu & Hn & _ & Hy & Hb).
      split; [|split; [exact Hu | exact Hy]].
      apply identifiers_drawn; [|exact Hn].
      rewrite (@identifiers_of _ _ _ _ Hb Hr Hu). cbn [books reviews users with_reviews
                                                with_nextId].
      rewrite map_app. cbn [map]. change (Review._id saved) with (nextId s).
      unfold identifiers. rewrite <- app_assoc. cbn [app]. rewrite !app_assoc.
      apply Permutation_sym, Permutation_middle.
  - destruct (put_review_cases id user body s)
      as [[-> _] | (rid & r0 & _ & _ & _ & _ & _ & ->)].
    + split; [apply identifiers_kept; [reflexivity | lia] | split; reflexivity].
    + cbn [fst].
      destruct (updateBookRating_leaves (Review.reviewedBook r0)
                  (with_reviews
                     (Mongo.update_first (is_id Review._id rid)
                        (apply_ReviewUpdate (review_updateData body) (clock s))
                        (reviews s)) s))
        as (Hr & Hu & Hn & _ & Hy & Hb).
      split; [|split; [exact Hu | exact Hy]].
      apply identifiers_kept; [|rewrite Hn; cbn; lia].
      unfold identifiers. rewrite (only_metrics_ids Hb), Hr, Hu.
      cbn [books reviews users with_reviews].
      rewrite map_update_first; [reflexivity|].
      intros d. apply apply_ReviewUpdate_identity.
  - destruct (delete_review_cases id user s)
      as [[-> _] | (rid & r0 & _ & Hf & _ & ->)].
    + split; [apply identifiers_kept; [reflexivity | lia] | split; reflexivity].
    + cbn [fst].
      destruct (settle_leaves (Review.reviewedBook r0) r0
                  (with_reviews (Mongo.remove_first (is_id Review._id rid) (reviews s)) s))
        as (Hr & Hu & Hn & _ & Hy & Hb).
      split; [|split; [exact Hu | exact Hy]].
      apply identifiers_dropped with (x := Review._id r0); [|exact Hn].
      rewrite (@identifiers_of _ _ _ _ Hb Hr Hu). cbn [books reviews users with_reviews].
      unfold identifiers.
      apply Permutation_trans
        with (map Book._id (books s)
              ++ Review._id r0
                 :: map Review._id (Mongo.remove_first (is_id Review._id rid) (reviews s))
                 ++ users s)%list.
      * apply Permutation_middle.
      * apply Permutation_app_head.
        change (Permutation
                  ((map Review._id
                      (r0 :: Mongo.remove_first (is_id Review._id rid) (reviews s)))
                   ++ users s) (map Review._id (reviews s) ++ users s)).
        apply Permutation_app_tail, Permutation_map, remove_first_perm. exact Hf.
  - destruct (post_book_cases user body s)
      as [[-> _] | [[-> _] | (t & a & d & g & y & H)]].
    + split; [apply identifiers_kept; [reflexivity | lia] | split; reflexivity].
    + split; [apply identifiers_kept; [reflexivity | cbn; lia] | split; reflexivity].
    + cbn zeta in H. destruct H as (_ & _ & _ & _ & _ & _ & _ & _ & _ & _ & ->).
      cbn [fst]. split; [|split; reflexivity].
      apply identifiers_drawn; [|reflexivity].
      unfold identifiers. cbn [books reviews users with_books with_nextId].
      rewrite map_app. cbn [map app Book._id]. rewrite <- app_assoc. cbn [app].
      apply Permutation_sym, Permutation_middle.
  - destruct (put_book_cases id user body s)
      as [[-> _] | (bid & bk & _ & _ & _ & _ & _ & ->)].
    + split; [apply identifiers_kept; [reflexivity | lia] | split; reflexivity].
    + cbn [fst]. split; [|split; reflexivity].
      apply identifiers_kept; [|cbn; lia].
      unfold identifiers. cbn [books reviews users with_books].
      rewrite map_update_first; [reflexivity|].
      intros d. apply apply_BookUpdate_fields.
  - destruct (delete_book_cases id user s)
      as [[-> _] | (bid & bk & _ & Hf & _ & ->)].
    + split; [apply identifiers_kept; [reflexivity | lia] | split; reflexivity].
    + cbn [fst]. split; [|split; reflexivity].
      apply identifiers_dropped with (x := Book._id bk); [|reflexivity].
      unfold identifiers. cbn [books reviews users with_books].
      change (Permutation
                (map Book._id (bk :: Mongo.remove_first (is_id Book._id bid) (books s))
                 ++ map Review._id (reviews s) ++ users s)
                (map Book._id (books s) ++ map Review._id (reviews s) ++ users s)).
      apply Permutation_app_tail, Permutation_map, remove_first_perm. exact Hf.
Qed.

Lemma reachable_identifiers (s : State) :
  reachable s ->
  NoDup (identifiers s) /\ Forall (fun i => (i < nextId s)%N) (identifiers s).
Proof.
  induction 1 as [c y | req s _ [Hnd Hlt] | s _ [Hnd Hlt] | c y s _ IH _].
  - split; constructor.
  - destruct (handle_identifiers req s) as [Hstep _].
    destruct Hstep as [He Hn | Hp Hn | x Hp Hn].
    + rewrite He. split; [exact Hnd|].
      eapply Forall_impl; [|exact Hlt]. cbn. intros i Hi. lia.
    + assert (Hfresh : ~ In (nextId s) (identifiers s)).
      { intros Hin. rewrite Forall_forall in Hlt. specialize (Hlt _ Hin). lia. }
      split.
      * eapply Permutation_NoDup; [apply Permutation_sym; exact Hp|].
        constructor; assumption.
      * eapply Permutation_Forall; [apply Permutation_sym; exact Hp|].
        constructor; [lia|]. eapply Forall_impl; [|exact Hlt]. cbn. intros i Hi. lia.
    + assert (Hnd' : NoDup (x :: identifiers (fst (handle req s))))
        by (eapply Permutation_NoDup; [apply Permutation_sym; exact Hp | exact Hnd]).
      assert (Hlt' : Forall (fun i => (i < nextId s)%N)
                            (x :: identifiers (fst (handle req s))))
        by (eapply Permutation_Forall; [apply Permutation_sym; exact Hp | exact Hlt]).
      inversion Hnd'; inversion Hlt'; subst. rewrite Hn. split; assumption.
  - unfold identifiers, sign_up. cbn [books reviews users nextId].
    assert (Hfresh : ~ In (nextId s) (identifiers s)).
    { intros Hin. rewrite Forall_forall in Hlt. specialize (Hlt _ Hin). lia. }
    assert (Hp : Permutation
                   (nextId s :: identifiers s)
                   (map Book._id (books s) ++ map Review._id (reviews s)
                    ++ users s ++ [nextId s])).
    { unfold identifiers. rewrite !app_assoc. apply Permutation_cons_append. }
    split.
    + eapply Permutation_NoDup; [exact Hp|]. constructor; assumption.
    + eapply Permutation_Forall; [exact Hp|].
      constructor; [lia|]. eapply Forall_impl; [|exact Hlt]. cbn. intros i Hi. lia.
  - exact IH.
Qed.

Lemma find_of_NoDup (A : Type) (id_of : A -> ObjectId) (l : list A) (d : A) :
  NoDup (map id_of l) -> In d l -> List.find (is_id id_of (id_of d)) l = Some d.
Proof.
  induction l as [|x l IH]; simpl; [tauto|].
  intros Hnd [-> | Hin].
  - unfold is_id. now rewrite N.eqb_refl.
  - inversion Hnd as [|? ? Hx Hnd']; subst.
    unfold is_id at 1. destruct (id_of x =? id_of d)%N eqn:E.
    + apply N.eqb_eq in E. exfalso. apply Hx. rewrite E. now apply in_map.
    + now apply IH.
Qed.

Lemma reachable_ids_split (s : State) :
  reachable s ->
  NoDup (map Book._id (books s)) /\ NoDup (map Review._id (reviews s)).
Proof.
  intros Hreach. destruct (reachable_identifiers Hreach) as [Hnd _].
  unfold identifiers in Hnd. split.
  - now apply NoDup_app_remove_r in Hnd.
  - now apply NoDup_app_remove_l, NoDup_app_remove_r in Hnd.
Qed.

(** X9.  In a reachable state no identifier is used twice, whether by a
    book, a review or a user, every identifier in use was drawn from the
    counter, and looking a stored document up by its identifier finds
    that very document. *)
Theorem identifiers_are_unique (s : State) :
  reachable s ->
  NoDup (identifiers s)
  /\ Forall (fun i => (i < nextId s)%N) (identifiers s)
  /\ (forall bk, In bk (books s) -> Book_findById (Book._id bk) s = Some bk)
  /\ (forall r, In r (reviews s) -> Review_findById (Review._id r) s = Some r).
Proof.
  intros Hreach. destruct (reachable_identifiers Hreach) as [Hnd Hlt].
  destruct (reachable_ids_split Hreach) as [Hb Hr].
  split; [exact Hnd|]. split; [exact Hlt|]. split.
  - intros bk Hin. now apply find_of_NoDup.
  - intros r Hin. now apply find_of_NoDup.
Qed.

Lemma identifiers_are_unique_witness : NoDup (identifiers Demo.rated_5_4_3).
Proof.
  assert (Hreach : reachable Demo.rated_5_4_3) by session_is_reachable.
  apply (@identifiers_are_unique Demo.rated_5_4_3 Hreach).
Defined.

(** X10.  In a reachable state, when DELETE /api/reviews/:id succeeds the
    review was written by the requester, it can no longer be found, every
    other review is found as before, and of the books only the metrics of
    the reviewed book can change. *)
Theorem deleted_review_is_gone (id : string) (user : ObjectId) (s : State) :
  reachable s ->
  succeeded (snd (delete_review id user s)) = true ->
  exists rid r0,
    Mongo.castObjectId id = Some rid /\ Review_findById rid s = Some r0
    /\ Review.reviewAuthor r0 = user
    /\ Review_findById rid (fst (delete_review id user s)) = None
    /\ (forall rid', rid' <> rid ->
          Review_findById rid' (fst (delete_review id user s)) = Review_findById rid' s)
    /\ Permutation (r0 :: reviews (fst (delete_review id user s))) (reviews s)
    /\ users (fst (delete_review id user s)) = users s
    /\ Forall2 (only_metrics_of (Review.reviewedBook r0))
               (books s) (books (fst (delete_review id user s))).
Proof.
  intros Hreach Hok.
  destruct (delete_review_cases id user s)
    as [[_ Hf] | (rid & r0 & Ec & Ef & Ea & Hrun)].
  { rewrite Hf in Hok. discriminate Hok. }
  destruct (reachable_ids_split Hreach) as [_ Hnd].
  exists rid, r0. rewrite Hrun. cbn [fst snd].
  set (s1 := with_reviews _ s).
  destruct (updateBookRating_leaves (Review.reviewedBook r0) (recalculate_after r0 s1))
    as (Hr & Hu & _ & _ & _ & Hb).
  destruct (recalculate_after_leaves r0 s1) as (Hr' & Hu' & _ & _ & _ & Hb').
  split; [exact Ec|]. split; [exact Ef|]. split; [now apply N.eqb_eq|].
  unfold Review_findById. rewrite Hr, Hr', Hu, Hu'. unfold s1. cbn [reviews users with_reviews].
  split; [now apply remove_first_find_same|].
  split; [intros rid' Hne; now apply remove_first_find_other|].
  split; [now apply remove_first_perm|].
  split; [reflexivity|].
  eapply only_metrics_trans; [exact Hb' | exact Hb].
Qed.

Lemma deleted_review_is_gone_witness :
  succeeded (snd (delete_review (Demo.oid 6) 2%N Demo.rated_5_4_3)) = true
  /\ Review_findById 6%N (fst (delete_review (Demo.oid 6) 2%N Demo.rated_5_4_3)) = None.
Proof.
  split; [vm_compute; reflexivity|].
  assert (Hreach : reachable Demo.rated_5_4_3) by session_is_reachable.
  destruct (@deleted_review_is_gone (Demo.oid 6) 2%N Demo.rated_5_4_3 Hreach)
    as (rid & r0 & Hc & _ & _ & Hgone & _); [vm_compute; reflexivity|].
  assert (E : rid = 6%N) by (vm_compute in Hc; congruence).
  subst rid. exact Hgone.
Defined.

(** X11.  In a reachable state, when DELETE /api/books/:id succeeds the book
    was shared by the requester, it can no longer be found, every other
    book is found as before, and no review is deleted: the reviews that
    reference the book stay in the store. *)
Theorem deleted_book_is_gone (id : string) (user : ObjectId) (s : State) :
  reachable s ->
  succeeded (snd (delete_book id user s)) = true ->
  exists bid bk,
    Mongo.castObjectId id = Some bid /\ Book_findById bid s = Some bk
    /\ Book.sharedBy bk = user
    /\ Book_findById bid (fst (delete_book id user s)) = None
    /\ (forall bid', bid' <> bid ->
          Book_findById bid' (fst (delete_book id user s)) = Book_findById bid' s)
    /\ Permutation (bk :: books (fst (delete_book id user s))) (books s)
    /\ reviews (fst (delete_book id user s)) = reviews s
    /\ reviews_of bid (fst (delete_book id user s)) = reviews_of bid s
    /\ users (fst (delete_book id user s)) = users s.
Proof.
  intros Hreach Hok.
  destruct (delete_book_cases id user s)
    as [[_ Hf] | (bid & bk & Ec & Ef & Ea & Hrun)].
  { rewrite Hf in Hok. discriminate Hok. }
  destruct (reachable_ids_split Hreach) as [Hnd _].
  exists bid, bk. rewrite Hrun. cbn [fst snd].
  split; [exact Ec|]. split; [exact Ef|]. split; [now apply N.eqb_eq|].
  unfold Book_findById. cbn [books with_books].
  split; [now apply remove_first_find_same|].
  split; [intros bid' Hne; now apply remove_first_find_other|].
  split; [now apply remove_first_perm|].
  repeat split; reflexivity.
Qed.

Lemma deleted_book_is_gone_witness :
  succeeded (snd (delete_book (Demo.oid 3) 0%N Demo.rated_5_4_3)) = true
  /\ Book_findById 3%N (fst (delete_book (Demo.oid 3) 0%N Demo.rated_5_4_3)) = None
  /\ reviews_of 3%N (fst (delete_book (Demo.oid 3) 0%N Demo.rated_5_4_3))
     = reviews_of 3%N Demo.rated_5_4_3.
Proof.
  split; [vm_compute; reflexivity|].
  assert (Hreach : reachable Demo.rated_5_4_3) by session_is_reachable.
  destruct (@deleted_book_is_gone (Demo.oid 3) 0%N Demo.rated_5_4_3 Hreach)
    as (bid & bk & Hc & _ & _ & Hgone & _ & _ & _ & Hrev & _); [vm_compute; reflexivity|].
  assert (E : bid = 3%N) by (vm_compute in Hc; congruence).
  subst bid. split; [exact Hgone | exact Hrev].
Defined.

(** X12.  A request that is not answered with a 2xx status leaves books,
    reviews and users as they were. *)
Theorem refused_request_changes_nothing (req : Request) (s : State) :
  succeeded (snd (handle req s)) = false ->
  books (fst (handle req s)) = books s
  /\ reviews (fst (handle req s)) = reviews s
  /\ users (fst (handle req s)) = users s.
Proof.
  intros Hno.
  destruct req as [user body|id user body|id user|user body|id user body|id user];
    cbn [handle] in *.
  - destruct (post_review_cases user body s)
      as [[-> _] | [[-> _] | (raw & b & stars & t & H)]]; try (repeat split; reflexivity).
    cbn zeta in H. destruct H as (_ & _ & _ & _ & _ & _ & _ & _ & _ & _ & Hrun).
    rewrite Hrun in Hno. discriminate Hno.
  - destruct (put_review_cases id user body s)
      as [[-> _] | (rid & r0 & _ & _ & _ & _ & _ & Hrun)]; try (repeat split; reflexivity).
    rewrite Hrun in Hno. discriminate Hno.
  - destruct (delete_review_cases id user s)
      as [[-> _] | (rid & r0 & _ & _ & _ & Hrun)]; try (repeat split; reflexivity).
    rewrite Hrun in Hno. discriminate Hno.
  - destruct (post_book_cases user body s)
      as [[-> _] | [[-> _] | (t & a & d & g & y & H)]]; try (repeat split; reflexivity).
    cbn zeta in H. destruct H as (_ & _ & _ & _ & _ & _ & _ & _ & _ & _ & Hrun).
    rewrite Hrun in Hno. discriminate Hno.
  - destruct (put_book_cases id user body s)
      as [[-> _] | (bid & bk & _ & _ & _ & _ & _ & Hrun)]; try (repeat split; reflexivity).
    rewrite Hrun in Hno. discriminate Hno.
  - destruct (delete_book_cases id user s)
      as [[-> _] | (bid & bk & _ & _ & _ & Hrun)]; try (repeat split; reflexivity).
    rewrite Hrun in Hno. discriminate Hno.
Qed.

Lemma refused_request_changes_nothing_witness :
  succeeded (snd (handle (DeleteBook (Demo.oid 3) 1%N) Demo.rated_5_4_3)) = false
  /\ books (fst (handle (DeleteBook (Demo.oid 3) 1%N) Demo.rated_5_4_3))
     = books Demo.rated_5_4_3.
Proof.
  split; [vm_compute; reflexivity|].
  apply (@refused_request_changes_nothing (DeleteBook (Demo.oid 3) 1%N) Demo.rated_5_4_3).
  vm_compute. reflexivity.
Defined.

(** ** The text of a review as the pre-save hook leaves it *)

Lemma space_not_word (c : ascii) : Js.is_space c = true -> Js.is_word c = false.
Proof.
  destruct c as [[] [] [] [] [] [] [] []]; vm_compute; congruence.
Qed.

Lemma length_string_of_list (l : list ascii) :
  String.length (string_of_list_ascii l) = List.length l.
Proof. induction l; simpl; congruence. Qed.

Lemma length_list_of_string (s : string) :
  List.length (list_ascii_of_string s) = String.length s.
Proof. induction s; simpl; congruence. Qed.

Lemma filter_word_spaces (a : list ascii) :
  forallb Js.is_space a = true -> filter Js.is_word a = [].
Proof.
  induction a as [|c a IH]; simpl; [reflexivity|].
  intros H. apply andb_prop in H as [Hc Ha]. now rewrite (space_not_word _ Hc), IH.
Qed.

Lemma drop_while_words (l : list ascii) :
  filter Js.is_word (Js.drop_while Js.is_space l) = filter Js.is_word l.
Proof.
  destruct (drop_while_suffix Js.is_space l) as (a & Ha & Hp).
  rewrite Ha at 2. now rewrite filter_app, (filter_word_spaces _ Hp).
Qed.

Lemma drop_while_length (p : ascii -> bool) (l : list ascii) :
  (List.length (Js.drop_while p l) <= List.length l)%nat.
Proof.
  induction l as [|c l IH]; simpl; [lia|]. destruct (p c); simpl; lia.
Qed.

Lemma filter_rev (A : Type) (p : A -> bool) (l : list A) :
  filter p (rev l) = rev (filter p l).
Proof.
  induction l as [|x l IH]; simpl; [reflexivity|].
  rewrite filter_app, IH. simpl. destruct (p x); simpl; [reflexivity|].
  now rewrite app_nil_r.
Qed.

Lemma trim_list_words (l : list ascii) :
  filter Js.is_word (trim_list l) = filter Js.is_word l.
Proof.
  unfold trim_list.
  now rewrite filter_rev, drop_while_words, filter_rev, rev_involutive, drop_while_words.
Qed.

Lemma trim_list_length (l : list ascii) :
  (List.length (trim_list l) <= List.length l)%nat.
Proof.
  unfold trim_list. rewrite length_rev.
  pose proof (drop_while_length Js.is_space (rev (Js.drop_while Js.is_space l))) as H1.
  rewrite length_rev in H1.
  pose proof (drop_while_length Js.is_space l). lia.
Qed.

Lemma count_word_trim (s : string) : Js.count_word (Js.trim s) = Js.count_word s.
Proof. unfold Js.count_word. now rewrite trim_as_list, trim_list_words. Qed.

Lemma length_trim (s : string) : (String.length (Js.trim s) <= String.length s)%nat.
Proof.
  rewrite <- !length_list_of_string, trim_as_list. apply trim_list_length.
Qed.

Lemma squeeze_as_list (s : string) :
  list_ascii_of_string (Js.squeeze s)
  = Js.collapse_spaces false (list_ascii_of_string s).
Proof. unfold Js.squeeze. apply list_ascii_of_string_of_list_ascii. Qed.

Lemma collapse_words (b : bool) (l : list ascii) :
  filter Js.is_word (Js.collapse_spaces b l) = filter Js.is_word l.
Proof.
  revert b. induction l as [|c l IH]; intros b; simpl; [reflexivity|].
  destruct (Js.is_space c) eqn:E.
  - rewrite (space_not_word _ E). destruct b; simpl; now rewrite IH.
  - simpl. now rewrite IH.
Qed.

Lemma collapse_length (b : bool) (l : list ascii) :
  (List.length (Js.collapse_spaces b l) <= List.length l)%nat.
Proof.
  revert b. induction l as [|c l IH]; intros b; simpl; [lia|].
  pose proof (IH true). pose proof (IH false).
  destruct (Js.is_space c); [destruct b|]; simpl; lia.
Qed.

Lemma count_word_squeeze (s : string) : Js.count_word (Js.squeeze s) = Js.count_word s.
Proof. unfold Js.count_word. now rewrite squeeze_as_list, collapse_words. Qed.

Lemma length_squeeze (s : string) :
  (String.length (Js.squeeze s) <= String.length s)%nat.
Proof.
  rewrite <- !length_list_of_string, squeeze_as_list. apply collapse_length.
Qed.

Lemma collapse_single_spaced (l : list ascii) :
  single_spaced true (Js.collapse_spaces true l) = true
  /\ single_spaced false (Js.collapse_spaces false l) = true.
Proof.
  induction l as [|c l [IHt IHf]]; simpl; [split; reflexivity|].
  destruct (Js.is_space c) eqn:E.
  - split; [exact IHt|]. simpl. now rewrite IHt.
  - simpl. rewrite E. split; exact IHf.
Qed.

Lemma single_spaced_weaken (l : list ascii) :
  single_spaced true l = true -> single_spaced false l = true.
Proof.
  destruct l as [|c l]; simpl; [reflexivity|].
  destruct (Js.is_space c); [|trivial].
  rewrite andb_false_r. discriminate.
Qed.

Lemma single_spaced_suffix (b : bool) (a l : list ascii) :
  single_spaced b (a ++ l) = true -> single_spaced false l = true.
Proof.
  revert b. induction a as [|c a IH]; intros b; simpl.
  - destruct b; [apply single_spaced_weaken | trivial].
  - destruct (Js.is_space c).
    + intros H. apply andb_prop in H as [_ H]. now apply IH in H.
    + apply IH.
Qed.

Lemma single_spaced_prefix (b : bool) (l a : list ascii) :
  single_spaced b (l ++ a) = true -> single_spaced b l = true.
Proof.
  revert b. induction l as [|c l IH]; intros b; simpl; [reflexivity|].
  destruct (Js.is_space c).
  - intros H. apply andb_prop in H as [H1 H2]. rewrite H1. now apply IH in H2.
  - apply IH.
Qed.

Lemma trim_list_single_spaced (b : bool) (l : list ascii) :
  single_spaced b l = true -> single_spaced false (trim_list l) = true.
Proof.
  intros H.
  destruct (drop_while_suffix Js.is_space l) as (a & Ha & _).
  rewrite Ha in H. apply single_spaced_suffix in H.
  destruct (trim_list_prefix l) as (t & Ht & _).
  rewrite Ht in H. now apply single_spaced_prefix in H.
Qed.

Lemma collapse_fixed (b : bool) (l : list ascii) :
  single_spaced b l = true -> Js.collapse_spaces b l = l.
Proof.
  revert b. induction l as [|c l IH]; intros b; simpl; [reflexivity|].
  destruct (Js.is_space c).
  - intros H. apply andb_prop in H as [H1 H2]. apply andb_prop in H1 as [Hc Hb].
    apply Ascii.eqb_eq in Hc. subst c. destruct b; [discriminate Hb|].
    now rewrite (IH true H2).
  - intros H. now rewrite (IH false H).
Qed.

Lemma string_of_list_of_string (s : string) :
  string_of_list_ascii (list_ascii_of_string s) = s.
Proof. apply string_of_list_ascii_of_string. Qed.

Lemma squeeze_fixed (s : string) :
  single_spaced false (list_ascii_of_string s) = true -> Js.squeeze s = s.
Proof.
  intros H. unfold Js.squeeze. rewrite (collapse_fixed _ _ H).
  apply string_of_list_of_string.
Qed.

(** The content the hook computes, and the properties of it. *)
Lemma cleaned_content (c : string) :
  let c' := Js.trim (Js.squeeze c) in
  Js.trim c' = c'
  /\ single_spaced false (list_ascii_of_string c') = true
  /\ Js.count_word c' = Js.count_word c
  /\ (String.length c' <= String.length c)%nat
  /\ Js.trim (Js.squeeze c') = c'.
Proof.
  cbn zeta.
  assert (Hs : single_spaced false (list_ascii_of_string (Js.trim (Js.squeeze c)))
               = true).
  { rewrite trim_as_list, squeeze_as_list.
    apply trim_list_single_spaced with (b := false), collapse_single_spaced. }
  split; [apply trim_idem|]. split; [exact Hs|]. split.
  - now rewrite count_word_trim, count_word_squeeze.
  - split.
    + pose proof (length_trim (Js.squeeze c)). pose proof (length_squeeze c). lia.
    + rewrite (squeeze_fixed _ Hs). apply trim_idem.
Qed.

Lemma pre_save_content (now : Z) (modified : bool) (r : Review.t) :
  Review.reviewContent (Review.pre_save now modified r)
  = if String.eqb (Review.reviewContent r) "" then ""
    else Js.trim (Js.squeeze (Review.reviewContent r)).
Proof.
  unfold Review.pre_save.
  assert (Hc : Review.reviewContent
                 (if modified then Review.set_lastModified now r else r)
               = Review.reviewContent r) by (destruct modified; reflexivity).
  rewrite Hc. destruct (String.eqb (Review.reviewContent r) "") eqn:E; cbn [negb].
  - rewrite Hc. now apply String.eqb_eq in E.
  - unfold Review.set_reviewContent. cbn [Review.reviewContent]. apply trim_idem.
Qed.

(** X13.  The pre-save hook of the Review schema leaves a text without white
    space at its ends, in which every white-space character is a single
    space between two other characters; it keeps the number of word
    characters, never makes the text longer, and running it again changes
    nothing. *)
Theorem pre_save_normalises_content (now now' : Z) (modified modified' : bool)
        (r : Review.t) :
  let c := Review.reviewContent r in
  let c' := Review.reviewContent (Review.pre_save now modified r) in
  Js.trim c' = c'
  /\ single_spaced false (list_ascii_of_string c') = true
  /\ Js.count_word c' = Js.count_word c
  /\ (String.length c' <= String.length c)%nat
  /\ Review.reviewContent
       (Review.pre_save now' modified' (Review.pre_save now modified r)) = c'.
Proof.
  cbn zeta. rewrite (pre_save_content now' modified'), !pre_save_content.
  destruct (String.eqb (Review.reviewContent r) "") eqn:E.
  - apply String.eqb_eq in E. rewrite E. repeat split; reflexivity.
  - destruct (cleaned_content (Review.reviewContent r)) as (H1 & H2 & H3 & H4 & H5).
    repeat (split; [assumption|]).
    destruct (String.eqb (Js.trim (Js.squeeze (Review.reviewContent r))) "") eqn:E';
      [|exact H5].
    apply String.eqb_eq in E'. now rewrite E'.
Qed.

(** ** Every stored document is acceptable *)

Lemma Forall2_Forall (A : Type) (R : A -> A -> Prop) (P Q : A -> Prop) (l l' : list A) :
  (forall d d', R d d' -> P d -> Q d') -> Forall2 R l l' -> Forall P l -> Forall Q l'.
Proof.
  intros HR H. induction H as [|x y l l' Hxy _ IH]; intros HP; constructor;
    inversion HP; subst; eauto.
Qed.

Lemma book_well_stored_fields (now : Z) (d d' : Book.t) :
  same_descriptive_fields d d' -> book_well_stored now d -> book_well_stored now d'.
Proof.
  unfold same_descriptive_fields, book_well_stored.
  intros (_ & -> & -> & -> & -> & -> & _). trivial.
Qed.

Lemma books_well_stored_metrics (now : Z) (b : ObjectId) (l l' : list Book.t) :
  Forall2 (only_metrics_of b) l l' ->
  Forall (book_well_stored now) l -> Forall (book_well_stored now) l'.
Proof.
  apply Forall2_Forall. intros d d' [_ H]. now apply book_well_stored_fields.
Qed.

Lemma review_well_stored_users (s s' : State) (r : Review.t) :
  users s' = users s -> review_well_stored s r -> review_well_stored s' r.
Proof. unfold review_well_stored, User_exists. now intros ->. Qed.

Lemma reviews_well_stored_users (s s' : State) (l : list Review.t) :
  users s' = users s ->
  Forall (review_well_stored s) l -> Forall (review_well_stored s') l.
Proof.
  intros Hu. apply Forall_impl. intros r. now apply review_well_stored_users.
Qed.

Lemma acceptable_year_later (y y' : Z) (v : Q) :
  (y <= y')%Z -> acceptable_year y v -> acceptable_year y' v.
Proof. intros Hle (z & Hz & Hr). exists z. split; [exact Hz | lia]. Qed.

Lemma apply_ReviewUpdate_well_stored (body : ReviewPatch) (stamp : Z) (s : State)
      (r : Review.t) :
  put_review_errors body = [] ->
  ReviewUpdate_valid (review_updateData body) = true ->
  review_well_stored s r ->
  review_well_stored s (apply_ReviewUpdate (review_updateData body) stamp r).
Proof.
  intros He Hv (Hu & Hr & Hl & Hw & Ht).
  apply put_review_errors_nil in He.
  pose proof (proj1 (ReviewUpdate_valid_spec He) Hv) as Htext.
  rewrite (review_updateData_well_formed He).
  destruct He as [Hrating _].
  unfold review_well_stored, apply_ReviewUpdate.
  cbn [upd_starRating upd_reviewContent].
  destruct (patch_rating body) as [q|] eqn:Eq;
    destruct (patch_reviewText body) as [t|] eqn:Et; cbn [option_map];
    unfold Review.set_updatedAt, Review.set_reviewContent, Review.set_starRating;
    cbn [Review.reviewAuthor Review.starRating Review.reviewContent];
    rewrite ?trim_idem;
    (split; [exact Hu|]);
    (split; [first [exact Hr | destruct Hrating as [Hn | Hi]; [discriminate Hn | exact Hi]]|]);
    try (destruct (Htext t eq_refl) as [Hlen Hwords]);
    repeat split; first [assumption | lia | apply trim_idem].
Qed.

Lemma apply_BookUpdate_well_stored (now : Z) (body : BookBody) (stamp : Z)
      (bk : Book.t) :
  put_book_errors now body = [] ->
  BookUpdate_valid now (book_updateData body) = true ->
  book_well_stored now bk ->
  book_well_stored now (apply_BookUpdate (book_updateData body) stamp bk).
Proof.
  intros He Hv (Ht & Ha & Hd & Hg & Hy & Tt & Ta & Td).
  destruct (proj1 (book_update_checks now body) (conj He Hv))
    as (Ct & Ca & Cd & Cg & Cy).
  rewrite (@book_updateData_checked _ _ He). unfold when_present in *.
  unfold apply_BookUpdate.
  cbn [upd_bookTitle upd_authorName upd_bookSummary upd_literaryGenre
       upd_publicationYear].
  destruct bk. cbn [Book.bookTitle Book.authorName Book.bookSummary Book.literaryGenre
                    Book.publicationYear] in *.
  unfold book_well_stored.
  unfold acceptable_title, acceptable_author, acceptable_description in *.
  destruct (title body) as [t|], (author body) as [a|], (description body) as [d|],
    (genre body) as [g|], (publishedYear body) as [y|];
    cbn [set_if option_map];
    repeat (first [ progress unfold Book.set_bookTitle
                  | progress unfold Book.set_authorName
                  | progress unfold Book.set_bookSummary
                  | progress unfold Book.set_literaryGenre
                  | progress unfold Book.set_publicationYear
                  | progress unfold Book.set_updatedAt ];
            cbn [Book._id Book.bookTitle Book.authorName Book.bookSummary
                 Book.literaryGenre Book.publicationYear Book.sharedBy
                 Book.communityRating Book.reviewCount Book.createdAt
                 Book.updatedAt]);
    rewrite ?trim_idem;
    (split; [first [exact Ht | apply Ct; reflexivity]|]);
    (split; [first [exact Ha | apply Ca; reflexivity]|]);
    (split; [first [exact Hd | apply Cd; reflexivity]|]);
    (split; [first [exact Hg | apply Cg; reflexivity]|]);
    (split; [first [exact Hy | apply Cy; reflexivity]|]);
    (split; [first [exact Tt | reflexivity]|]);
    (split; [first [exact Ta | reflexivity]|]);
    first [exact Td | reflexivity].
Qed.

Lemma User_exists_sign_up (u : ObjectId) (s : State) :
  User_exists u s = true -> User_exists u (sign_up s) = true.
Proof.
  unfold User_exists, sign_up. cbn [users]. rewrite existsb_app. intros H.
  apply orb_true_iff. left. exact H.
Qed.

Lemma handle_well_stored (req : Request) (s : State) :
  Forall (review_well_stored s) (reviews s) ->
  Forall (book_well_stored (year s)) (books s) ->
  Forall (review_well_stored (fst (handle req s))) (reviews (fst (handle req s)))
  /\ Forall (book_well_stored (year (fst (handle req s)))) (books (fst (handle req s))).
Proof.
  intros Hr Hb.
  destruct (handle_identifiers req s) as (_ & Hu & Hy). rewrite Hy.
  assert (Hr' : Forall (review_well_stored (fst (handle req s))) (reviews s))
    by now apply reviews_well_stored_users with (s := s).
  revert Hu Hr'.
  destruct req as [user body|id user body|id user|user body|id user body|id user];
    cbn [handle]; intros Hu Hr'.
  - destruct (post_review_cases user body s)
      as [[E _] | [[E _] | (raw & b & stars & t & H)]].
    + rewrite E in *. now split.
    + rewrite E in *. now split.
    + cbn zeta in H.
      destruct H as (_ & _ & _ & _ & Hint & Hlen & Hw & _ & Hue & _ & Hrun).
      rewrite Hrun in *. cbn [fst] in *.
      set (saved := Review.mk _ _ _ _ _ _ _ _ _) in *.
      set (s1 := with_reviews _ _) in *.
      destruct (updateBookRating_leaves b (recalculate_after saved s1))
        as (Er & _ & _ & _ & _ & Fb).
      destruct (recalculate_after_leaves saved s1) as (Er' & _ & _ & _ & _ & Fb').
      split.
      * rewrite Er, Er'. unfold s1. cbn [reviews with_reviews].
        apply Forall_app. split; [exact Hr'|]. constructor; [|constructor].
        apply review_well_stored_users with (s := s); [exact Hu|].
        unfold review_well_stored, saved.
        cbn [Review.reviewAuthor Review.starRating Review.reviewContent].
        split; [exact Hue|].
        split; [now apply isInt_spec|].
        destruct (cleaned_content (Js.trim t)) as (C1 & _ & C3 & C4 & _).
        apply len_between_spec in Hlen. apply Nat.leb_le in Hw.
        rewrite C3. repeat split; [lia | exact Hw | exact C1].
      * eapply books_well_stored_metrics; [exact Fb|].
        eapply books_well_stored_metrics; [exact Fb'|]. exact Hb.
  - destruct (put_review_cases id user body s)
      as [[E _] | (rid & r0 & _ & _ & _ & He & Hv & Hrun)].
    + rewrite E in *. now split.
    + rewrite Hrun in *. cbn [fst] in *.
      set (s1 := with_reviews _ _) in *.
      destruct (updateBookRating_leaves (Review.reviewedBook r0) s1)
        as (Er & _ & _ & _ & _ & Fb).
      split.
      * rewrite Er. unfold s1. cbn [reviews with_reviews].
        apply Forall_update_first; [|exact Hr'].
        intros d. now apply apply_ReviewUpdate_well_stored.
      * eapply books_well_stored_metrics; [exact Fb|]. exact Hb.
  - destruct (delete_review_cases id user s)
      as [[E _] | (rid & r0 & _ & _ & _ & Hrun)].
    + rewrite E in *. now split.
    + rewrite Hrun in *. cbn [fst] in *.
      set (s1 := with_reviews _ _) in *.
      destruct (updateBookRating_leaves (Review.reviewedBook r0)
                  (recalculate_after r0 s1)) as (Er & _ & _ & _ & _ & Fb).
      destruct (recalculate_after_leaves r0 s1) as (Er' & _ & _ & _ & _ & Fb').
      split.
      * rewrite Er, Er'. unfold s1. cbn [reviews with_reviews].
        now apply Forall_remove_first.
      * eapply books_well_stored_metrics; [exact Fb|].
        eapply books_well_stored_metrics; [exact Fb'|]. exact Hb.
  - destruct (post_book_cases user body s)
      as [[E _] | [[E _] | (t & a & d & g & y & H)]].
    + rewrite E in *. now split.
    + rewrite E in *. now split.
    + cbn zeta in H.
      destruct H as (_ & _ & _ & _ & _ & Ht & Ha & Hd & Hg & Hyr & Hrun).
      rewrite Hrun in *. cbn [fst] in *. split; [exact Hr'|].
      cbn [books with_books]. apply Forall_app. split; [exact Hb|].
      constructor; [|constructor].
      unfold book_well_stored.
      cbn [Book.bookTitle Book.authorName Book.bookSummary Book.literaryGenre
           Book.publicationYear].
      split; [exact Ht|]. split; [exact Ha|]. split; [exact Hd|].
      split; [exact Hg|]. split; [exact Hyr|].
      split; [|split]; apply trim_idem.
  - destruct (put_book_cases id user body s)
      as [[E _] | (bid & bk & _ & _ & _ & He & Hv & Hrun)].
    + rewrite E in *. now split.
    + rewrite Hrun in *. cbn [fst] in *. split; [exact Hr'|].
      cbn [books with_books]. apply Forall_update_first; [|exact Hb].
      intros d. now apply apply_BookUpdate_well_stored.
  - destruct (delete_book_cases id user s)
      as [[E _] | (bid & bk & _ & _ & _ & Hrun)].
    + rewrite E in *. now split.
    + rewrite Hrun in *. cbn [fst] in *. split; [exact Hr'|].
      cbn [books with_books]. now apply Forall_remove_first.
Qed.

Lemma reachable_well_stored (s : State) :
  reachable s ->
  Forall (review_well_stored s) (reviews s)
  /\ Forall (book_well_stored (year s)) (books s).
Proof.
  induction 1 as [c y | req s _ [Hr Hb] | s _ [Hr Hb] | c y s _ [Hr Hb] Hle].
  - split; constructor.
  - now apply handle_well_stored.
  - split; [|exact Hb]. cbn [reviews sign_up].
    eapply Forall_impl; [|exact Hr].
    intros r (Hu & Hrest). split; [now apply User_exists_sign_up | exact Hrest].
  - split; [exact Hr|]. cbn [books year tick].
    eapply Forall_impl; [|exact Hb].
    intros bk (H1 & H2 & H3 & H4 & H5 & H6).
    repeat (split; [assumption|]). split; [|exact H6].
    now apply acceptable_year_later with (y := year s).
Qed.

(** X14.  In a reachable state every stored review is written by a stored
    user, carries a whole number of stars from 1 to 5 and a trimmed text
    of at most 500 characters with at least five word characters; every
    stored book carries a trimmed title, author and summary within the
    bounds of the schema, one of the ten genres of the route, and a
    publication year that is a whole number from 1400 to the current
    year. *)
Theorem stored_documents_are_acceptable (s : State) :
  reachable s ->
  Forall (review_well_stored s) (reviews s)
  /\ Forall (book_well_stored (year s)) (books s).
Proof. apply reachable_well_stored. Qed.

Lemma stored_documents_are_acceptable_witness :
  Forall (review_well_stored Demo.rated_5_4_3) (reviews Demo.rated_5_4_3).
Proof.
  assert (Hreach : reachable Demo.rated_5_4_3) by session_is_reachable.
  apply (@stored_documents_are_acceptable Demo.rated_5_4_3 Hreach).
Defined.

(** ** The stored aggregates of a reachable state *)

Lemma mean_bounds (l : list Q) :
  l <> [] -> Forall (fun x => 1 <= x /\ x <= 5) l -> 1 <= mean l /\ mean l <= 5.
Proof.
  intros Hne Hall. destruct (total_bounds Hall) as [Hlo Hhi].
  unfold mean.
  assert (Hpos : 0 < inject_Z (Z.of_nat (List.length l))).
  { destruct l as [|x l]; [congruence|].
    change 0 with (inject_Z 0). rewrite <- Zlt_Qlt. simpl List.length. lia. }
  revert Hlo Hhi Hpos. generalize (inject_Z (Z.of_nat (List.length l))) (total l).
  intros n t Hlo Hhi Hpos. split.
  - apply Qle_shift_div_l; [exact Hpos|]. lra.
  - apply Qle_shift_div_r; [exact Hpos|]. lra.
Qed.

Lemma ratings_of_bounds (b : ObjectId) (s : State) :
  reachable s -> Forall (fun x => 1 <= x /\ x <= 5) (ratings_of b s).
Proof.
  intros Hreach. destruct (reachable_consistent Hreach) as (_ & (_ & Hv) & _).
  unfold ratings_of, reviews_of. apply Forall_map. apply Forall_forall.
  intros r Hin. apply filter_In in Hin as [Hin _].
  rewrite Forall_forall in Hv. now apply valid_starRating_bounds, Hv.
Qed.

Lemma ratings_of_nil (b : ObjectId) (s : State) :
  ratings_of b s = [] <-> reviews_of b s = [].
Proof.
  unfold ratings_of. destruct (reviews_of b s); simpl; split; congruence.
Qed.

Lemma tenths (q : Q) : q / 10 == q * (1 # 10).
Proof. reflexivity. Qed.

(** A number of tenths that lies within half a tenth of [x]. *)
Lemma rounded_at_least (x v : Q) (k : Z) :
  rounded_to_one_decimal x v ->
  (inject_Z k / 10 <= v <-> inject_Z k / 10 - (1 # 20) <= x).
Proof.
  intros ((z & Hz) & Hlo & Hhi). rewrite !tenths. rewrite tenths in Hz. split.
  - revert Hhi. generalize (inject_Z k). intros c Hhi H. lra.
  - intros H. rewrite Hz in Hlo |- *.
    assert (Hk : inject_Z k < inject_Z z + 1).
    { revert Hlo H. generalize (inject_Z z) (inject_Z k). intros a c Hlo H. lra. }
    change 1 with (inject_Z 1) in Hk. rewrite <- inject_Z_plus, <- Zlt_Qlt in Hk.
    assert (Hkz : (k <= z)%Z) by lia. rewrite Zle_Qle in Hkz.
    revert Hkz. generalize (inject_Z z) (inject_Z k). intros a c Hkz. lra.
Qed.

Lemma rounded_at_most (x v : Q) (k : Z) :
  rounded_to_one_decimal x v ->
  (v <= inject_Z k / 10 <-> x < inject_Z k / 10 + (1 # 20)).
Proof.
  intros ((z & Hz) & Hlo & Hhi). rewrite !tenths. rewrite tenths in Hz. split.
  - revert Hlo. generalize (inject_Z k). intros c Hlo H. lra.
  - intros H. rewrite Hz in Hhi |- *.
    assert (Hk : inject_Z z < inject_Z k + 1).
    { revert Hhi H. generalize (inject_Z z) (inject_Z k). intros a c Hhi H. lra. }
    change 1 with (inject_Z 1) in Hk. rewrite <- inject_Z_plus, <- Zlt_Qlt in Hk.
    assert (Hkz : (z <= k)%Z) by lia. rewrite Zle_Qle in Hkz.
    revert Hkz. generalize (inject_Z z) (inject_Z k). intros a c Hkz. lra.
Qed.

(** X15.  For a book stored in a reachable state, the stored review count is
    0 exactly when no review references the book, the stored rating is 0
    exactly when no review references the book, and otherwise the rating
    lies between 1 and 5. *)
Theorem rating_tells_whether_reviewed (s : State) (b : ObjectId) (bk : Book.t) :
  reachable s ->
  Book_findById b s = Some bk ->
  (Book.reviewCount bk = 0%nat <-> reviews_of b s = [])
  /\ (Book.communityRating bk == 0 <-> reviews_of b s = [])
  /\ (reviews_of b s <> [] ->
      1 <= Book.communityRating bk /\ Book.communityRating bk <= 5).
Proof.
  intros Hreach Hfind.
  destruct (aggregates_settled_when_reachable b Hreach) as [Havg Hcnt].
  destruct (Hcnt bk Hfind) as [Hc _]. destruct (Havg bk Hfind) as [Hnone Hsome].
  assert (Hrated : reviews_of b s <> [] ->
                   1 <= Book.communityRating bk /\ Book.communityRating bk <= 5).
  { intros Hne.
    assert (Hne' : ratings_of b s <> []) by (now rewrite ratings_of_nil).
    destruct (Hsome Hne') as [Hround _].
    destruct (mean_bounds Hne' (ratings_of_bounds b Hreach)) as [Hlo Hhi].
    split.
    - apply Qle_trans with (inject_Z 10 / 10); [vm_compute; discriminate|].
      apply (proj2 (rounded_at_least 10 Hround)).
      apply Qle_trans with 1; [vm_compute; discriminate | exact Hlo].
    - apply Qle_trans with (inject_Z 50 / 10); [|vm_compute; discriminate].
      apply (proj2 (rounded_at_most 50 Hround)).
      apply Qle_lt_trans with 5; [exact Hhi | vm_compute; reflexivity]. }
  split; [|split; [|exact Hrated]].
  - rewrite Hc. destruct (reviews_of b s); simpl; split; congruence.
  - split.
    + intros Hzero. destruct (reviews_of b s) as [|r l] eqn:E; [reflexivity|].
      exfalso. assert (Hne : reviews_of b s <> []) by congruence.
      rewrite <- E in Hrated. destruct (Hrated Hne) as [Hlo _]. lra.
    + intros Hnil. apply Hnone. now apply ratings_of_nil.
Qed.

Lemma rating_tells_whether_reviewed_witness :
  Book_findById 3%N Demo.rated_5_4_3 = Some (Demo.book_in Demo.rated_5_4_3)
  /\ (Book.reviewCount (Demo.book_in Demo.rated_5_4_3) = 0%nat
      <-> reviews_of 3%N Demo.rated_5_4_3 = []).
Proof.
  assert (Hreach : reachable Demo.rated_5_4_3) by session_is_reachable.
  assert (Hfind : Book_findById 3%N Demo.rated_5_4_3
                  = Some (Demo.book_in Demo.rated_5_4_3)) by (vm_compute; reflexivity).
  split; [exact Hfind|].
  apply (@rating_tells_whether_reviewed Demo.rated_5_4_3 3%N
           (Demo.book_in Demo.rated_5_4_3) Hreach Hfind).
Defined.

Lemma NoDup_map_filter (A B : Type) (key : A -> B) (keep : A -> bool) (docs : list A)
      (Hdocs : NoDup (map key docs)) :
  NoDup (map key (filter keep docs)).
Proof.
  induction docs as [|d docs IH]; simpl in *; [constructor|].
  apply NoDup_cons_iff in Hdocs as [Hd Hdocs].
  destruct (keep d); simpl; [|now apply IH].
  apply NoDup_cons; [|now apply IH].
  intros Hin. apply Hd. apply in_map_iff in Hin as (y & Hy & Hin).
  apply filter_In in Hin as [Hin _]. rewrite <- Hy. now apply in_map.
Qed.

Lemma NoDup_authors (b : ObjectId) (l : list Review.t) :
  Forall (fun r => Review.reviewedBook r = b) l ->
  NoDup (map Review.index_key l) -> NoDup (map Review.reviewAuthor l).
Proof.
  induction l as [|x l IH]; simpl; [constructor|].
  intros Hall Hnd. inversion Hall as [|? ? Hx Hl]; subst.
  inversion Hnd as [|? ? Hk Hnd']; subst.
  constructor; [|now apply IH].
  intros Hin. apply Hk. apply in_map_iff in Hin as (y & Hy & Hin).
  apply in_map_iff. exists y. split; [|exact Hin].
  rewrite Forall_forall in Hl. unfold Review.index_key.
  now rewrite Hy, (Hl y Hin).
Qed.

(** X16.  For a book stored in a reachable state, the reviews that reference
    it come from pairwise different users, so that the stored review
    count (and the [totalReviews] the API exposes) is the number of users
    who reviewed the book. *)
Theorem count_is_number_of_reviewers (s : State) (b : ObjectId) (bk : Book.t) :
  reachable s ->
  Book_findById b s = Some bk ->
  NoDup (map Review.reviewAuthor (reviews_of b s))
  /\ Book.reviewCount bk = List.length (map Review.reviewAuthor (reviews_of b s))
  /\ exposed_totalReviews bk = List.length (map Review.reviewAuthor (reviews_of b s)).
Proof.
  intros Hreach Hfind.
  destruct (aggregates_settled_when_reachable b Hreach) as [_ Hcnt].
  destruct (Hcnt bk Hfind) as [Hc He]. rewrite length_map. split; [|now split].
  apply NoDup_authors with (b := b).
  - apply Forall_forall. intros r Hin. apply filter_In in Hin as [_ Hin].
    now apply N.eqb_eq in Hin.
  - apply NoDup_map_filter. now apply reachable_one_review_per_pair.
Qed.

Lemma count_is_number_of_reviewers_witness :
  Book_findById 3%N Demo.rated_5_4_3 = Some (Demo.book_in Demo.rated_5_4_3)
  /\ NoDup (map Review.reviewAuthor (reviews_of 3%N Demo.rated_5_4_3)).
Proof.
  assert (Hreach : reachable Demo.rated_5_4_3) by session_is_reachable.
  assert (Hfind : Book_findById 3%N Demo.rated_5_4_3
                  = Some (Demo.book_in Demo.rated_5_4_3)) by (vm_compute; reflexivity).
  split; [exact Hfind|].
  apply (@count_is_number_of_reviewers Demo.rated_5_4_3 3%N
           (Demo.book_in Demo.rated_5_4_3) Hreach Hfind).
Defined.

Lemma Qleb_true (x y : Q) : Js.Qleb x y = true <-> x <= y.
Proof. unfold Js.Qleb. apply Qle_bool_iff. Qed.

Lemma Qleb_iff (x y x' y' : Q) :
  (x <= y <-> x' <= y') -> Js.Qleb x y = Js.Qleb x' y'.
Proof.
  intros H. destruct (Js.Qleb x y) eqn:E1, (Js.Qleb x' y') eqn:E2; try reflexivity.
  - apply Qleb_true, H, Qleb_true in E1. congruence.
  - apply Qleb_true, H, Qleb_true in E2. congruence.
Qed.

Lemma Qleb_rounded (k : Z) (lo x v : Q) :
  rounded_to_one_decimal x v ->
  inject_Z k / 10 == lo + (1 # 20) ->
  Js.Qleb (inject_Z k / 10) v = Js.Qleb lo x.
Proof.
  intros Hr Hk. apply Qleb_iff. rewrite (rounded_at_least k Hr), Hk. split; intros H; lra.
Qed.

Lemma quality_label (s : State) (b : ObjectId) (bk : Book.t) :
  reachable s ->
  Book_findById b s = Some bk ->
  Book_virtuals.qualityIndicator bk
  = match ratings_of b s with
    | [] => "Awaiting First Review"
    | _ => quality_of_mean (mean (ratings_of b s))
    end.
Proof.
  intros Hreach Hfind.
  destruct (aggregates_settled_when_reachable b Hreach) as [Havg _].
  destruct (Havg bk Hfind) as [Hnone Hsome].
  unfold Book_virtuals.qualityIndicator.
  destruct (ratings_of b s) as [|q l] eqn:E.
  - destruct (Hnone eq_refl) as [Hz _].
    rewrite !(Qleb_compat_r _ Hz), (Qleb_compat_l _ Hz). reflexivity.
  - assert (Hne : q :: l <> []) by discriminate.
    destruct (Hsome Hne) as [Hround _].
    assert (Hne' : reviews_of b s <> []).
    { intros Hnil. apply ratings_of_nil in Hnil. congruence. }
    assert (Hone : 1 <= Book.communityRating bk).
    { pose proof (ratings_of_bounds b Hreach) as Hb. rewrite E in Hb.
      destruct (mean_bounds Hne Hb) as [Hlo _].
      apply Qle_trans with (inject_Z 10 / 10); [vm_compute; discriminate|].
      apply (proj2 (rounded_at_least 10 Hround)).
      apply Qle_trans with 1; [vm_compute; discriminate | exact Hlo]. }
    unfold quality_of_mean.
    rewrite <- (@Qleb_rounded 45 (445 # 100) _ _ Hround) by reflexivity.
    rewrite <- (@Qleb_rounded 40 (395 # 100) _ _ Hround) by reflexivity.
    rewrite <- (@Qleb_rounded 35 (345 # 100) _ _ Hround) by reflexivity.
    rewrite <- (@Qleb_rounded 30 (295 # 100) _ _ Hround) by reflexivity.
    rewrite <- (@Qleb_rounded 20 (195 # 100) _ _ Hround) by reflexivity.
    rewrite (@Qleb_compat_l (45 # 10) (inject_Z 45 / 10)) by reflexivity.
    rewrite (@Qleb_compat_l 4 (inject_Z 40 / 10)) by reflexivity.
    rewrite (@Qleb_compat_l (35 # 10) (inject_Z 35 / 10)) by reflexivity.
    rewrite (@Qleb_compat_l 3 (inject_Z 30 / 10)) by reflexivity.
    rewrite (@Qleb_compat_l 2 (inject_Z 20 / 10)) by reflexivity.
    assert (Hpos : Js.Qleb (Book.communityRating bk) 0 = false).
    { destruct (Js.Qleb (Book.communityRating bk) 0) eqn:E0; [|reflexivity].
      apply Qleb_true in E0. lra. }
    rewrite Hpos. reflexivity.
Qed.

Lemma popularity_label (s : State) (b : ObjectId) (bk : Book.t) :
  reachable s ->
  Book_findById b s = Some bk ->
  let n := List.length (reviews_of b s) in
  (Book_virtuals.popularityLevel bk = "Newly Discovered" <-> (n < 5)%nat)
  /\ (Book_virtuals.popularityLevel bk = "Getting Attention" <-> (5 <= n < 20)%nat)
  /\ (Book_virtuals.popularityLevel bk = "Well-Reviewed" <-> (20 <= n < 50)%nat)
  /\ (Book_virtuals.popularityLevel bk = "Highly Discussed" <-> (50 <= n < 100)%nat)
  /\ (Book_virtuals.popularityLevel bk = "Community Favorite" <-> (100 <= n)%nat).
Proof.
  intros Hreach Hfind.
  destruct (aggregates_settled_when_reachable b Hreach) as [_ Hcnt].
  destruct (Hcnt bk Hfind) as [Hc _]. cbn zeta. rewrite <- Hc.
  unfold Book_virtuals.popularityLevel. generalize (Book.reviewCount bk). intros n.
  destruct (100 <=? n)%nat eqn:E1; [apply Nat.leb_le in E1 | apply Nat.leb_gt in E1];
    [repeat split; intros; try discriminate; try lia|].
  destruct (50 <=? n)%nat eqn:E2; [apply Nat.leb_le in E2 | apply Nat.leb_gt in E2];
    [repeat split; intros; try discriminate; try lia|].
  destruct (20 <=? n)%nat eqn:E3; [apply Nat.leb_le in E3 | apply Nat.leb_gt in E3];
    [repeat split; intros; try discriminate; try lia|].
  destruct (5 <=? n)%nat eqn:E4; [apply Nat.leb_le in E4 | apply Nat.leb_gt in E4];
    repeat split; intros; try discriminate; try lia.
Qed.


Lemma rounded_compat (x x' v : Q) :
  x == x' -> rounded_to_one_decimal x v -> rounded_to_one_decimal x' v.
Proof.
  intros Hx (Hz & Hlo & Hhi). split; [exact Hz|]. split; lra.
Qed.

Lemma Qeq_bool_integer (k z : Z) (q : Q) :
  q == inject_Z z -> Qeq_bool (inject_Z k) q = (k =? z)%Z.
Proof.
  intros Hq. destruct (Qeq_bool (inject_Z k) q) eqn:E.
  - apply Qeq_bool_iff in E. rewrite Hq in E.
    apply (proj1 (inject_Z_injective k z)) in E. symmetry. now apply Z.eqb_eq.
  - destruct (k =? z)%Z eqn:E'; [|reflexivity].
    apply Z.eqb_eq in E'. subst k. apply Qeq_bool_neq in E. symmetry in Hq. contradiction.
Qed.









(** X18.  For a book stored in a reachable state, [qualityIndicator] reads
    "Awaiting First Review" exactly when no review references the book
    and otherwise follows the mean of the star ratings with each
    threshold lowered by 0.05 ("Exceptional" from a mean of 4.45), and
    [popularityLevel] follows the number of reviews that reference the
    book. *)
Theorem labels_follow_the_reviews (s : State) (b : ObjectId) (bk : Book.t) :
  reachable s ->
  Book_findById b s = Some bk ->
  let n := List.length (reviews_of b s) in
  Book_virtuals.qualityIndicator bk
  = match ratings_of b s with
    | [] => "Awaiting First Review"
    | _ => quality_of_mean (mean (ratings_of b s))
    end
  /\ (Book_virtuals.popularityLevel bk = "Newly Discovered" <-> (n < 5)%nat)
  /\ (Book_virtuals.popularityLevel bk = "Getting Attention" <-> (5 <= n < 20)%nat)
  /\ (Book_virtuals.popularityLevel bk = "Well-Reviewed" <-> (20 <= n < 50)%nat)
  /\ (Book_virtuals.popularityLevel bk = "Highly Discussed" <-> (50 <= n < 100)%nat)
  /\ (Book_virtuals.popularityLevel bk = "Community Favorite" <-> (100 <= n)%nat).
Proof.
  intros Hreach Hfind. split.
  - now apply quality_label.
  - now apply popularity_label.
Qed.

Lemma labels_follow_the_reviews_witness :
  Book_findById 3%N Demo.rated_5_4_3 = Some (Demo.book_in Demo.rated_5_4_3)
  /\ Book_virtuals.qualityIndicator (Demo.book_in Demo.rated_5_4_3)
     = quality_of_mean (mean (ratings_of 3%N Demo.rated_5_4_3)).
Proof.
  assert (Hreach : reachable Demo.rated_5_4_3) by session_is_reachable.
  assert (Hfind : Book_findById 3%N Demo.rated_5_4_3
                  = Some (Demo.book_in Demo.rated_5_4_3)) by (vm_compute; reflexivity).
  split; [exact Hfind|].
  destruct (@labels_follow_the_reviews Demo.rated_5_4_3 3%N
              (Demo.book_in Demo.rated_5_4_3) Hreach Hfind) as [Hq _].
  rewrite Hq. reflexivity.
Defined.

Lemma insert_newest_first_perm (r : Review.t) (l : list Review.t) :
  Permutation (insert_newest_first r l) (r :: l).
Proof.
  induction l as [|x l IH]; simpl; [apply Permutation_refl|].
  destruct (Review.createdAt x <? Review.createdAt r)%Z; [apply Permutation_refl|].
  apply perm_trans with (x :: r :: l); [now apply perm_skip | apply perm_swap].
Qed.

Lemma sort_newest_first_perm (l : list Review.t) : Permutation (sort_newest_first l) l.
Proof.
  induction l as [|r l IH]; simpl; [constructor|].
  apply perm_trans with (r :: sort_newest_first l);
    [apply insert_newest_first_perm | now apply perm_skip].
Qed.

Lemma insert_newest_first_sorted (r : Review.t) (l : list Review.t) :
  Sorted newer_or_same (map transform_review l) ->
  Sorted newer_or_same (map transform_review (insert_newest_first r l)).
Proof.
  induction l as [|x l IH]; simpl; intros Hs.
  - repeat constructor.
  - destruct (Review.createdAt x <? Review.createdAt r)%Z eqn:E.
    + constructor; [exact Hs|]. constructor. unfold newer_or_same. cbn.
      apply Z.ltb_lt in E. lia.
    + apply Z.ltb_ge in E. inversion Hs as [|? ? Hs' Hhd]; subst.
      constructor; [now apply IH|].
      destruct l as [|y l]; simpl.
      * constructor. unfold newer_or_same. cbn. exact E.
      * destruct (Review.createdAt y <? Review.createdAt r)%Z.
        -- constructor. unfold newer_or_same. cbn. exact E.
        -- inversion Hhd; subst. now constructor.
Qed.

Lemma sort_newest_first_sorted (l : list Review.t) :
  Sorted newer_or_same (map transform_review (sort_newest_first l)).
Proof.
  induction l as [|r l IH]; simpl; [constructor|].
  now apply insert_newest_first_sorted.
Qed.

Lemma total_perm (l l' : list Q) : Permutation l l' -> total l == total l'.
Proof.
  induction 1; simpl; try reflexivity.
  - now rewrite IHPermutation.
  - ring.
  - now rewrite IHPermutation1.
Qed.

Lemma mean_perm (l l' : list Q) : Permutation l l' -> mean l == mean l'.
Proof.
  intros H. unfold mean. now rewrite (total_perm H), (Permutation_length H).
Qed.

(** X19.  In a reachable state GET /api/reviews/:bookId answers 200 with
    exactly the reviews that reference the book, the newest first, each
    with [bookId], [userId], [rating] and [reviewText] copied from the
    document; for a stored book the length of the list is the
    [totalReviews] the API exposes and the mean of the listed ratings,
    rounded to one decimal, is the [averageRating] the API exposes. *)
Theorem listed_reviews_match_the_aggregates (s : State) (raw : string) (b : ObjectId) :
  reachable s ->
  Mongo.castObjectId raw = Some b ->
  exists views,
    get_reviews raw s = ReviewList 200 views
    /\ Permutation (map view_review views) (reviews_of b s)
    /\ Sorted newer_or_same views
    /\ Forall (fun v => view_bookId v = b
                        /\ view_userId v = Review.reviewAuthor (view_review v)
                        /\ view_rating v = Review.starRating (view_review v)
                        /\ view_reviewText v = Review.reviewContent (view_review v))
              views
    /\ forall bk, Book_findById b s = Some bk ->
         exposed_totalReviews bk = List.length views
         /\ (views = [] -> exposed_averageRating bk == 0)
         /\ (views <> [] ->
             rounded_to_one_decimal (mean (map view_rating views))
                                    (exposed_averageRating bk)).
Proof.
  intros Hreach Hcast.
  unfold get_reviews. rewrite Hcast, find_reviewedBook. fold (reviews_of b s).
  pose proof (sort_newest_first_perm (reviews_of b s)) as Hperm.
  assert (Hauthors : forallb (fun r => User_exists (Review.reviewAuthor r) s)
                             (sort_newest_first (reviews_of b s)) = true).
  { apply forallb_forall. intros r Hin.
    apply (Permutation_in _ Hperm) in Hin. apply filter_In in Hin as [Hin _].
    destruct (reachable_well_stored Hreach) as [Hr _]. rewrite Forall_forall in Hr.
    now destruct (Hr r Hin) as [Hu _]. }
  rewrite Hauthors. eexists. split; [reflexivity|].
  assert (Hmap : map view_review (map transform_review (sort_newest_first (reviews_of b s)))
                 = sort_newest_first (reviews_of b s)).
  { rewrite map_map. cbn. apply map_id. }
  assert (Hratings : map view_rating
                       (map transform_review (sort_newest_first (reviews_of b s)))
                     = map Review.starRating (sort_newest_first (reviews_of b s))).
  { rewrite map_map. reflexivity. }
  split; [rewrite Hmap; exact Hperm|].
  split; [apply sort_newest_first_sorted|].
  split.
  { apply Forall_forall. intros v Hin. apply in_map_iff in Hin as (r & <- & Hin).
    apply (Permutation_in _ Hperm) in Hin. apply filter_In in Hin as [_ Hin].
    apply N.eqb_eq in Hin. cbn. auto. }
  intros bk Hfind.
  destruct (aggregates_settled_when_reachable b Hreach) as [Havg Hcnt].
  destruct (Hcnt bk Hfind) as [_ Hc]. destruct (Havg bk Hfind) as [Hnone Hsome].
  rewrite length_map, (Permutation_length Hperm). split; [exact Hc|].
  split.
  - intros Hnil. apply Hnone, ratings_of_nil.
    apply (f_equal (map view_review)) in Hnil. rewrite Hmap in Hnil. cbn in Hnil.
    rewrite Hnil in Hperm. now apply Permutation_nil in Hperm.
  - intros Hne.
    assert (Hne' : ratings_of b s <> []).
    { intros Hnil. apply ratings_of_nil in Hnil. rewrite Hnil in Hne.
      now apply Hne. }
    destruct (Hsome Hne') as [Hround He].
    rewrite Hratings.
    apply rounded_compat with (x := mean (ratings_of b s)).
    + apply mean_perm, Permutation_map, Permutation_sym, Hperm.
    + destruct Hround as ((z & Hz) & Hlo & Hhi). split; [exists z|split]; lra.
Qed.

Lemma listed_reviews_match_the_aggregates_witness :
  Mongo.castObjectId (Demo.oid 3) = Some 3%N
  /\ exists views,
       get_reviews (Demo.oid 3) Demo.rated_5_4_3 = ReviewList 200 views
       /\ Permutation (map view_review views) (reviews_of 3%N Demo.rated_5_4_3).
Proof.
  assert (Hreach : reachable Demo.rated_5_4_3) by session_is_reachable.
  assert (Hcast : Mongo.castObjectId (Demo.oid 3) = Some 3%N) by (vm_compute; reflexivity).
  split; [exact Hcast|].
  destruct (@listed_reviews_match_the_aggregates Demo.rated_5_4_3 (Demo.oid 3) 3%N
              Hreach Hcast) as (views & Hrun & Hperm & _).
  exists views. split; assumption.
Defined.

Lemma Book_get_title (d : Book.t) : Book_get d "title" = None.
Proof. reflexivity. Qed.

Lemma Book_get_author (d : Book.t) : Book_get d "author" = None.
Proof. reflexivity. Qed.

Lemma Book_get_genre (d : Book.t) : Book_get d "genre" = None.
Proof. reflexivity. Qed.

Section ListingProperties.

Variable regex_test : string -> string -> string -> bool.
Variable sort_documents : string -> Z -> list Book.t -> list Book.t.
Hypothesis sort_permutes : forall path order l, Permutation (sort_documents path order l) l.

Lemma filtered_query_matches_nothing (search genre : string) (d : Book.t) :
  search <> "" \/ (genre <> "" /\ genre <> "All") ->
  query_matches regex_test (build_query search genre) d = false.
Proof.
  intros H. unfold query_matches, build_query. cbn [query_or query_genre].
  destruct H as [Hs | [Hg Ha]].
  - apply String.eqb_neq in Hs. rewrite Hs. reflexivity.
  - apply String.eqb_neq in Hg, Ha. rewrite Hg, Ha. cbn [negb andb].
    unfold Mongo.matches, Mongo.holds. cbn [forallb fst]. rewrite Book_get_genre.
    cbn [andb]. apply andb_false_r.
Qed.

Lemma str_or_given (v : option string) (x : string) :
  v = Some x -> x <> "" -> str_or v "" = x.
Proof.
  intros -> Hx. unfold str_or. cbn. apply String.eqb_neq in Hx. now rewrite Hx.
Qed.

Lemma filter_none (A : Type) (p : A -> bool) (l : list A) :
  (forall d, p d = false) -> filter p l = [].
Proof. intros H. induction l as [|x l IH]; simpl; [reflexivity|]. now rewrite H. Qed.

Lemma listed_page_is_positive (params : ListParams) (s : State) (pg : BooksPage) :
  list_books regex_test sort_documents params s = Some pg ->
  (1 <= int_or (param_page params) 1)%Z /\ (1 <= int_or (param_limit params) 5)%Z.
Proof.
  unfold list_books.
  assert (Hp : int_or (param_page params) 1 <> 0%Z).
  { unfold int_or. destruct (param_page params) as [n|]; [|discriminate].
    destruct (n =? 0)%Z eqn:E; [discriminate|]. now apply Z.eqb_neq in E. }
  assert (Hl : int_or (param_limit params) 5 <> 0%Z).
  { unfold int_or. destruct (param_limit params) as [n|]; [|discriminate].
    destruct (n =? 0)%Z eqn:E; [discriminate|]. now apply Z.eqb_neq in E. }
  destruct (_ || _) eqn:E; [discriminate|]. intros _.
  apply orb_false_elim in E as [E1 E2]. apply Z.ltb_ge in E1, E2. nia.
Qed.

(** X20.  GET /api/books with a non-empty [search], or with a [genre] other
    than "All", lists no book, counts 0 books over 0 pages and has no
    next page, whatever the store holds: the filter is written over
    [title], [author] and [genre], which are no paths of a stored book. *)
Theorem filtered_listing_is_empty (params : ListParams) (s : State) (pg : BooksPage) :
  (exists x, param_search params = Some x /\ x <> "")
  \/ (exists g, param_genre params = Some g /\ g <> "" /\ g <> "All") ->
  list_books regex_test sort_documents params s = Some pg ->
  page_books pg = []
  /\ totalBooks (pagination pg) = 0%nat
  /\ totalPages (pagination pg) = 0%Z
  /\ hasNext (pagination pg) = false.
Proof.
  intros Hfilter Hrun.
  destruct (listed_page_is_positive _ _ Hrun) as [Hpage Hlimit].
  unfold list_books in Hrun.
  destruct (_ || _); [discriminate|]. injection Hrun as <-.
  assert (Hnone : filter (query_matches regex_test
                            (build_query (str_or (param_search params) "")
                                         (str_or (param_genre params) "")))
                         (books s) = []).
  { apply filter_none. intros d. apply filtered_query_matches_nothing.
    destruct Hfilter as [(x & Hx & Hne) | (g & Hg & Hne & Hall)].
    - left. now rewrite (str_or_given Hx Hne).
    - right. now rewrite (str_or_given Hg Hne). }
  cbn [page_books pagination totalBooks totalPages hasNext].
  rewrite Hnone.
  assert (Hsorted : forall p o, sort_documents p o [] = []).
  { intros p o. apply Permutation_nil, Permutation_sym, sort_permutes. }
  rewrite Hsorted, skipn_nil, firstn_nil. cbn [map List.length].
  assert (Hpages : Qceiling (inject_Z (Z.of_nat 0) / inject_Z (int_or (param_limit params) 5))
                   = 0%Z).
  { rewrite (Qceiling_comp _ 0); [reflexivity|]. unfold Qdiv. cbn. ring. }
  rewrite Hpages. repeat split. apply Z.ltb_ge. lia.
Qed.

Lemma lt_ceiling (p : Z) (x : Q) : (p < Qceiling x)%Z <-> inject_Z p < x.
Proof.
  split.
  - intros H. apply Qle_lt_trans with (inject_Z (Qceiling x - 1)).
    + rewrite <- Zle_Qle. lia.
    + apply Qceiling_lt.
  - intros H. rewrite Zlt_Qlt. apply Qlt_le_trans with x; [exact H | apply Qle_ceiling].
Qed.

Lemma lt_ratio (p n l : Z) :
  (0 < l)%Z -> (inject_Z p < inject_Z n / inject_Z l <-> (p * l < n)%Z).
Proof.
  intros Hl. assert (Hl' : 0 < inject_Z l) by (change 0 with (inject_Z 0); now rewrite <- Zlt_Qlt).
  assert (Hnz : ~ inject_Z l == 0).
  { intros E. rewrite E in Hl'. now apply Qlt_irrefl in Hl'. }
  rewrite Zlt_Qlt, inject_Z_mult. split.
  - intros H.
    assert (H' : inject_Z p * inject_Z l < inject_Z n / inject_Z l * inject_Z l)
      by (apply Qmult_lt_r; assumption).
    assert (E : inject_Z n / inject_Z l * inject_Z l == inject_Z n) by (now field).
    now rewrite E in H'.
  - intros H. now apply Qlt_shift_div_l.
Qed.

(** X21.  GET /api/books, for a page p and a limit l: p and l are at least
    1, the page holds min(l, n - (p - 1) l) books (none beyond the end)
    of the n that match, [hasNext] holds exactly when p l < n, [hasPrev]
    exactly when p > 1, and [totalPages] is the least number of pages of
    l books that hold n books. *)
Theorem listing_pagination (params : ListParams) (s : State) (pg : BooksPage) :
  list_books regex_test sort_documents params s = Some pg ->
  let p := currentPage (pagination pg) in
  let n := Z.of_nat (totalBooks (pagination pg)) in
  let limit := int_or (param_limit params) 5 in
  (1 <= p)%Z /\ (1 <= limit)%Z
  /\ Z.of_nat (List.length (page_books pg)) = Z.max 0 (Z.min limit (n - (p - 1) * limit))
  /\ (hasNext (pagination pg) = true <-> (p * limit < n)%Z)
  /\ (hasPrev (pagination pg) = true <-> (1 < p)%Z)
  /\ ((totalPages (pagination pg) - 1) * limit < n <= totalPages (pagination pg) * limit)%Z.
Proof.
  intros Hrun. destruct (listed_page_is_positive _ _ Hrun) as [Hpage Hlimit].
  unfold list_books in Hrun.
  destruct (_ || _); [discriminate|]. injection Hrun as <-.
  cbn [page_books pagination totalBooks totalPages hasNext hasPrev currentPage].
  cbn zeta.
  set (limit := int_or (param_limit params) 5) in *.
  set (page := int_or (param_page params) 1) in *.
  set (matched := filter _ (books s)).
  set (x := inject_Z (Z.of_nat (List.length matched)) / inject_Z limit).
  split; [exact Hpage|]. split; [exact Hlimit|]. split.
  { rewrite length_map, length_firstn, length_skipn.
    rewrite (Permutation_length (sort_permutes _ _ matched)).
    assert (Hskip : (0 <= (page - 1) * limit)%Z) by nia.
    revert Hskip. generalize ((page - 1) * limit)%Z. intros skip Hskip. lia. }
  split.
  { rewrite Z.ltb_lt, lt_ceiling. unfold x. apply lt_ratio. lia. }
  split; [apply Z.ltb_lt|].
  split.
  - apply lt_ratio; [lia|]. apply lt_ceiling. fold x. lia.
  - assert (H : ~ (Qceiling x * limit < Z.of_nat (List.length matched))%Z); [|lia].
    intros H. apply lt_ratio in H; [|lia]. apply lt_ceiling in H. fold x in H. lia.
Qed.

End ListingProperties.

Lemma filtered_listing_is_empty_witness :
  let params := mkListParams None None (Some "clean") None None None in
  let found := mkBooksPage [] (mkPagination 1 0 0 false false) in
  list_books (fun _ _ _ => true) (fun _ _ l => l) params Demo.rated_5_4_3 = Some found
  /\ page_books found = [].
Proof.
  cbn zeta.
  assert (Hrun : list_books (fun _ _ _ => true) (fun _ _ l => l)
                   (mkListParams None None (Some "clean") None None None)
                   Demo.rated_5_4_3
                 = Some (mkBooksPage [] (mkPagination 1 0 0 false false)))
    by (vm_compute; reflexivity).
  split; [exact Hrun|].
  apply (@filtered_listing_is_empty (fun _ _ _ => true) (fun _ _ l => l)
           (fun _ _ l => Permutation_refl l)
           (mkListParams None None (Some "clean") None None None) Demo.rated_5_4_3
           (mkBooksPage [] (mkPagination 1 0 0 false false))).
  - left. exists "clean". split; [reflexivity | discriminate].
  - exact Hrun.
Defined.

Lemma listing_pagination_witness :
  let params := mkListParams (Some 1%Z) (Some 5%Z) None None None None in
  exists pg,
    list_books (fun _ _ _ => true) (fun _ _ l => l) params Demo.rated_5_4_3 = Some pg
    /\ (hasNext (pagination pg) = true
        <-> (currentPage (pagination pg) * 5 < Z.of_nat (totalBooks (pagination pg)))%Z).
Proof.
  cbn zeta.
  destruct (list_books (fun _ _ _ => true) (fun _ _ l => l)
              (mkListParams (Some 1%Z) (Some 5%Z) None None None None)
              Demo.rated_5_4_3) as [pg|] eqn:Hrun;
    [|vm_compute in Hrun; discriminate Hrun].
  exists pg. split; [reflexivity|].
  apply (@listing_pagination (fun _ _ _ => true) (fun _ _ l => l)
           (fun _ _ l => Permutation_refl l)
           (mkListParams (Some 1%Z) (Some 5%Z) None None None None) Demo.rated_5_4_3 pg
           Hrun).
Defined.

(** ** GET /api/books/:id on a stored book *)

Lemma or_else_given (a fallback : string) :
  (1 <= String.length a)%nat -> or_else a fallback = a.
Proof.
  intros H. unfold or_else. destruct (String.eqb a "") eqn:E; [|reflexivity].
  apply String.eqb_eq in E. subst a. simpl in H. lia.
Qed.

Lemma route_genre_length (g : string) : In g route_genres -> (1 <= String.length g)%nat.
Proof.
  unfold route_genres. simpl. intros H.
  repeat (destruct H as [<- | H]; [simpl; lia|]). contradiction.
Qed.

Lemma reachable_book_well_stored (s : State) (b : ObjectId) (bk : Book.t) :
  reachable s -> Book_findById b s = Some bk -> book_well_stored (year s) bk.
Proof.
  intros Hreach Hfind. destruct (reachable_well_stored Hreach) as [_ Hb].
  rewrite Forall_forall in Hb. apply Hb.
  unfold Book_findById in Hfind. now apply find_some in Hfind as [Hin _].
Qed.

(** X22.  For a book stored in a reachable state GET /api/books/:id answers
    200 with the stored title, author, description, genre and year (no
    fallback value is ever used), a [totalReviews] equal to the number of
    reviews that reference the book, and an [averageRating] equal to 0
    without reviews and to the mean rounded to one decimal otherwise. *)
Theorem shown_book_is_the_stored_one (s : State) (raw : string) (b : ObjectId)
        (bk : Book.t) :
  reachable s ->
  Mongo.castObjectId raw = Some b ->
  Book_findById b s = Some bk ->
  exists v,
    get_book raw s = BookFound 200 v
    /\ view_book v = bk
    /\ view_title v = Book.bookTitle bk
    /\ view_author v = Book.authorName bk
    /\ view_description v = Book.bookSummary bk
    /\ view_genre v = Book.literaryGenre bk
    /\ view_publishedYear v = Book.publicationYear bk
    /\ view_totalReviews v = List.length (reviews_of b s)
    /\ (ratings_of b s = [] -> view_averageRating v == 0)
    /\ (ratings_of b s <> [] ->
        rounded_to_one_decimal (mean (ratings_of b s)) (view_averageRating v)).
Proof.
  intros Hreach Hcast Hfind.
  destruct (reachable_book_well_stored _ Hreach Hfind)
    as ((Ht & _) & (Ha & _) & Hd & Hg & (z & Hz & Hr) & _).
  destruct (aggregates_settled_when_reachable b Hreach) as [Havg Hcnt].
  destruct (Hcnt bk Hfind) as [_ Hc]. destruct (Havg bk Hfind) as [Hnone Hsome].
  unfold get_book. rewrite Hcast, Hfind. eexists. split; [reflexivity|].
  unfold transform_book.
  cbn [view_book view_title view_author view_description view_genre
       view_publishedYear view_totalReviews view_averageRating].
  split; [reflexivity|].
  split; [apply or_else_given; lia|].
  split; [apply or_else_given; lia|].
  split; [apply or_else_given; unfold good_description in Hd; lia|].
  split; [apply or_else_given; now apply route_genre_length|].
  split.
  { destruct (Qeq_bool (Book.publicationYear bk) 0) eqn:E; [|reflexivity].
    apply Qeq_bool_iff in E. rewrite Hz in E. unfold Qeq in E. simpl in E. lia. }
  split; [exact Hc|]. split.
  - intros Hnil. now apply Hnone.
  - intros Hne. destruct (Hsome Hne) as [Hround He].
    destruct Hround as ((z' & Hz') & Hlo & Hhi). split; [exists z'|split]; lra.
Qed.

Lemma shown_book_is_the_stored_one_witness :
  Mongo.castObjectId (Demo.oid 3) = Some 3%N
  /\ Book_findById 3%N Demo.rated_5_4_3 = Some (Demo.book_in Demo.rated_5_4_3)
  /\ exists v,
       get_book (Demo.oid 3) Demo.rated_5_4_3 = BookFound 200 v
       /\ view_totalReviews v = 3%nat.
Proof.
  assert (Hreach : reachable Demo.rated_5_4_3) by session_is_reachable.
  assert (Hcast : Mongo.castObjectId (Demo.oid 3) = Some 3%N) by (vm_compute; reflexivity).
  assert (Hfind : Book_findById 3%N Demo.rated_5_4_3
                  = Some (Demo.book_in Demo.rated_5_4_3)) by (vm_compute; reflexivity).
  split; [exact Hcast|]. split; [exact Hfind|].
  destruct (@shown_book_is_the_stored_one Demo.rated_5_4_3 (Demo.oid 3) 3%N
              (Demo.book_in Demo.rated_5_4_3) Hreach Hcast Hfind)
    as (v & Hrun & _ & _ & _ & _ & _ & _ & Hn & _).
  exists v. split; [exact Hrun|]. rewrite Hn. vm_compute. reflexivity.
Defined.

Lemma ceiling_ratio (n d k : Z) :
  (0 < d)%Z ->
  (Qceiling (inject_Z n / inject_Z d) <= k <-> n <= k * d)%Z.
Proof.
  intros Hd. split.
  - intros H. assert (Hn : ~ (k * d < n)%Z); [|lia].
    intros Hlt. apply (lt_ratio k n Hd), lt_ceiling in Hlt. lia.
  - intros H. assert (Hn : ~ (k < Qceiling (inject_Z n / inject_Z d))%Z); [|lia].
    intros Hlt. apply lt_ceiling, (lt_ratio k n Hd) in Hlt. lia.
Qed.

Lemma ceiling_ratio_gt (n d k : Z) :
  (0 < d)%Z ->
  (k < Qceiling (inject_Z n / inject_Z d) <-> k * d < n)%Z.
Proof.
  intros Hd. rewrite lt_ceiling. now apply lt_ratio.
Qed.

(** X23.  [reviewAge] reads "Today" exactly for a review shared within the
    last day but not at this very instant (then it reads "0 days ago"),
    "Yesterday" for the day before, a number of days from 3 to 7, of
    weeks from 2 to 5, of months from 2 to 13, of years from 2: never a
    count of 1 with a plural unit. *)
Theorem reviewAge_readings (now : Z) (r : Review.t) :
  let elapsed := Z.abs (now - Review.sharedOn r) in
  match Review_virtuals.reviewAge now r with
  | Review_virtuals.Today => (0 < elapsed <= 86400000)%Z
  | Review_virtuals.Yesterday => (86400000 < elapsed <= 2 * 86400000)%Z
  | Review_virtuals.DaysAgo n =>
      (n = 0 /\ now = Review.sharedOn r)%Z
      \/ (3 <= n <= 7 /\ (n - 1) * 86400000 < elapsed <= n * 86400000)%Z
  | Review_virtuals.WeeksAgo n =>
      (2 <= n <= 5 /\ 7 * 86400000 < elapsed <= 30 * 86400000)%Z
  | Review_virtuals.MonthsAgo n =>
      (2 <= n <= 13 /\ 30 * 86400000 < elapsed <= 365 * 86400000)%Z
  | Review_virtuals.YearsAgo n => (2 <= n /\ 365 * 86400000 < elapsed)%Z
  end.
Proof.
  cbn zeta. unfold Review_virtuals.reviewAge.
  change (1000 * 60 * 60 * 24)%Z with 86400000%Z.
  set (elapsed := Z.abs (now - Review.sharedOn r)).
  assert (Hpos : (0 <= elapsed)%Z) by apply Z.abs_nonneg.
  assert (Hzero : elapsed = 0%Z -> now = Review.sharedOn r) by (unfold elapsed; lia).
  set (days := Qceiling (inject_Z elapsed / inject_Z 86400000)).
  assert (Hle : forall k, (days <= k <-> elapsed <= k * 86400000)%Z)
    by (intros k; apply ceiling_ratio; lia).
  assert (Hgt : forall k, (k < days <-> k * 86400000 < elapsed)%Z)
    by (intros k; apply ceiling_ratio_gt; lia).
  destruct (days =? 1)%Z eqn:E1.
  { apply Z.eqb_eq in E1. pose proof (proj1 (Hle 1%Z)). pose proof (proj1 (Hgt 0%Z)). lia. }
  destruct (days =? 2)%Z eqn:E2.
  { apply Z.eqb_eq in E2. pose proof (proj1 (Hle 2%Z)). pose proof (proj1 (Hgt 1%Z)). lia. }
  apply Z.eqb_neq in E1, E2.
  assert (Hdays : (0 <= days)%Z).
  { assert (H : ~ (days <= -1)%Z); [|lia]. intros H. apply Hle in H. lia. }
  destruct (days <=? 7)%Z eqn:E7.
  { apply Z.leb_le in E7.
    destruct (Z.eq_dec days 0) as [E0 | E0].
    - left. split; [exact E0|]. apply Hzero.
      pose proof (proj1 (Hle 0%Z)). lia.
    - right. pose proof (proj1 (Hle days)). pose proof (proj1 (Hgt (days - 1)%Z)). lia. }
  apply Z.leb_gt in E7.
  assert (H7 : (7 * 86400000 < elapsed)%Z) by (apply Hgt; lia).
  destruct (days <=? 30)%Z eqn:E30.
  { apply Z.leb_le in E30. split; [|split; [exact H7 | now apply Hle]].
    change (7 : Q) with (inject_Z 7). split.
    - apply Z.lt_pred_le. cbn. apply ceiling_ratio_gt; lia.
    - apply ceiling_ratio; lia. }
  apply Z.leb_gt in E30.
  assert (H30 : (30 * 86400000 < elapsed)%Z) by (apply Hgt; lia).
  destruct (days <=? 365)%Z eqn:E365.
  { apply Z.leb_le in E365. split; [|split; [exact H30 | now apply Hle]].
    change (30 : Q) with (inject_Z 30). split.
    - apply Z.lt_pred_le. cbn. apply ceiling_ratio_gt; lia.
    - apply ceiling_ratio; lia. }
  apply Z.leb_gt in E365.
  assert (H365 : (365 * 86400000 < elapsed)%Z) by (apply Hgt; lia).
  split; [|exact H365]. change (365 : Q) with (inject_Z 365).
  apply Z.lt_pred_le. cbn. apply ceiling_ratio_gt; lia.
Qed.

Lemma distinct_In (seen tags : list string) (t : string) :
  In t (Book_tags.distinct seen tags) <-> In t tags /\ ~ In t seen.
Proof.
  revert seen. induction tags as [|x l IH]; intros seen; simpl; [tauto|].
  destruct (existsb (String.eqb x) seen) eqn:E.
  - rewrite IH. apply existsb_exists in E as (y & Hy & Hxy).
    apply String.eqb_eq in Hxy. subst y. split; [tauto|].
    intros [[-> | Hin] Hns]; [contradiction | tauto].
  - assert (Hx : ~ In x seen).
    { intros Hin. rewrite <- not_true_iff_false in E. apply E.
      apply existsb_exists. exists x. split; [exact Hin | apply String.eqb_refl]. }
    simpl. rewrite IH. simpl. split.
    + intros [-> | [Hin Hns]]; [tauto|]. split; [tauto|]. tauto.
    + intros [[-> | Hin] Hns]; [tauto|].
      destruct (string_dec x t) as [-> | Hne]; [tauto|]. right. tauto.
Qed.

Lemma distinct_NoDup (seen tags : list string) : NoDup (Book_tags.distinct seen tags).
Proof.
  revert seen. induction tags as [|x l IH]; intros seen; simpl; [constructor|].
  destruct (existsb (String.eqb x) seen); [apply IH|].
  constructor; [|apply IH]. rewrite distinct_In. simpl. tauto.
Qed.

Lemma distinct_fixed (seen tags : list string) :
  NoDup tags -> (forall t, In t tags -> ~ In t seen) ->
  Book_tags.distinct seen tags = tags.
Proof.
  revert seen. induction tags as [|x l IH]; intros seen Hnd Hdis; simpl; [reflexivity|].
  inversion Hnd as [|? ? Hx Hl]; subst.
  destruct (existsb (String.eqb x) seen) eqn:E.
  - apply existsb_exists in E as (y & Hy & Hxy). apply String.eqb_eq in Hxy. subst y.
    exfalso. apply (Hdis x); simpl; tauto.
  - f_equal. apply IH; [exact Hl|].
    intros t Hin [<- | Hs]; [contradiction|]. apply (Hdis t); simpl; tauto.
Qed.

Lemma filter_fixed (A : Type) (p : A -> bool) (l : list A) :
  (forall x, In x l -> p x = true) -> filter p l = l.
Proof.
  induction l as [|x l IH]; simpl; intros H; [reflexivity|].
  rewrite (H x) by tauto. f_equal. apply IH. intros y Hy. apply H. tauto.
Qed.

Lemma tags_pre_save_eq (bookTags : list string) :
  Book_tags.pre_save bookTags = Book_tags.distinct [] (filter Book_tags.kept bookTags).
Proof. unfold Book_tags.pre_save. destruct bookTags; reflexivity. Qed.

Lemma tag_kept (t : string) : Book_tags.kept t = true <-> Js.trim t <> "".
Proof.
  unfold Book_tags.kept. rewrite andb_true_iff, negb_true_iff, Nat.ltb_lt. split.
  - intros [_ Hlen] E. rewrite E in Hlen. simpl in Hlen. lia.
  - intros Hne. split.
    + apply String.eqb_neq. intros ->. now apply Hne.
    + destruct (Js.trim t); [congruence | simpl; lia].
Qed.

(** X24.  The tag clean-up of the Book pre-save hook leaves every tag once,
    keeps exactly the tags that are not blank, and changes nothing when
    it runs again. *)
Theorem cleaned_tags (bookTags : list string) :
  NoDup (Book_tags.pre_save bookTags)
  /\ (forall t, In t (Book_tags.pre_save bookTags)
                <-> In t bookTags /\ Js.trim t <> "")
  /\ Book_tags.pre_save (Book_tags.pre_save bookTags) = Book_tags.pre_save bookTags.
Proof.
  assert (Hin : forall t, In t (Book_tags.pre_save bookTags)
                          <-> In t bookTags /\ Js.trim t <> "").
  { intros t. rewrite tags_pre_save_eq, distinct_In, filter_In, tag_kept. simpl. tauto. }
  assert (Hnd : NoDup (Book_tags.pre_save bookTags))
    by (rewrite tags_pre_save_eq; apply distinct_NoDup).
  split; [exact Hnd|]. split; [exact Hin|].
  rewrite (tags_pre_save_eq (Book_tags.pre_save bookTags)).
  rewrite filter_fixed.
  - apply distinct_fixed; [exact Hnd | simpl; tauto].
  - intros t Ht. apply tag_kept. now apply Hin in Ht.
Qed.

Lemma less_true (x y : Q) : Book_age.less x y = true <-> x < y.
Proof.
  unfold Book_age.less. rewrite negb_true_iff. split.
  - intros H. apply Qnot_le_lt. intros Hle. apply Qleb_true in Hle. congruence.
  - intros H. destruct (Js.Qleb y x) eqn:E; [|reflexivity].
    apply Qleb_true in E. exfalso. now apply (Qlt_not_le _ _ H).
Qed.

Lemma less_integers (a b : Z) : Book_age.less (inject_Z a) (inject_Z b) = (a <? b)%Z.
Proof.
  destruct (a <? b)%Z eqn:E.
  - apply less_true. rewrite <- Zlt_Qlt. now apply Z.ltb_lt.
  - destruct (Book_age.less (inject_Z a) (inject_Z b)) eqn:E'; [|reflexivity].
    apply less_true in E'. rewrite <- Zlt_Qlt in E'. apply Z.ltb_lt in E'. congruence.
Qed.

Lemma less_compat (x y z : Q) : x == y -> Book_age.less x z = Book_age.less y z.
Proof. intros H. unfold Book_age.less. now rewrite (Qleb_compat_r z H). Qed.

Lemma Qeq_bool_compat (x y z : Q) : x == y -> Qeq_bool x z = Qeq_bool y z.
Proof.
  intros H. destruct (Qeq_bool x z) eqn:E1, (Qeq_bool y z) eqn:E2; try reflexivity.
  - apply Qeq_bool_iff in E1. rewrite H in E1. apply Qeq_bool_iff in E1. congruence.
  - apply Qeq_bool_iff in E2. rewrite <- H in E2. apply Qeq_bool_iff in E2. congruence.
Qed.

Lemma Qeq_bool_integers (a b : Z) : Qeq_bool (inject_Z a) (inject_Z b) = (a =? b)%Z.
Proof. rewrite (@Qeq_bool_integer a b (inject_Z b)); reflexivity. Qed.

(** X25.  For a book stored in a reachable state the age behind [bookAge] is
    a whole number of years that is never negative, so that the text is
    determined by that number and an age is only ever shown as 2, 3 or 4
    years. *)
Theorem bookAge_of_stored_book (s : State) (b : ObjectId) (bk : Book.t) :
  reachable s ->
  Book_findById b s = Some bk ->
  exists n : Z,
    (0 <= n <= year s - 1400)%Z
    /\ Book.publicationYear bk == inject_Z (year s - n)
    /\ Book_age.bookAge (year s) bk
       = if (n =? 0)%Z then Book_age.PublishedThisYear
         else if (n =? 1)%Z then Book_age.PublishedLastYear
         else if (n <? 5)%Z
              then Book_age.YearsOld (inject_Z (year s) - Book.publicationYear bk)
         else if (n <? 10)%Z then Book_age.LessThanADecadeOld
         else if (n <? 50)%Z then Book_age.AModernClassic
         else if (n <? 100)%Z then Book_age.ATimelessWork
         else Book_age.AHistoricalTreasure.
Proof.
  intros Hreach Hfind.
  destruct (reachable_book_well_stored _ Hreach Hfind)
    as (_ & _ & _ & _ & (z & Hz & Hr) & _).
  exists (year s - z)%Z. split; [lia|]. split.
  - rewrite Hz. apply inject_Z_injective. lia.
  - unfold Book_age.bookAge.
    assert (Hage : inject_Z (year s) - Book.publicationYear bk == inject_Z (year s - z)).
    { rewrite Hz. unfold Zminus. rewrite inject_Z_plus, inject_Z_opp. ring. }
    rewrite !(Qeq_bool_compat _ Hage), !(less_compat _ Hage).
    change (0 : Q) with (inject_Z 0). change (1 : Q) with (inject_Z 1).
    change (5 : Q) with (inject_Z 5). change (10 : Q) with (inject_Z 10).
    change (50 : Q) with (inject_Z 50). change (100 : Q) with (inject_Z 100).
    rewrite !Qeq_bool_integers, !less_integers. reflexivity.
Qed.

Lemma bookAge_of_stored_book_witness :
  Book_findById 3%N Demo.rated_5_4_3 = Some (Demo.book_in Demo.rated_5_4_3)
  /\ exists n : Z,
       (0 <= n)%Z
       /\ Book.publicationYear (Demo.book_in Demo.rated_5_4_3)
          == inject_Z (year Demo.rated_5_4_3 - n).
Proof.
  assert (Hreach : reachable Demo.rated_5_4_3) by session_is_reachable.
  assert (Hfind : Book_findById 3%N Demo.rated_5_4_3
                  = Some (Demo.book_in Demo.rated_5_4_3)) by (vm_compute; reflexivity).
  split; [exact Hfind|].
  destruct (@bookAge_of_stored_book Demo.rated_5_4_3 3%N
              (Demo.book_in Demo.rated_5_4_3) Hreach Hfind) as (n & [Hn _] & Hy & _).
  exists n. split; assumption.
Defined.

Lemma range_In (a b i : Z) : In i (Pagination_js.range a b) <-> (a <= i <= b)%Z.
Proof.
  unfold Pagination_js.range. rewrite in_map_iff. split.
  - intros (k & <- & Hk). apply in_seq in Hk. lia.
  - intros H. exists (Z.to_nat (i - a)). split; [lia|]. apply in_seq. lia.
Qed.

Lemma range_length (a b : Z) :
  List.length (Pagination_js.range a b) = Z.to_nat (b - a + 1).
Proof. unfold Pagination_js.range. now rewrite length_map, length_seq. Qed.

(** X26.  The Pagination component, for at least two pages and a current
    page among them, draws min(5, totalPages) consecutive page numbers
    within 1..totalPages that include the current page; the first-page
    button is drawn exactly when 1 is not among the numbers, the last-page
    button exactly when the last page is not, and Previous and Next are
    disabled exactly on the first and on the last page. *)
Theorem page_buttons (currentPage totalPages : Z) :
  (2 <= totalPages)%Z -> (1 <= currentPage <= totalPages)%Z ->
  exists d,
    Pagination_js.Pagination currentPage totalPages = Some d
    /\ In currentPage (Pagination_js.pages d)
    /\ Z.of_nat (List.length (Pagination_js.pages d)) = Z.min 5 totalPages
    /\ (exists startPage,
          Pagination_js.pages d
          = Pagination_js.range startPage (startPage + Z.min 5 totalPages - 1))
    /\ (forall i, In i (Pagination_js.pages d) -> (1 <= i <= totalPages)%Z)
    /\ (Pagination_js.first_page d = true <-> ~ In 1%Z (Pagination_js.pages d))
    /\ (Pagination_js.last_page d = true <-> ~ In totalPages (Pagination_js.pages d))
    /\ (Pagination_js.previous_disabled d = true <-> currentPage = 1%Z)
    /\ (Pagination_js.next_disabled d = true <-> currentPage = totalPages).
Proof.
  intros Ht Hc. unfold Pagination_js.Pagination, Pagination_js.window.
  change (Qfloor (inject_Z Pagination_js.maxVisiblePages / 2)) with 2%Z.
  unfold Pagination_js.maxVisiblePages.
  destruct (totalPages <=? 1)%Z eqn:E; [apply Z.leb_le in E; lia|].
  eexists. split; [reflexivity|].
  cbn [Pagination_js.pages Pagination_js.first_page Pagination_js.last_page
       Pagination_js.previous_disabled Pagination_js.next_disabled].
  set (start0 := Z.max 1 (currentPage - 2)).
  set (endPage := Z.min totalPages (start0 + 5 - 1)).
  set (startPage := if (endPage - start0 + 1 <? 5)%Z
                    then Z.max 1 (endPage - 5 + 1) else start0).
  assert (Hstart : (1 <= startPage <= currentPage)%Z
                   /\ (currentPage <= endPage <= totalPages)%Z
                   /\ (endPage - startPage + 1 = Z.min 5 totalPages)%Z).
  { unfold startPage. destruct (endPage - start0 + 1 <? 5)%Z eqn:E5;
      [apply Z.ltb_lt in E5 | apply Z.ltb_ge in E5]; unfold endPage, start0 in *; lia. }
  destruct Hstart as (Hs & He & Hn).
  split; [apply range_In; lia|]. split; [rewrite range_length; lia|].
  split; [exists startPage; f_equal; lia|].
  split; [intros i Hi; apply range_In in Hi; lia|].
  rewrite !range_In, Z.ltb_lt, Z.ltb_lt, !Z.eqb_eq.
  repeat split; intros; lia.
Qed.

Lemma page_buttons_witness :
  exists d,
    Pagination_js.Pagination 7 10 = Some d /\ In 7%Z (Pagination_js.pages d).
Proof.
  destruct (@page_buttons 7 10) as (d & Hrun & Hin & _); [lia | lia |].
  exists d. split; assumption.
Defined.

Lemma length_repeat_Z (A : Type) (x : A) (n : Z) :
  Z.of_nat (List.length (repeat x (Z.to_nat n))) = Z.max 0 n.
Proof. rewrite repeat_length. lia. Qed.

(** X27.  [renderStars] of RatingAnalytics draws five stars for a rating
    from 0 to 5 whose fractional part is 0 or at least 0.5, and only four
    when the fractional part lies strictly between 0 and 0.5. *)
Theorem stars_drawn (rating : Q) :
  0 <= rating -> rating <= 5 ->
  let fraction := rating - inject_Z (Qfloor rating) in
  List.length (RatingAnalytics_js.renderStars rating)
  = if Qeq_bool fraction 0 then 5%nat
    else if Js.Qleb (1 # 2) fraction then 5%nat
    else 4%nat.
Proof.
  intros Hlo Hhi. cbn zeta. unfold RatingAnalytics_js.renderStars.
  unfold RatingAnalytics_js.remainder_1.
  rewrite (proj2 (Qleb_true 0 rating) Hlo).
  pose proof (Qfloor_le rating) as Hf1. pose proof (Qlt_floor rating) as Hf2.
  pose proof (Qle_ceiling rating) as Hc1. pose proof (Qceiling_lt rating) as Hc2.
  assert (Hfl : (0 <= Qfloor rating <= 5)%Z).
  { split.
    - assert (H : (-1 < Qfloor rating)%Z); [|lia]. rewrite Zlt_Qlt.
      rewrite inject_Z_plus in Hf2. change (inject_Z 1) with 1 in Hf2.
      change (inject_Z (-1)) with (-1). lra.
    - rewrite Zle_Qle. change (inject_Z 5) with 5. lra. }
  rewrite !length_app, !repeat_length.
  destruct (Qeq_bool (rating - inject_Z (Qfloor rating)) 0) eqn:E0.
  - apply Qeq_bool_iff in E0.
    assert (Hint : rating == inject_Z (Qfloor rating)) by lra.
    assert (Hceil : Qceiling rating = Qfloor rating).
    { transitivity (Qceiling (inject_Z (Qfloor rating)));
        [apply Qceiling_comp; exact Hint | apply Qceiling_Z]. }
    rewrite Hceil.
    assert (Hhalf : Js.Qleb (1 # 2) (rating - inject_Z (Qfloor rating)) = false).
    { destruct (Js.Qleb _ _) eqn:E; [|reflexivity]. apply Qleb_true in E. lra. }
    rewrite Hhalf. cbn [List.length]. lia.
  - apply Qeq_bool_neq in E0.
    assert (Hceil : Qceiling rating = (Qfloor rating + 1)%Z).
    { assert (H1 : (Qfloor rating < Qceiling rating)%Z).
      { rewrite Zlt_Qlt. apply Qlt_le_trans with rating; [|exact Hc1].
        apply Qle_lteq in Hf1 as [Hlt | Heq]; [exact Hlt|].
        exfalso. apply E0. revert Heq. generalize (inject_Z (Qfloor rating)).
        intros a Heq. lra. }
      assert (H2 : (Qceiling rating - 1 < Qfloor rating + 1)%Z).
      { rewrite Zlt_Qlt. apply Qlt_trans with rating; assumption. }
      lia. }
    rewrite Hceil.
    assert (H5 : (Qfloor rating + 1 <= 5)%Z).
    { rewrite <- Hceil.
      assert (H : inject_Z (Qceiling rating - 1) < inject_Z 5).
      { change (inject_Z 5) with 5. apply Qlt_le_trans with rating; assumption. }
      rewrite <- Zlt_Qlt in H. lia. }
    destruct (Js.Qleb (1 # 2) (rating - inject_Z (Qfloor rating)));
      cbn [List.length]; lia.
Qed.

Lemma stars_drawn_witness :
  List.length (RatingAnalytics_js.renderStars (43 # 10)) = 4%nat.
Proof.
  rewrite (@stars_drawn (43 # 10)); [reflexivity | vm_compute; discriminate
                                     | vm_compute; discriminate].
Defined.
